(** * sticker_maker.background: the background-removal pipeline

    A shallow embedding of [src/sticker_maker/background.py] and the
    properties its specification states about it.

    Conventions of the embedding:
    - Python [str] and [bytes] are Rocq [string]s (byte sequences; text is
      UTF-8).  Case folding is the ASCII one; the digits and blanks of a
      rate are the Unicode ones.
    - A [pathlib.Path] is its string; [d / n] is [joinpath d n].
    - Python [float] is IEEE binary64, as [spec_float] with [prec = 53] and
      [emax = 1024].
    - The host (search path, file system, external processes, the [rembg]
      package, [json.loads]) is a record of functions, [Host]; the pipeline
      is written once for every host.
    - A run returns the events it performed, in order, the file system it
      left and either the raised exception or the returned value. *)

From Stdlib Require Import ZArith List String Ascii Bool Lia.
From Stdlib Require Import Sorting.Permutation Sorting.Sorted.
From Stdlib Require Import Floats.SpecFloat DecimalString.
From Stdlib Require DecimalPos.
Import ListNotations.
Open Scope string_scope.
Set Warnings "-register-all".

(** ** Strings and paths *)

Module Str.

Definition is_upper (c : ascii) : bool :=
  let n := nat_of_ascii c in (65 <=? n)%nat && (n <=? 90)%nat.

Definition lower_char (c : ascii) : ascii :=
  if is_upper c then ascii_of_nat (nat_of_ascii c + 32) else c.

(** [str.lower()] *)
Fixpoint lower (s : string) : string :=
  match s with
  | EmptyString => EmptyString
  | String c s' => String (lower_char c) (lower s')
  end.

(** [s.rfind(c)], [None] for -1 *)
Fixpoint rfind (c : ascii) (s : string) : option nat :=
  match s with
  | EmptyString => None
  | String a s' =>
      match rfind c s' with
      | Some i => Some (S i)
      | None => if Ascii.eqb a c then Some 0%nat else None
      end
  end.

(** [s[i:]] *)
Definition drop (i : nat) (s : string) : string :=
  substring i (String.length s - i) s.

(** [s[:i]] *)
Definition take (i : nat) (s : string) : string := substring 0 i s.

Fixpoint ends_with_slash (s : string) : bool :=
  match s with
  | EmptyString => false
  | String c EmptyString => Ascii.eqb c "/"
  | String _ s' => ends_with_slash s'
  end.

(** [sep.join(l)] *)
Fixpoint join (sep : string) (l : list string) : string :=
  match l with
  | [] => EmptyString
  | [x] => x
  | x :: l' => x ++ sep ++ join sep l'
  end.

(** [c in "0123456789"] *)
Definition is_ascii_digit (c : ascii) : bool :=
  let n := nat_of_ascii c in (48 <=? n)%nat && (n <=? 57)%nat.

Definition of_nat (n : nat) : string :=
  NilZero.string_of_uint (Nat.to_uint n).

Definition of_Z (z : Z) : string :=
  NilZero.string_of_int (Z.to_int z).

End Str.

Module Path.

(** [d / n] for a relative [n] *)
Definition joinpath (d n : string) : string :=
  if Str.ends_with_slash d then d ++ n else d ++ "/" ++ n.

(** [p.name]: the final component *)
Definition name (p : string) : string :=
  match Str.rfind "/" p with
  | Some i => Str.drop (S i) p
  | None => p
  end.

(** [p.suffix]: [name[i:]] when [0 < i < len(name) - 1] for
    [i = name.rfind('.')], else the empty string *)
Definition suffix (p : string) : string :=
  let n := name p in
  match Str.rfind "." n with
  | Some i =>
      if (0 <? i)%nat && (S i <? String.length n)%nat
      then Str.drop i n else EmptyString
  | None => EmptyString
  end.

(** [p.stem]: the name without its suffix *)
Definition stem (p : string) : string :=
  let n := name p in
  match Str.rfind "." n with
  | Some i =>
      if (0 <? i)%nat && (S i <? String.length n)%nat
      then Str.take i n else n
  | None => n
  end.

End Path.

Infix "//" := Path.joinpath (at level 40, left associativity).

(** ** Media kinds *)

Definition _IMAGE_EXTENSIONS : list string :=
  [".png"; ".jpg"; ".jpeg"; ".webp"; ".bmp"; ".tiff"; ".tif"].

(** [x in _IMAGE_EXTENSIONS] *)
Definition in_set (x : string) (l : list string) : bool :=
  existsb (String.eqb x) l.

Inductive MediaKind := StillImage | VideoOrAnimation.

(** The test of [remove_background]:
    [source.suffix.lower() in _IMAGE_EXTENSIONS]. *)
Definition is_image (source : string) : bool :=
  in_set (Str.lower (Path.suffix source)) _IMAGE_EXTENSIONS.

Definition classify (source : string) : MediaKind :=
  if is_image source then StillImage else VideoOrAnimation.

(** ** Extensions, as the specification speaks of them *)

(** The recognised still-image extensions, without the dot. *)
Definition still_image_extensions : list string :=
  ["png"; "jpg"; "jpeg"; "webp"; "bmp"; "tiff"; "tif"].

(** An upper-case ASCII letter and its lower-case form. *)
Inductive letter_case : ascii -> ascii -> Prop :=
| letter_case_intro n :
    (n < 26)%nat ->
    letter_case (ascii_of_nat (65 + n)) (ascii_of_nat (97 + n)).

(** [caseless w x]: the word [w] is the lower-case word [x] up to the
    case of its ASCII letters. *)
Inductive caseless : string -> string -> Prop :=
| caseless_nil : caseless EmptyString EmptyString
| caseless_same c w x : caseless w x -> caseless (String c w) (String c x)
| caseless_upper u l w x :
    letter_case u l -> caseless w x -> caseless (String u w) (String l x).

(** [ext] is, up to case, one of the recognised extensions. *)
Definition recognised (ext : string) : Prop :=
  exists x, In x still_image_extensions /\ caseless ext x.

(** ** Exceptions *)

Inductive exn :=
| BackgroundRemovalError (msg : string)  (* the module's own error class *)
| JSONDecodeError
| ValueError
| ZeroDivisionError
| OverflowError
| TypeError
| AttributeError
| KeyError
| IndexError
| OSError (msg : string)
| RemovalError (msg : string).           (* whatever [rembg.remove] raises *)

(** The pipeline's typed failure is [BackgroundRemovalError]. *)
Definition is_typed (e : exn) : bool :=
  match e with BackgroundRemovalError _ => true | _ => false end.

(** ** Floats *)

Module Float.

Definition prec : Z := 53.
Definition emax : Z := 1024.

Definition of_Z (z : Z) : spec_float := binary_normalize prec emax z 0 false.

Definition ltb : spec_float -> spec_float -> bool := SFltb.
Definition leb : spec_float -> spec_float -> bool := SFleb.

(** The builtin [min(a, b)]: [b] when [b < a], else [a]. *)
Definition py_min (a b : spec_float) : spec_float := if ltb b a then b else a.

(** The builtin [max(a, b)]: [b] when [b > a], else [a]. *)
Definition py_max (a b : spec_float) : spec_float := if ltb a b then b else a.

(** [a / b] on integers: the correctly rounded quotient;
    [ZeroDivisionError] for [b = 0], [OverflowError] when the quotient
    is too large for a float. *)
Definition int_true_divide (a b : Z) : exn + spec_float :=
  match a, b with
  | _, Z0 => inl ZeroDivisionError
  | Z0, _ => inr (S754_zero (b <? 0)%Z)
  | _, _ =>
      let x := S754_finite (a <? 0)%Z (Z.to_pos (Z.abs a)) 0 in
      let y := S754_finite (b <? 0)%Z (Z.to_pos (Z.abs b)) 0 in
      match SFdiv prec emax x y with
      | S754_infinity _ => inl OverflowError
      | q => inr q
      end
  end.

(** Nearest integer to [n / d], ties to even ([0 <= n], [0 < d]). *)
Definition round_half_even (n d : Z) : Z :=
  let q := (n / d)%Z in
  match (2 * (n mod d) ?= d)%Z with
  | Lt => q
  | Gt => (q + 1)%Z
  | Eq => if Z.even q then q else (q + 1)%Z
  end.

Definition digit (d : Z) : ascii := ascii_of_nat (48 + Z.to_nat d).

(** The [k] low decimal digits of [z], most significant first. *)
Fixpoint digits (k : nat) (z : Z) : string :=
  match k with
  | O => EmptyString
  | S k' => digits k' (z / 10)%Z ++ String (digit (z mod 10)%Z) EmptyString
  end.

(** [n / 10^p] printed with [p] decimals, for [0 <= n]. *)
Definition fixed (p : nat) (n : Z) : string :=
  let scale := (10 ^ Z.of_nat p)%Z in
  match p with
  | O => Str.of_Z n
  | _ => Str.of_Z (n / scale)%Z ++ "." ++ digits p n
  end.

Definition sign (s : bool) : string := if s then "-" else EmptyString.

(** [format(x, '.<p>f')]: the exact binary value rounded to [p]
    decimals, ties to even. *)
Definition format_f (p : nat) (x : spec_float) : string :=
  let scale := (10 ^ Z.of_nat p)%Z in
  match x with
  | S754_nan => "nan"
  | S754_infinity s => sign s ++ "inf"
  | S754_zero s => sign s ++ fixed p 0
  | S754_finite s m e =>
      let n := match e with
               | Zneg k => round_half_even (Zpos m * scale) (2 ^ Zpos k)
               | _ => (Zpos m * 2 ^ e * scale)%Z
               end in
      sign s ++ fixed p n
  end.

End Float.

(** ** Unicode text

    A [str] is a sequence of code points; the embedding keeps it as its
    UTF-8 bytes.  The classes below are those of the Unicode database of
    CPython 3.12 (Unicode 15.0): [\d] and [int] take every decimal digit
    (category Nd), [\s] every character for which [str.isspace] holds. *)

Module Unicode.

Definition byte (c : ascii) : N := N_of_ascii c.

(** A continuation byte, [10xxxxxx]. *)
Definition is_cont (b : N) : bool := ((128 <=? b) && (b <=? 191))%N.

(** The code points of a UTF-8 text.  A byte that begins no well-formed
    sequence stands for the code point [0xDC00 + byte], which is in no
    class below. *)
Fixpoint decode (s : string) : list N :=
  match s with
  | EmptyString => []
  | String c0 s0 =>
      let b0 := byte c0 in
      let stray := (0xDC00 + b0)%N in
      if (b0 <? 128)%N then b0 :: decode s0
      else
        match s0 with
        | EmptyString => [stray]
        | String c1 s1 =>
            let b1 := byte c1 in
            if ((194 <=? b0) && (b0 <=? 223))%N && is_cont b1
            then ((b0 - 192) * 64 + (b1 - 128))%N :: decode s1
            else
              match s1 with
              | EmptyString => stray :: decode s0
              | String c2 s2 =>
                  let b2 := byte c2 in
                  let p3 := ((b0 - 224) * 4096 + (b1 - 128) * 64
                             + (b2 - 128))%N in
                  if ((224 <=? b0) && (b0 <=? 239))%N && is_cont b1
                     && is_cont b2 && (0x800 <=? p3)%N
                  then p3 :: decode s2
                  else
                    match s2 with
                    | EmptyString => stray :: decode s0
                    | String c3 s3 =>
                        let b3 := byte c3 in
                        let p4 := ((b0 - 240) * 262144 + (b1 - 128) * 4096
                                   + (b2 - 128) * 64 + (b3 - 128))%N in
                        if ((240 <=? b0) && (b0 <=? 244))%N && is_cont b1
                           && is_cont b2 && is_cont b3
                           && ((0x10000 <=? p4) && (p4 <=? 0x10FFFF))%N
                        then p4 :: decode s3
                        else stray :: decode s0
                    end
              end
        end
  end.

(** The digit zero of every run of decimal digits: the ten digits of a
    script are consecutive code points, in increasing order. *)
Definition zeros : list N :=
  [0x30; 0x660; 0x6f0; 0x7c0; 0x966; 0x9e6; 0xa66; 0xae6; 0xb66; 0xbe6;
   0xc66; 0xce6; 0xd66; 0xde6; 0xe50; 0xed0; 0xf20; 0x1040; 0x1090; 0x17e0;
   0x1810; 0x1946; 0x19d0; 0x1a80; 0x1a90; 0x1b50; 0x1bb0; 0x1c40; 0x1c50;
   0xa620; 0xa8d0; 0xa900; 0xa9d0; 0xa9f0; 0xaa50; 0xabf0; 0xff10; 0x104a0;
   0x10d30; 0x11066; 0x110f0; 0x11136; 0x111d0; 0x112f0; 0x11450; 0x114d0;
   0x11650; 0x116c0; 0x11730; 0x118e0; 0x11950; 0x11c50; 0x11d50; 0x11da0;
   0x11f50; 0x16a60; 0x16ac0; 0x16b50; 0x1d7ce; 0x1d7d8; 0x1d7e2; 0x1d7ec;
   0x1d7f6; 0x1e140; 0x1e2f0; 0x1e4f0; 0x1e950; 0x1fbf0]%N.

(** [unicodedata.decimal(c)], [None] when [c] is not a decimal digit. *)
Definition decimal (c : N) : option Z :=
  match find (fun z => ((z <=? c) && (c <=? z + 9))%N) zeros with
  | Some z => Some (Z.of_N (c - z))
  | None => None
  end.

(** [\d] *)
Definition is_digit (c : N) : bool :=
  match decimal c with Some _ => true | None => false end.

Definition spaces : list N :=
  [0x9; 0xa; 0xb; 0xc; 0xd; 0x1c; 0x1d; 0x1e; 0x1f; 0x20; 0x85; 0xa0;
   0x1680; 0x2000; 0x2001; 0x2002; 0x2003; 0x2004; 0x2005; 0x2006; 0x2007;
   0x2008; 0x2009; 0x200a; 0x2028; 0x2029; 0x202f; 0x205f; 0x3000]%N.

(** [\s] *)
Definition is_space (c : N) : bool := existsb (N.eqb c) spaces.

(** The code point of an ASCII character. *)
Definition chr (c : ascii) : N := N_of_ascii c.

Definition is_chr (a : ascii) (c : N) : bool := N.eqb c (chr a).

End Unicode.

(** ** [fractions.Fraction]

    The string grammar is [_RATIONAL_FORMAT] of CPython 3.12 (underscores
    between digits, spaces around the slash), matched on code points with
    the Unicode classes; the captured groups go through [int], which
    refuses more than 4300 digits (the interpreter's default
    [sys.get_int_max_str_digits()]). *)

Record Fraction := { numerator : Z; denominator : Z }.

Module Frac.

Fixpoint skip_space (s : list N) : list N :=
  match s with
  | c :: s' => if Unicode.is_space c then skip_space s' else s
  | [] => s
  end.

Definition starts_with_digit (s : list N) : bool :=
  match s with c :: _ => Unicode.is_digit c | [] => false end.

(** The longest prefix matching [\d+(_\d+)*] (or nothing): the values of
    its digits and the rest.  [prev] says that the previous character
    was a digit, so that an underscore may follow. *)
Fixpoint scan_digits (prev : bool) (s : list N) : list Z * list N :=
  match s with
  | [] => ([], s)
  | c :: s' =>
      match Unicode.decimal c with
      | Some d => let '(ds, r) := scan_digits true s' in (d :: ds, r)
      | None =>
          if prev && Unicode.is_chr "_" c && starts_with_digit s' then
            scan_digits false s'
          else ([], s)
      end
  end.

(** The value of a digit string, most significant digit first. *)
Definition int_of_digits (ds : list Z) : Z :=
  fold_left (fun acc d => (acc * 10 + d)%Z) ds 0%Z.

(** [int] raises [ValueError] on more than 4300 digits. *)
Definition max_str_digits : Z := 4300.

Definition too_long (ds : list Z) : bool :=
  (max_str_digits <? Z.of_nat (List.length ds))%Z.

(** What [_RATIONAL_FORMAT] captures after the numerator: the digits of
    the denominator, or those of the decimal part and the exponent with
    its sign ([true] for a minus). *)
Inductive tail :=
| Denom (denom : list Z)
| Decimal (decimal : list Z) (exp : option (bool * list Z)).

Definition parse_exp (s : list N) : option (bool * list Z * list N) :=
  match s with
  | c :: s' =>
      if Unicode.is_chr "e" c || Unicode.is_chr "E" c then
        let '(neg, s'') :=
          match s' with
          | x :: r =>
              if Unicode.is_chr "-" x then (true, r)
              else if Unicode.is_chr "+" x then (false, r)
              else (false, s')
          | [] => (false, s')
          end in
        match scan_digits false s'' with
        | ([], _) => None
        | (ds, r) => Some (neg, ds, r)
        end
      else None
  | [] => None
  end.

Definition is_empty (s : string) : bool :=
  match s with EmptyString => true | _ => false end.

Definition at_end (s : list N) : bool :=
  match skip_space s with [] => true | _ => false end.

Definition parse_fraction_tail (r : list N) : option tail :=
  let '(dec, r1) :=
    match r with
    | c :: r' => if Unicode.is_chr "." c then scan_digits false r' else ([], r)
    | [] => ([], r)
    end in
  match parse_exp r1 with
  | Some (neg, ds, r2) =>
      if at_end r2 then Some (Decimal dec (Some (neg, ds))) else None
  | None =>
      if at_end r1 then Some (Decimal dec None) else None
  end.

Definition parse_tail (r : list N) : option tail :=
  match skip_space r with
  | c :: r1 =>
      if Unicode.is_chr "/" c then
        match scan_digits false (skip_space r1) with
        | ([], _) => None
        | (ds, r2) => if at_end r2 then Some (Denom ds) else None
        end
      else parse_fraction_tail r
  | [] => parse_fraction_tail r
  end.

(** The lookahead [(?=\d|\.\d)] *)
Definition lookahead (s : list N) : bool :=
  match s with
  | c :: s' =>
      if Unicode.is_chr "." c then starts_with_digit s' else Unicode.is_digit c
  | [] => false
  end.

(** Some captured group has more digits than [int] takes. *)
Definition over_limit (num : list Z) (t : tail) : bool :=
  too_long num
  || match t with
     | Denom ds => too_long ds
     | Decimal dec e =>
         too_long dec
         || match e with Some (_, ds) => too_long ds | None => false end
     end.

(** Numerator and denominator as [Fraction.__new__] computes them from
    the match of [_RATIONAL_FORMAT], before normalisation; [None] when
    it raises [ValueError]: the string does not match, or [int] refuses
    a group. *)
Definition match_rational (s : string) : option (Z * Z) :=
  let s0 := skip_space (Unicode.decode s) in
  let '(neg, s1) :=
    match s0 with
    | c :: r =>
        if Unicode.is_chr "-" c then (true, r)
        else if Unicode.is_chr "+" c then (false, r)
        else (false, s0)
    | [] => (false, s0)
    end in
  if lookahead s1 then
    let '(num, r) := scan_digits false s1 in
    match parse_tail r with
    | None => None
    | Some t =>
        if over_limit num t then None
        else
          let n := int_of_digits num in
          let '(n, d) :=
            match t with
            | Denom ds => (n, int_of_digits ds)
            | Decimal dec e =>
                let '(n, d) :=
                  match dec with
                  | [] => (n, 1%Z)
                  | _ => let scale := (10 ^ Z.of_nat (List.length dec))%Z in
                         ((n * scale + int_of_digits dec)%Z, scale)
                  end in
                match e with
                | None => (n, d)
                | Some (minus, ds) =>
                    let x := if minus then (- int_of_digits ds)%Z
                             else int_of_digits ds in
                    if (0 <=? x)%Z then ((n * 10 ^ x)%Z, d)
                    else (n, (d * 10 ^ (- x))%Z)
                end
            end in
          Some (if neg then (- n)%Z else n, d)
    end
  else None.

(** The end of [Fraction.__new__]: the zero check and the reduction
    to lowest terms. *)
Definition normalise (n d : Z) : exn + Fraction :=
  if (d =? 0)%Z then inl ZeroDivisionError
  else
    let g := Z.gcd n d in
    let g := if (d <? 0)%Z then (- g)%Z else g in
    inr {| numerator := (n / g)%Z; denominator := (d / g)%Z |}.

(** [Fraction(s)] for a [str] *)
Definition of_string (s : string) : exn + Fraction :=
  match match_rational s with
  | None => inl ValueError
  | Some (n, d) => normalise n d
  end.

(** [Fraction(x)] for a [float]: [x.as_integer_ratio()] *)
Definition of_float (x : spec_float) : exn + Fraction :=
  match x with
  | S754_nan => inl ValueError
  | S754_infinity _ => inl OverflowError
  | S754_zero _ => normalise 0 1
  | S754_finite s m e =>
      let n := if s then Zneg m else Zpos m in
      match e with
      | Zneg k => normalise n (2 ^ Zpos k)
      | _ => normalise (n * 2 ^ e) 1
      end
  end.

(** [float(f)]: [numerator / denominator] *)
Definition to_float (f : Fraction) : exn + spec_float :=
  Float.int_true_divide (numerator f) (denominator f).

End Frac.

(** ** Decoded JSON and the Python operations used on it *)

Inductive json :=
| JNull
| JBool (b : bool)
| JInt (z : Z)
| JFloat (x : spec_float)
| JStr (s : string)
| JList (l : list json)
| JDict (d : list (string * json)).

Module Py.

(** Truth value of an object, as [or] tests it. *)
Definition truthy (v : json) : bool :=
  match v with
  | JNull => false
  | JBool b => b
  | JInt z => negb (z =? 0)%Z
  | JFloat (S754_zero _) => false
  | JFloat _ => true
  | JStr s => negb (Frac.is_empty s)
  | JList l => match l with [] => false | _ => true end
  | JDict d => match d with [] => false | _ => true end
  end.

(** [a or b] *)
Definition or_ (a b : json) : json := if truthy a then a else b.

Fixpoint lookup (k : string) (d : list (string * json)) : option json :=
  match d with
  | [] => None
  | (k', v) :: d' => if String.eqb k k' then Some v else lookup k d'
  end.

(** [o.get(k)]: only a dict has the method. *)
Definition get (o : json) (k : string) : exn + json :=
  match o with
  | JDict d => inr match lookup k d with Some v => v | None => JNull end
  | _ => inl AttributeError
  end.

(** [o[0]] *)
Definition getitem0 (o : json) : exn + json :=
  match o with
  | JList (x :: _) => inr x
  | JList [] => inl IndexError
  | JStr (String c _) => inr (JStr (String c EmptyString))
  | JStr EmptyString => inl IndexError
  | JDict _ => inl KeyError
  | _ => inl TypeError
  end.

(** [Fraction(v)] *)
Definition Fraction_new (v : json) : exn + Fraction :=
  match v with
  | JStr s => Frac.of_string s
  | JInt z => Frac.normalise z 1
  | JBool b => Frac.normalise (if b then 1 else 0) 1
  | JFloat x => Frac.of_float x
  | _ => inl TypeError
  end.

(** [str(v)], as [str.format] inserts it, for the values that reach the
    [except] clause of [_probe_fps]: a [str] and the float NaN (see
    [caught_values]); other values never get there and are left
    unprinted. *)
Definition str (v : json) : string :=
  match v with
  | JStr s => s
  | JFloat S754_nan => "nan"
  | _ => EmptyString
  end.

End Py.

(** ** The host *)

Record CompletedProcess := {
  returncode : Z;
  stdout : string;
  stderr : string
}.

(** Everything the module reaches outside itself.  [FS] is the state of
    the machine (files, search path); an external process may change
    it.  [rembg] is [None] when [from rembg import remove] fails. *)
Record Host := {
  FS : Type;
  which : string -> FS -> bool;                 (* [shutil.which(t) is not None] *)
  subprocess_run : list string -> FS -> CompletedProcess * FS;
  resolve : string -> FS -> string;             (* [Path.resolve] *)
  mkdir : string -> FS -> exn + FS;             (* [mkdir(parents=True, exist_ok=True)] *)
  glob : string -> string -> FS -> list string; (* names of the matching entries *)
  read_bytes : string -> FS -> exn + string;
  write_bytes : string -> string -> FS -> exn + FS;
  rembg : option (string -> exn + string);
  json_loads : string -> option json            (* [None]: [JSONDecodeError] *)
}.

(** What a run does, in order. *)
Inductive event :=
| Log (msg : string)                            (* a call of the logging sink *)
| Exec (command : list string) (p : CompletedProcess)
| Mkdir (path : string)
| ReadBytes (path : string)
| Remove (data : string)                        (* a call of [rembg.remove] *)
| WriteBytes (path : string) (data : string).

Record Run (S A : Type) := mkRun {
  trace : list event;
  fs_after : S;
  outcome : exn + A
}.
Arguments mkRun {S A}.
Arguments trace {S A}.
Arguments fs_after {S A}.
Arguments outcome {S A}.

(** [sorted] on file names *)
Fixpoint insert_sorted (x : string) (l : list string) : list string :=
  match l with
  | [] => [x]
  | y :: l' => if String.ltb x y then x :: l else y :: insert_sorted x l'
  end.

Fixpoint sorted (l : list string) : list string :=
  match l with
  | [] => []
  | x :: l' => insert_sorted x (sorted l')
  end.

Record BackgroundRemovalResult := {
  source : string;
  processed : string
}.

Definition f1 : spec_float := Float.of_Z 1.
Definition f30 : spec_float := Float.of_Z 30.
Definition f60 : spec_float := Float.of_Z 60.

(** The [try] block of [_probe_fps]. *)
Definition parse_rate (avg_frame_rate : json) : exn + spec_float :=
  match Py.Fraction_new avg_frame_rate with
  | inl e => inl e
  | inr fraction =>
      if (denominator fraction =? 0)%Z then inl ZeroDivisionError
      else Frac.to_float fraction
  end.

(** [max(1.0, min(60.0, value))] *)
Definition clamp (value : spec_float) : spec_float :=
  Float.py_max f1 (Float.py_min f60 value).

(** [(data.get("streams") or [{}])[0]], then
    [stream.get("avg_frame_rate") or "0/0"] *)
Definition avg_frame_rate_of (data : json) : exn + json :=
  match Py.get data "streams" with
  | inl e => inl e
  | inr streams =>
      match Py.getitem0 (Py.or_ streams (JList [JDict []])) with
      | inl e => inl e
      | inr stream =>
          match Py.get stream "avg_frame_rate" with
          | inl e => inl e
          | inr a => inr (Py.or_ a (JStr "0/0"))
          end
      end
  end.

Module Msg.
Definition ffmpeg_missing : string :=
  "ffmpeg не найден. Установите ffmpeg и добавьте его в PATH.".
Definition ffmpeg_start (command : list string) : string :=
  "Запуск ffmpeg: " ++ Str.join " " command.
Definition ffmpeg_failed (code : Z) : string :=
  "ffmpeg завершился с ошибкой (код " ++ Str.of_Z code ++ ").".
Definition ffprobe_missing : string :=
  "ffprobe не найден. Установите ffmpeg (включая ffprobe).".
Definition ffprobe_start (command : list string) : string :=
  "Определение FPS через ffprobe: " ++ Str.join " " command.
Definition ffprobe_failed (code : Z) : string :=
  "Не удалось определить FPS (код " ++ Str.of_Z code ++ ").".
Definition fps_fallback (value : json) : string :=
  "Не удалось преобразовать значение FPS '" ++ Py.str value
    ++ "', используется 30.".
Definition fps_source (value : spec_float) : string :=
  "FPS источника: " ++ Float.format_f 2 value.
Definition image_start (source : string) : string :=
  "Удаление фона у изображения " ++ source ++ "…".
Definition rembg_missing : string :=
  "Библиотека rembg не установлена. Добавьте 'rembg' в зависимости.".
Definition image_done (destination : string) : string :=
  "Фон удалён: " ++ destination.
Definition no_frames_to_compose (dir : string) : string :=
  "Кадры для сборки видео не найдены: " ++ dir.
Definition start (source : string) : string :=
  "Начало удаления фона из " ++ source.
Definition no_frames_produced : string :=
  "ffmpeg не создал ни одного кадра.".
Definition progress (index total : nat) (name : string) : string :=
  "Удаление фона из кадра " ++ Str.of_nat index ++ "/" ++ Str.of_nat total
    ++ ": " ++ name.
Definition video_done (processed_video : string) : string :=
  "Видео с прозрачным фоном сохранено: " ++ processed_video.
End Msg.

(** ** The module's functions *)

Section Pipeline.

Context (H : Host).

(** A computation on the host: from the state before, the run. *)
Definition M (A : Type) : Type := FS H -> Run (FS H) A.

Definition ret {A} (a : A) : M A := fun fs => mkRun [] fs (inr a).

Definition raise {A} (e : exn) : M A := fun fs => mkRun [] fs (inl e).

Definition bind {A B} (m : M A) (k : A -> M B) : M B :=
  fun fs =>
    let r := m fs in
    match outcome r with
    | inl e => mkRun (trace r) (fs_after r) (inl e)
    | inr a =>
        let r' := k a (fs_after r) in
        mkRun (trace r ++ trace r') (fs_after r') (outcome r')
    end.

Notation "x <- m ;; k" := (bind m (fun x => k))
  (at level 61, m at next level, right associativity).
Notation "m ;;; k" := (bind m (fun _ => k))
  (at level 61, right associativity).

Definition log (msg : string) : M unit :=
  fun fs => mkRun [Log msg] fs (inr tt).

Definition shutil_which (tool : string) : M bool :=
  fun fs => mkRun [] fs (inr (which H tool fs)).

Definition run_process (command : list string) : M CompletedProcess :=
  fun fs =>
    let '(p, fs') := subprocess_run H command fs in
    mkRun [Exec command p] fs' (inr p).

Definition path_resolve (p : string) : M string :=
  fun fs => mkRun [] fs (inr (resolve H p fs)).

Definition path_mkdir (p : string) : M unit :=
  fun fs =>
    match mkdir H p fs with
    | inl e => mkRun [Mkdir p] fs (inl e)
    | inr fs' => mkRun [Mkdir p] fs' (inr tt)
    end.

Definition path_glob (dir pattern : string) : M (list string) :=
  fun fs => mkRun [] fs (inr (glob H dir pattern fs)).

Definition path_read_bytes (p : string) : M string :=
  fun fs => mkRun [ReadBytes p] fs (read_bytes H p fs).

Definition path_write_bytes (p data : string) : M unit :=
  fun fs =>
    match write_bytes H p data fs with
    | inl e => mkRun [WriteBytes p data] fs (inl e)
    | inr fs' => mkRun [WriteBytes p data] fs' (inr tt)
    end.

(** [from rembg import remove], with the module's [except ImportError] *)
Definition import_remove : M (string -> exn + string) :=
  match rembg H with
  | None => raise (BackgroundRemovalError Msg.rembg_missing)
  | Some remove => ret remove
  end.

Definition call_remove (remove : string -> exn + string) (data : string)
  : M string :=
  fun fs => mkRun [Remove data] fs (remove data).

Definition _run_ffmpeg (args : list string) : M unit :=
  found <- shutil_which "ffmpeg" ;;
  if negb found then raise (BackgroundRemovalError Msg.ffmpeg_missing)
  else
    let command := "ffmpeg" :: "-y" :: args in
    log (Msg.ffmpeg_start command) ;;;
    process <- run_process command ;;
    if negb (returncode process =? 0)%Z then
      log (stdout process) ;;;
      log (stderr process) ;;;
      raise (BackgroundRemovalError (Msg.ffmpeg_failed (returncode process)))
    else ret tt.

Definition ffprobe_command (path : string) : list string :=
  ["ffprobe"; "-v"; "error"; "-select_streams"; "v:0";
   "-print_format"; "json"; "-show_streams"; path].

(** The end of [_probe_fps], from [json.loads(process.stdout)] on. *)
Definition read_rate (out : string) : M spec_float :=
  match json_loads H out with
  | None => raise JSONDecodeError
  | Some data =>
      match avg_frame_rate_of data with
      | inl e => raise e
      | inr avg_frame_rate =>
          match parse_rate avg_frame_rate with
          | inl ValueError | inl ZeroDivisionError =>
              log (Msg.fps_fallback avg_frame_rate) ;;;
              ret f30
          | inl e => raise e
          | inr value =>
              let value := clamp value in
              log (Msg.fps_source value) ;;;
              ret value
          end
      end
  end.

Definition _probe_fps (path : string) : M spec_float :=
  found <- shutil_which "ffprobe" ;;
  if negb found then raise (BackgroundRemovalError Msg.ffprobe_missing)
  else
    let command := ffprobe_command path in
    log (Msg.ffprobe_start command) ;;;
    process <- run_process command ;;
    if negb (returncode process =? 0)%Z then
      log (stderr process) ;;;
      raise (BackgroundRemovalError (Msg.ffprobe_failed (returncode process)))
    else read_rate (stdout process).

Definition _remove_background_from_image (source destination : string)
  : M unit :=
  log (Msg.image_start source) ;;;
  remove <- import_remove ;;
  data <- path_read_bytes source ;;
  result <- call_remove remove data ;;
  path_write_bytes destination result ;;;
  log (Msg.image_done destination).

Definition _extract_video_frames (source frames_dir : string) : M unit :=
  path_mkdir frames_dir ;;;
  let frame_pattern := frames_dir // "frame_%07d.png" in
  _run_ffmpeg ["-i"; source; frame_pattern].

Definition compose_args (frames_dir : string) (fps : spec_float)
    (destination : string) : list string :=
  let frame_pattern := frames_dir // "frame_%07d.png" in
  ["-framerate"; Float.format_f 3 fps; "-i"; frame_pattern;
   "-c:v"; "libvpx-vp9"; "-pix_fmt"; "yuva420p"; destination].

Definition _compose_video_from_frames (frames_dir : string)
    (fps : spec_float) (destination : string) : M unit :=
  found <- path_glob frames_dir "frame_*.png" ;;
  match found with
  | [] => raise (BackgroundRemovalError (Msg.no_frames_to_compose frames_dir))
  | _ => _run_ffmpeg (compose_args frames_dir fps destination)
  end.

(** The [for] loop of [remove_background], from [index] on. *)
Fixpoint transform_frames (remove : string -> exn + string)
    (processed_frames_dir : string) (total index : nat)
    (frame_paths : list string) : M unit :=
  match frame_paths with
  | [] => ret tt
  | frame_path :: rest =>
      log (Msg.progress index total (Path.name frame_path)) ;;;
      data <- path_read_bytes frame_path ;;
      processed_data <- call_remove remove data ;;
      path_write_bytes (processed_frames_dir // Path.name frame_path)
        processed_data ;;;
      transform_frames remove processed_frames_dir total (S index) rest
  end.

(** [sorted(frames_dir.glob("frame_*.png"))]: the paths of one directory
    are ordered as their names. *)
Definition sorted_glob (dir pattern : string) : M (list string) :=
  names <- path_glob dir pattern ;;
  ret (map (Path.joinpath dir) (sorted names)).

(** The end of [remove_background], after the loop: the probe, the
    composition and the result. *)
Definition finish_video (source workspace processed_frames_dir : string)
  : M BackgroundRemovalResult :=
  fps <- _probe_fps source ;;
  let processed_video := workspace // (Path.stem source ++ "_bg_removed.webm") in
  _compose_video_from_frames processed_frames_dir fps processed_video ;;;
  log (Msg.video_done processed_video) ;;;
  ret {| source := source; processed := processed_video |}.

(** [remove_background] from [if not frame_paths] on. *)
Definition process_frames (source workspace processed_frames_dir : string)
    (remove : string -> exn + string) (frame_paths : list string)
  : M BackgroundRemovalResult :=
  match frame_paths with
  | [] => raise (BackgroundRemovalError Msg.no_frames_produced)
  | _ =>
      transform_frames remove processed_frames_dir
        (List.length frame_paths) 1 frame_paths ;;;
      finish_video source workspace processed_frames_dir
  end.

(** The video branch of [remove_background], on resolved paths. *)
Definition remove_background_video (source workspace : string)
  : M BackgroundRemovalResult :=
  let frames_dir := workspace // "frames" in
  _extract_video_frames source frames_dir ;;;
  let processed_frames_dir := workspace // "frames_processed" in
  path_mkdir processed_frames_dir ;;;
  remove <- import_remove ;;
  frame_paths <- sorted_glob frames_dir "frame_*.png" ;;
  process_frames source workspace processed_frames_dir remove frame_paths.

Definition remove_background (source workspace : string)
  : M BackgroundRemovalResult :=
  source <- path_resolve source ;;
  workspace <- path_resolve workspace ;;
  log (Msg.start source) ;;;
  if is_image source then
    let processed_path := workspace // (Path.stem source ++ "_bg_removed.png") in
    _remove_background_from_image source processed_path ;;;
    ret {| source := source; processed := processed_path |}
  else remove_background_video source workspace.

End Pipeline.

Arguments ret {H A}.
Arguments raise {H A}.
Arguments bind {H A B}.

(** The decoded [{"streams": [{"avg_frame_rate": "<rate>"}]}]: what the
    probe prints for a source whose first video stream has the average
    frame rate [rate]. *)
Definition probe_data (rate : string) : json :=
  JDict [("streams", JList [JDict [("avg_frame_rate", JStr rate)]])].

(** ** A small concrete host

    Files are a list of (path, content); the tools found on the search
    path, what the external programs return and what [json.loads] makes of
    the probe's output are given by a [Scenario]. *)

Module Demo.

Record Scenario := {
  tools : list string;                  (* programs on the search path *)
  frames : list (string * string);      (* what extraction writes: name, content *)
  ffmpeg_result : CompletedProcess;
  ffprobe_result : CompletedProcess;
  decoded : option json;                (* [json.loads] of the probe's stdout *)
  removal : option (string -> exn + string)
}.

Definition Files := list (string * string).

Fixpoint find (p : string) (fs : Files) : option string :=
  match fs with
  | [] => None
  | (q, c) :: fs' => if String.eqb p q then Some c else find p fs'
  end.

Definition ends_with (suffix s : string) : bool :=
  String.eqb (Str.drop (String.length s - String.length suffix) s) suffix.

(** [fnmatch(n, "frame_*.png")] *)
Definition is_frame_name (n : string) : bool :=
  String.prefix "frame_" n && ends_with ".png" n
  && (10 <=? String.length n)%nat.

(** The directory of a path: what precedes its last slash. *)
Definition parent (p : string) : string :=
  match Str.rfind "/" p with
  | Some i => Str.take i p
  | None => EmptyString
  end.

(** [ffmpeg -y -i <source> <pattern>] writes the frames next to the
    pattern; any other [ffmpeg] command writes its last argument. *)
Definition run (sc : Scenario) (command : list string) (fs : Files)
  : CompletedProcess * Files :=
  match command with
  | tool :: args =>
      if String.eqb tool "ffprobe" then (ffprobe_result sc, fs)
      else if String.eqb tool "ffmpeg" then
        if (returncode (ffmpeg_result sc) =? 0)%Z then
          match args with
          | [_; i; _; pattern] =>
              if String.eqb i "-i" then
                (ffmpeg_result sc,
                 (fs ++ map (fun f => (parent pattern // fst f, snd f))
                          (frames sc))%list)
              else (ffmpeg_result sc, (List.last args EmptyString, "webm") :: fs)
          | _ => (ffmpeg_result sc, (List.last args EmptyString, "webm") :: fs)
          end
        else (ffmpeg_result sc, fs)
      else ({| returncode := 127; stdout := EmptyString; stderr := EmptyString |}, fs)
  | [] => ({| returncode := 127; stdout := EmptyString; stderr := EmptyString |}, fs)
  end.

Definition entries (dir pattern : string) (fs : Files) : list string :=
  if String.eqb pattern "frame_*.png" then
    map (fun f => Path.name (fst f))
      (filter (fun f => String.eqb (dir // Path.name (fst f)) (fst f)
                        && is_frame_name (Path.name (fst f))) fs)
  else [].

Definition host (sc : Scenario) : Host := {|
  FS := Files;
  which := fun tool _ => in_set tool (tools sc);
  subprocess_run := run sc;
  resolve := fun p _ => p;
  mkdir := fun _ fs => inr fs;
  glob := entries;
  read_bytes := fun p fs =>
    match find p fs with
    | Some c => inr c
    | None => inl (OSError "No such file or directory")
    end;
  write_bytes := fun p data fs => inr ((p, data) :: fs);
  rembg := removal sc;
  json_loads := fun s =>
    if String.eqb s (stdout (ffprobe_result sc)) then decoded sc else None
|}.

Definition ok (out : string) : CompletedProcess :=
  {| returncode := 0; stdout := out; stderr := EmptyString |}.

(** A removal engine that marks what it has processed. *)
Definition cutout (data : string) : exn + string := inr ("cut:" ++ data).

Definition quoted (s : string) : string :=
  let q := String (ascii_of_nat 34) EmptyString in q ++ s ++ q.

(** The text [{"streams": [{"avg_frame_rate": "<rate>"}]}], which
    decodes to [probe_data rate] *)
Definition probe_text (rate : string) : string :=
  "{" ++ quoted "streams" ++ ": [{" ++ quoted "avg_frame_rate" ++ ": "
    ++ quoted rate ++ "}]}".

(** A machine with both tools and the removal engine, a source that
    extracts to the given frames and a probe that reports [rate]. *)
Definition video (names : list string) (rate : string) : Scenario := {|
  tools := ["ffmpeg"; "ffprobe"];
  frames := map (fun n => (n, "png:" ++ n)) names;
  ffmpeg_result := ok EmptyString;
  ffprobe_result := ok (probe_text rate);
  decoded := Some (probe_data rate);
  removal := Some cutout
|}.

(** A machine without any tool. *)
Definition bare : Scenario :=
  {| tools := [];
     frames := [];
     ffmpeg_result := ok EmptyString;
     ffprobe_result := ok EmptyString;
     decoded := None;
     removal := Some cutout |}.

(** The probe exits with 0 but prints something that is not JSON. *)
Definition garbled : Scenario :=
  {| tools := ["ffmpeg"; "ffprobe"];
     frames := [];
     ffmpeg_result := ok EmptyString;
     ffprobe_result := ok "Usage: ffprobe [OPTIONS] INPUT_FILE";
     decoded := None;
     removal := Some cutout |}.

(** Both tools are found and both exit with code 1, each having
    written to both of its streams. *)
Definition failing : Scenario :=
  {| tools := ["ffmpeg"; "ffprobe"];
     frames := [];
     ffmpeg_result :=
       {| returncode := 1; stdout := "ffmpeg out"; stderr := "ffmpeg err" |};
     ffprobe_result :=
       {| returncode := 1; stdout := "{ }";
          stderr := "/in/clip.mp4: Invalid data found when processing input" |};
     decoded := Some (JDict []);
     removal := Some cutout |}.

(** [clip.mp4]: two frames at 24 frames per second. *)
Definition clip : Scenario :=
  video ["frame_0000002.png"; "frame_0000001.png"] "24/1".

(** The state in which one transformed frame awaits composition. *)
Definition transformed_files : Files :=
  [("/tmp/ws/frames_processed/frame_0000001.png", "cut:png")].

Definition clip_files : Files := [("/in/clip.mp4", "mp4")].

(** The files once the two frames of [clip.mp4] are extracted. *)
Definition extracted_files : Files :=
  [("/in/clip.mp4", "mp4");
   ("/tmp/ws/frames/frame_0000002.png", "png:frame_0000002.png");
   ("/tmp/ws/frames/frame_0000001.png", "png:frame_0000001.png")].

(** The same machine with a source that extracts to no frame. *)
Definition blank : Scenario := video [] "24/1".

End Demo.

(** The pipeline on [clip.mp4] in the workspace [/tmp/ws]. *)
Definition clip_run : Run Demo.Files BackgroundRemovalResult :=
  remove_background (Demo.host Demo.clip) "/in/clip.mp4" "/tmp/ws"
    Demo.clip_files.

(** The pipeline on a source that extracts to no frame. *)
Definition blank_run : Run Demo.Files BackgroundRemovalResult :=
  remove_background (Demo.host Demo.blank) "/in/clip.mp4" "/tmp/ws"
    Demo.clip_files.

(** ** Reading traces *)

Definition is_remove (e : event) : bool :=
  match e with Remove _ => true | _ => false end.

Definition is_exec (e : event) : bool :=
  match e with Exec _ _ => true | _ => false end.

(** A run of the stream-inspection tool. *)
Definition is_probe (e : event) : bool :=
  match e with
  | Exec (tool :: _) _ => String.eqb tool "ffprobe"
  | _ => false
  end.

(** A run of the stream-inspection tool that exited with code 0. *)
Definition is_probe_ok (e : event) : bool :=
  match e with
  | Exec (tool :: _) p => String.eqb tool "ffprobe" && (returncode p =? 0)%Z
  | _ => false
  end.

(** A run of the extraction command, [ffmpeg -y -i ...], that exited
    with code 0. *)
Definition is_extract_ok (e : event) : bool :=
  match e with
  | Exec (tool :: y :: i :: _) p =>
      String.eqb tool "ffmpeg" && String.eqb y "-y" && String.eqb i "-i"
      && (returncode p =? 0)%Z
  | _ => false
  end.

(** Every [P]-event of [t] has a [Q]-event somewhere before it. *)
Definition each_after (P Q : event -> bool) (t : list event) : Prop :=
  forall t1 e t2, t = (t1 ++ e :: t2)%list -> P e = true -> existsb Q t1 = true.

(** No [P]-event of [t] has a [Q]-event anywhere before it. *)
Definition none_before (Q P : event -> bool) (t : list event) : Prop :=
  forall t1 e t2, t = (t1 ++ e :: t2)%list -> P e = true -> existsb Q t1 = false.

(** No event of [t] satisfies [P]. *)
Definition no (P : event -> bool) (t : list event) : Prop :=
  existsb P t = false.

(** An event of the per-frame transformation: a read, a removal or a
    write. *)
Definition is_transform (e : event) : bool :=
  match e with
  | ReadBytes _ | Remove _ | WriteBytes _ _ => true
  | _ => false
  end.

Fixpoint all_digits (s : string) : bool :=
  match s with
  | EmptyString => true
  | String c s' => Str.is_ascii_digit c && all_digits s'
  end.

(** Neither NaN nor an infinity. *)
Definition is_finite (x : spec_float) : bool :=
  match x with
  | S754_zero _ | S754_finite _ _ _ => true
  | _ => false
  end.

(** Position of the first event satisfying [P]. *)
Fixpoint position (P : event -> bool) (t : list event) : option nat :=
  match t with
  | [] => None
  | e :: t' => if P e then Some 0%nat
               else option_map S (position P t')
  end.

Definition is_log (msg : string) (e : event) : bool :=
  match e with Log m => String.eqb m msg | _ => false end.

Definition is_write (path : string) (e : event) : bool :=
  match e with WriteBytes p _ => String.eqb p path | _ => false end.

(** In [t], the first [P]-event comes later than the first [Q]-event. *)
Definition follows (P Q : event -> bool) (t : list event) : Prop :=
  exists i j, position P t = Some i /\ position Q t = Some j /\ (j < i)%nat.

(** What the loop of [remove_background] does for the frames
    [frame_paths], numbered from [index], when it completes: for each
    frame, in order, the progress message, the read, the removal and the
    write under the frame's own name. *)
Inductive frames_trace (remove : string -> exn + string)
    (processed_frames_dir : string) (total : nat)
  : nat -> list string -> list event -> Prop :=
| frames_done index : frames_trace remove processed_frames_dir total index [] []
| frames_step index frame_path rest data processed_data t :
    remove data = inr processed_data ->
    frames_trace remove processed_frames_dir total (S index) rest t ->
    frames_trace remove processed_frames_dir total index (frame_path :: rest)
      (Log (Msg.progress index total (Path.name frame_path))
       :: ReadBytes frame_path
       :: Remove data
       :: WriteBytes (processed_frames_dir // Path.name frame_path) processed_data
       :: t).

(** [_probe_fps] reads the rate string [rate] as [value] and says [msg]:
    on every host where [ffprobe] is found, exits with code 0 and prints
    a document that decodes to [probe_data rate], the probe logs its
    command, runs it, logs [msg] and returns [value]. *)
Definition probe_maps (rate : string) (value : spec_float) (msg : string)
  : Prop :=
  forall (H : Host) (path : string) (fs fs' : FS H) (p : CompletedProcess),
    which H "ffprobe" fs = true ->
    subprocess_run H (ffprobe_command path) fs = (p, fs') ->
    returncode p = 0%Z ->
    json_loads H (stdout p) = Some (probe_data rate) ->
    _probe_fps H path fs
    = mkRun [Log (Msg.ffprobe_start (ffprobe_command path));
             Exec (ffprobe_command path) p;
             Log msg] fs' (inr value).

(** * Observations on runs *)

(** [c] occurs in [s] *)
Fixpoint has_char (c : ascii) (s : string) : bool :=
  match s with
  | EmptyString => false
  | String a s' => Ascii.eqb a c || has_char c s'
  end.

Definition is_mkdir (e : event) : bool :=
  match e with Mkdir _ => true | _ => false end.

(** Number of events of [t] that satisfy [P]. *)
Definition count (P : event -> bool) (t : list event) : nat :=
  List.length (filter P t).

(** The paths read, and the paths written, in order. *)
Definition reads (t : list event) : list string :=
  flat_map (fun e => match e with ReadBytes p => [p] | _ => [] end) t.

Definition writes (t : list event) : list string :=
  flat_map (fun e => match e with WriteBytes p _ => [p] | _ => [] end) t.

(** The suffix of the processed file, by media kind. *)
Definition processed_suffix (source : string) : string :=
  if is_image source then "_bg_removed.png" else "_bg_removed.webm".

(** The listing of a directory gives entry names: no name has a slash. *)
Definition lists_names (H : Host) : Prop :=
  forall dir pattern fs n,
    In n (glob H dir pattern fs) -> has_char "/" n = false.

(** [a <= b] on file names *)
Definition name_le (a b : string) : Prop := String.leb a b = true.

(** The path given to [mkdir], or the file written, lies under the
    directory [ws]: it starts with [ws] and a slash.  Other events are
    not concerned. *)
Definition stays_under (ws : string) (e : event) : bool :=
  match e with
  | Mkdir p | WriteBytes p _ => String.prefix (ws // EmptyString) p
  | _ => true
  end.

Definition escapes (ws : string) (e : event) : bool := negb (stays_under ws e).

(** The value of [-framerate] where the pipeline puts it: right after
    the program's name and its first flag ([ffmpeg -y -framerate r]). *)
Definition framerate_arg (e : event) : option string :=
  match e with
  | Exec (_ :: _ :: flag :: value :: _) _ =>
      if String.eqb flag "-framerate" then Some value else None
  | _ => None
  end.

(** What the loop has done of a frame whose read, removal or write
    raised. *)
Inductive failed_frame (pdir : string) (frame_path : string)
  : list event -> Prop :=
| failed_read : failed_frame pdir frame_path []
| failed_removal data : failed_frame pdir frame_path [Remove data]
| failed_write data out :
    failed_frame pdir frame_path
      [Remove data; WriteBytes (pdir // Path.name frame_path) out].

(** If the event is a process given a [-framerate], the value is a rate
    of [1.0, 60.0] printed with three decimals. *)
Definition rate_ok (e : event) : Prop :=
  forall r, framerate_arg e = Some r ->
  exists v, r = Float.format_f 3 v
            /\ Float.leb f1 v = true /\ Float.leb v f60 = true.

(** The machine of [Demo.clip] without the removal engine. *)
Definition no_engine : Demo.Scenario :=
  {| Demo.tools := ["ffmpeg"; "ffprobe"];
     Demo.frames := Demo.frames Demo.clip;
     Demo.ffmpeg_result := Demo.ok EmptyString;
     Demo.ffprobe_result := Demo.ffprobe_result Demo.clip;
     Demo.decoded := Demo.decoded Demo.clip;
     Demo.removal := None |}.

(** A removal engine that fails on the second frame of [clip.mp4]. *)
Definition picky (data : string) : exn + string :=
  if String.eqb data "png:frame_0000002.png"
  then inl (RemovalError "unreadable image")
  else Demo.cutout data.

(** The two frames of [clip.mp4], in order. *)
Definition clip_frames : list string :=
  ["/tmp/ws/frames/frame_0000001.png"; "/tmp/ws/frames/frame_0000002.png"].

(** The probe's document lacks the rate: no [streams], an empty list of
    streams, or a first stream without [avg_frame_rate]. *)
Definition rate_missing (d : list (string * json)) : Prop :=
  Py.lookup "streams" d = None
  \/ Py.lookup "streams" d = Some (JList [])
  \/ exists stream rest,
       Py.lookup "streams" d = Some (JList (JDict stream :: rest))
       /\ Py.lookup "avg_frame_rate" stream = None.

(** ** Reading a decimal numeral

    The reader below is the standard library's, not the printer of
    [Float]: it says which number a printed rate denotes. *)

(** [s] cut at its first point. *)
Fixpoint cut (s : string) : option (string * string) :=
  match s with
  | EmptyString => None
  | String c s' =>
      if Ascii.eqb c "."%char then Some (EmptyString, s')
      else match cut s' with
           | Some (a, b) => Some (String c a, b)
           | None => None
           end
  end.

(** The natural number written by [s], a non-empty string of decimal
    digits without superfluous zeros. *)
Definition read_int (s : string) : option Z :=
  match NilZero.uint_of_string s with
  | Some u =>
      if String.eqb (NilZero.string_of_uint (Decimal.unorm u)) s
      then Some (Z.of_uint u) else None
  | None => None
  end.

(** The number of thousandths written by [s], a numeral [<int>.<ddd>]
    with exactly three decimals; [None] for any other string. *)
Definition thousandths (s : string) : option Z :=
  match cut s with
  | Some (whole, frac) =>
      if (String.length frac =? 3)%nat then
        match read_int whole, NilEmpty.uint_of_string frac with
        | Some w, Some f => Some (w * 1000 + Z.of_uint f)%Z
        | _, _ => None
        end
      else None
  | None => None
  end.

(** The three digits printed for [r] are read back as [r]. *)
Definition reads_back (r : Z) : bool :=
  match NilEmpty.uint_of_string (Float.digits 3 r) with
  | Some u => (Z.of_uint u =? r)%Z
  | None => false
  end.

(** The exact value of a finite float that is not negative, as a ratio
    with a positive denominator. *)
Definition exact_ratio (x : spec_float) : option (Z * Z) :=
  match x with
  | S754_zero false => Some (0, 1)%Z
  | S754_finite false m (Zneg k) => Some (Zpos m, 2 ^ Zpos k)%Z
  | S754_finite false m e => Some (Zpos m * 2 ^ e, 1)%Z
  | _ => None
  end.

(** [n] is the integer nearest to [num / den], the even one of the two
    when [num / den] lies halfway ([0 < den]). *)
Definition nearest_even (num den n : Z) : Prop :=
  (2 * Z.abs (n * den - num) < den)%Z
  \/ (2 * Z.abs (n * den - num) = den /\ Z.even n = true)%Z.

(** The rate of a film transferred to NTSC video, [float(Fraction(24000,
    1001))]: 23.976023976023976. *)
Definition ntsc_film : spec_float :=
  S754_finite false 6748650790265479 (-48).

(** The machine of [Demo.blank] (a source that extracts to no frame)
    without the removal engine. *)
Definition blank_no_engine : Demo.Scenario :=
  {| Demo.tools := ["ffmpeg"; "ffprobe"];
     Demo.frames := [];
     Demo.ffmpeg_result := Demo.ok EmptyString;
     Demo.ffprobe_result := Demo.ffprobe_result Demo.blank;
     Demo.decoded := Demo.decoded Demo.blank;
     Demo.removal := None |}.

Definition blank_no_engine_run : Run Demo.Files BackgroundRemovalResult :=
  remove_background (Demo.host blank_no_engine) "/in/clip.mp4" "/tmp/ws"
    Demo.clip_files.

(** ** The frame loop, frame by frame *)

(** A frame to transform: its name, the file it is read from and the
    file its result is written to. *)
Definition job : Type := (string * string * string)%type.

(** The frames of the loop over [frame_paths]: each is written under
    its own name into [processed_frames_dir]. *)
Definition jobs_of_paths (processed_frames_dir : string)
    (frame_paths : list string) : list job :=
  map (fun p => (Path.name p, p, processed_frames_dir // Path.name p))
    frame_paths.

(** The frames named [names] of [frames_dir]. *)
Definition jobs_of_names (frames_dir processed_frames_dir : string)
    (names : list string) : list job :=
  map (fun n => (n, frames_dir // n, processed_frames_dir // n)) names.

(** A completed run of the loop over [jobs], numbered from [index],
    from the files [fs] to the files [fs']: for each frame, in order,
    the progress message, the read of the frame, the removal applied to
    the bytes just read, and the write of what the removal returned. *)
Inductive frames_run (H : Host) (remove : string -> exn + string)
    (total : nat)
  : nat -> list job -> FS H -> list event -> FS H -> Prop :=
| frames_run_done index fs : frames_run H remove total index [] fs [] fs
| frames_run_step index name input output rest fs data processed fs1 t fs2 :
    read_bytes H input fs = inr data ->
    remove data = inr processed ->
    write_bytes H output processed fs = inr fs1 ->
    frames_run H remove total (S index) rest fs1 t fs2 ->
    frames_run H remove total index ((name, input, output) :: rest) fs
      (Log (Msg.progress index total name)
       :: ReadBytes input
       :: Remove data
       :: WriteBytes output processed
       :: t) fs2.

(** A run of the composition command, [ffmpeg -y -framerate ...]. *)
Definition is_compose (e : event) : bool :=
  match e with
  | Exec (tool :: y :: flag :: _) _ =>
      String.eqb tool "ffmpeg" && String.eqb y "-y"
      && String.eqb flag "-framerate"
  | _ => false
  end.

(** Only messages. *)
Definition only_logs (t : list event) : Prop :=
  Forall (fun e => exists msg, e = Log msg) t.

(** * Conversion to a sticker ([conversion.py]) *)

Module Conversion.

(** The value of an optional setting; the annotations say [int] and
    [float], the code accepts any object and tests it against [""]. *)
Inductive value :=
| VInt (z : Z)
| VFloat (f : spec_float)
| VStr (s : string).

Record ConversionOptions := {
  scaling : string;
  loop : bool;
  best_quality : bool;
  multithreading : bool;
  lossless : bool;
  guess_value : string;
  guess_iterations : option value;
  guess_min : option value;
  guess_max : option value;
  length : option value;
  framerate : option value;
  bitrate : option value;
  crf : option value
}.

(** [ConversionOptions()] *)
Definition defaults : ConversionOptions :=
  {| scaling := "preserve-ratio"; loop := false; best_quality := false;
     multithreading := false; lossless := false; guess_value := "bitrate";
     guess_iterations := None; guess_min := None; guess_max := None;
     length := None; framerate := None; bitrate := None; crf := None |}.

(** An exception raised inside [tgradish]: whether [except Exception]
    catches it, and its [str]. *)
Record Raised := {
  is_exception : bool;
  text : string
}.

Inductive failure :=
| ConversionError (msg : string)
| FromPath (e : exn)                  (* raised by [mkdir] *)
| FromTgradish (e : Raised).          (* not caught, or raised by [get_config] *)

(** [tgradish] on the host [H]. *)
Record Tgradish (H : Host) := {
  Config : Type;
  get_config : FS H -> (Raised + Config) * FS H;
  convert_video : Config -> list string -> FS H -> (Raised + unit) * FS H
}.
Arguments Config {H}.
Arguments get_config {H}.
Arguments convert_video {H}.

Inductive step :=
| Base (e : event)
| GetConfig
| ConvertVideo (args : list string).

Record Conv (S : Type) := mkConv {
  steps : list step;
  fs_end : S;
  result : failure + string
}.
Arguments mkConv {S}.
Arguments steps {S}.
Arguments fs_end {S}.
Arguments result {S}.

Definition started (args : list string) : string :=
  "Запуск tgradish c аргументами: " ++ Str.join " " args.
Definition failed (err : string) : string :=
  "Не удалось создать стикер: " ++ err.
Definition saved (destination : string) : string :=
  "Стикер сохранён: " ++ destination.

(** [p.parent] of a normalised path, as [resolve] returns it. *)
Definition parent (p : string) : string :=
  match Str.rfind "/" p with
  | Some 0%nat => "/"
  | Some i => Str.take i p
  | None => "."
  end.

Section Convert.
Context (H : Host) (T : Tgradish H).

(** [str] of a float is CPython's shortest repr that round-trips; it is
    left to the runtime. *)
Variable float_str : spec_float -> string.

Definition str (v : value) : string :=
  match v with
  | VInt z => Str.of_Z z
  | VFloat f => float_str f
  | VStr s => s
  end.

(** [value != ""] *)
Definition is_blank (v : value) : bool :=
  match v with
  | VStr EmptyString => true
  | _ => false
  end.

(** The list after [_add_optional_value(args, flag, value)]. *)
Definition _add_optional_value (args : list string) (flag : string)
  (v : option value) : list string :=
  match v with
  | Some x => if is_blank x then args else args ++ [flag; str x]
  | None => args
  end.

(** [args.append(flag)] under [if b]. *)
Definition append_if (b : bool) (args : list string) (flag : string)
  : list string :=
  if b then args ++ [flag] else args.

(** The argument list [convert_to_sticker] builds for the resolved
    [source] and [destination]. *)
Definition build_args (source destination : string)
  (options : ConversionOptions) : list string :=
  let args := ["--input"; source; "--output"; destination;
               "--scaling"; scaling options;
               "--guess-value"; guess_value options] in
  let args := append_if (loop options) args "--loop" in
  let args := append_if (best_quality options) args "--best_quality" in
  let args := append_if (multithreading options) args "--multithreading" in
  let args := append_if (lossless options) args "--lossless" in
  let args := _add_optional_value args "--iterations" (guess_iterations options) in
  let args := _add_optional_value args "-min" (guess_min options) in
  let args := _add_optional_value args "-max" (guess_max options) in
  let args := _add_optional_value args "--length" (length options) in
  let args := _add_optional_value args "--framerate" (framerate options) in
  let args := _add_optional_value args "--bitrate" (bitrate options) in
  _add_optional_value args "-crf" (crf options).

Definition convert_to_sticker (source destination : string)
  (options : ConversionOptions) (fs : FS H) : Conv (FS H) :=
  let source := resolve H source fs in
  let destination := resolve H destination fs in
  let made := Base (Mkdir (parent destination)) in
  match mkdir H (parent destination) fs with
  | inl e => mkConv [made] fs (inl (FromPath e))
  | inr fs1 =>
      match get_config T fs1 with
      | (inl e, fs2) => mkConv [made; GetConfig] fs2 (inl (FromTgradish e))
      | (inr config, fs2) =>
          let args := build_args source destination options in
          let before := [made; GetConfig; Base (Log (started args));
                         ConvertVideo args] in
          match convert_video T config args fs2 with
          | (inl exc, fs3) =>
              mkConv before fs3
                (inl (if is_exception exc
                      then ConversionError (failed (text exc))
                      else FromTgradish exc))
          | (inr _, fs3) =>
              mkConv (before ++ [Base (Log (saved destination))]) fs3
                (inr destination)
          end
      end
  end.

(** The run up to and including the converter's call. *)
Definition setup (source destination : string)
  (options : ConversionOptions) (fs : FS H) : list step :=
  let source := resolve H source fs in
  let destination := resolve H destination fs in
  let args := build_args source destination options in
  [Base (Mkdir (parent destination)); GetConfig;
   Base (Log (started args)); ConvertVideo args].

End Convert.

(** How many of the four switches are on, and how many of the seven
    optional settings carry a value. *)
Definition switches (o : ConversionOptions) : nat :=
  Nat.b2n (loop o) + Nat.b2n (best_quality o)
  + Nat.b2n (multithreading o) + Nat.b2n (lossless o).

Definition given (v : option value) : bool :=
  match v with
  | Some (VStr EmptyString) => false
  | Some _ => true
  | None => false
  end.

Definition settings (o : ConversionOptions) : nat :=
  Nat.b2n (given (guess_iterations o)) + Nat.b2n (given (guess_min o))
  + Nat.b2n (given (guess_max o)) + Nat.b2n (given (length o))
  + Nat.b2n (given (framerate o)) + Nat.b2n (given (bitrate o))
  + Nat.b2n (given (crf o)).

(** An empty string in place of a missing setting. *)
Definition blanked (v : option value) : option value :=
  match v with
  | None => Some (VStr EmptyString)
  | other => other
  end.

Definition is_convert (s : step) : bool :=
  match s with ConvertVideo _ => true | _ => false end.

Definition is_message (s : step) : bool :=
  match s with Base (Log _) => true | _ => false end.

(** A [tgradish] that converts anything, and one whose converter raises
    [RuntimeError(reason)]. *)
Definition working (H : Host) : Tgradish H :=
  {| Config := unit;
     get_config := fun fs => (inr tt, fs);
     convert_video := fun _ _ fs => (inr tt, fs) |}.

Definition broken (H : Host) (reason : string) : Tgradish H :=
  {| Config := unit;
     get_config := fun fs => (inr tt, fs);
     convert_video := fun _ _ fs =>
       (inl {| is_exception := true; text := reason |}, fs) |}.

(** [repr] of the floats the examples use. *)
Definition two_decimals (f : spec_float) : string := Float.format_f 2 f.

End Conversion.

(** * Properties *)

(** ** Strings and paths *)

Lemma append_length (a b : string) :
  String.length (a ++ b) = (String.length a + String.length b)%nat.
Proof. induction a; simpl; [reflexivity | now rewrite IHa]. Qed.

Lemma append_assoc (a b c : string) : (a ++ b) ++ c = a ++ (b ++ c).
Proof. induction a; simpl; [reflexivity | now rewrite IHa]. Qed.

Lemma rfind_none (c : ascii) (s : string) :
  Str.rfind c s = None <-> has_char c s = false.
Proof.
  induction s as [|a s IH]; cbn; [tauto|].
  destruct (Str.rfind c s) as [i|].
  - split; [discriminate|]. intros Hh. apply orb_false_elim in Hh as [_ Hh].
    apply IH in Hh. discriminate.
  - destruct (Ascii.eqb a c); cbn; [split; discriminate|]. tauto.
Qed.

Lemma has_char_app (c : ascii) (a b : string) :
  has_char c (a ++ b) = has_char c a || has_char c b.
Proof. induction a as [|x a IH]; cbn; [reflexivity|]. now rewrite IH, orb_assoc. Qed.

Lemma rfind_app (c : ascii) (a b : string) :
  Str.rfind c (a ++ b)
  = match Str.rfind c b with
    | Some i => Some (String.length a + i)%nat
    | None => Str.rfind c a
    end.
Proof.
  induction a as [|x a IH]; cbn.
  - now destruct (Str.rfind c b).
  - rewrite IH. destruct (Str.rfind c b); [reflexivity|].
    reflexivity.
Qed.

Lemma rfind_bound (c : ascii) (s : string) (i : nat) :
  Str.rfind c s = Some i -> (i < String.length s)%nat.
Proof.
  revert i. induction s as [|a s IH]; cbn; [discriminate|]. intros i.
  destruct (Str.rfind c s) as [j|].
  - intros [= <-]. specialize (IH j eq_refl). lia.
  - destruct (Ascii.eqb a c); [intros [= <-]; lia | discriminate].
Qed.

Lemma substring_all (s : string) : substring 0 (String.length s) s = s.
Proof. induction s as [|a s IH]; cbn; [reflexivity | now rewrite IH]. Qed.

Lemma drop_app (a b : string) : Str.drop (String.length a) (a ++ b) = b.
Proof.
  unfold Str.drop. rewrite append_length.
  replace (String.length a + String.length b - String.length a)%nat
    with (String.length b) by lia.
  induction a as [|x a IH]; cbn; [apply substring_all | exact IH].
Qed.

Lemma take_drop (i : nat) (s : string) :
  (i <= String.length s)%nat -> Str.take i s ++ Str.drop i s = s.
Proof.
  unfold Str.take, Str.drop. revert i.
  induction s as [|a s IH]; intros [|i] Hi; cbn [String.length] in *; try lia.
  - reflexivity.
  - cbn. now rewrite substring_all.
  - cbn. f_equal. apply IH. lia.
Qed.

Lemma rfind_drop (c : ascii) (s : string) (i : nat) :
  Str.rfind c s = Some i ->
  exists r, Str.drop i s = String c r /\ has_char c r = false.
Proof.
  revert i. induction s as [|a s IH]; cbn [Str.rfind]; [discriminate|]. intros i.
  destruct (Str.rfind c s) as [j|] eqn:Ej.
  - intros [= <-]. destruct (IH j eq_refl) as [r [Hr Hn]]. exists r.
    split; [|exact Hn]. unfold Str.drop in *. cbn. exact Hr.
  - destruct (Ascii.eqb a c) eqn:Ea; [|discriminate]. intros [= <-].
    apply Ascii.eqb_eq in Ea. subst a. exists s. split.
    + unfold Str.drop. cbn. now rewrite substring_all.
    + now apply rfind_none.
Qed.

Lemma drop_S (a : ascii) (r s : string) (i : nat) :
  Str.drop i s = String a r -> Str.drop (S i) s = r.
Proof.
  unfold Str.drop. revert i. induction s as [|x s IH]; intros i.
  - destruct i; cbn; discriminate.
  - destruct i as [|i]; cbn.
    + rewrite substring_all. intros [= _ <-]. now rewrite Nat.sub_0_r, substring_all.
    + intros Hd. apply (IH i) in Hd. exact Hd.
Qed.

Lemma name_no_slash (p : string) : has_char "/" (Path.name p) = false.
Proof.
  unfold Path.name. destruct (Str.rfind "/" p) as [i|] eqn:E.
  - destruct (rfind_drop _ _ _ E) as [r [Hr Hn]].
    now rewrite (drop_S _ _ _ _ Hr).
  - now apply rfind_none.
Qed.

Lemma stem_suffix (p : string) : Path.stem p ++ Path.suffix p = Path.name p.
Proof.
  unfold Path.stem, Path.suffix.
  destruct (Str.rfind "." (Path.name p)) as [i|] eqn:E.
  - destruct ((0 <? i)%nat && (S i <? String.length (Path.name p))%nat).
    + apply take_drop. apply rfind_bound in E. lia.
    + clear. induction (Path.name p) as [|a s IH]; cbn; [reflexivity | now rewrite IH].
  - clear. induction (Path.name p) as [|a s IH]; cbn; [reflexivity | now rewrite IH].
Qed.

Lemma suffix_shape (p : string) :
  Path.suffix p = EmptyString
  \/ exists c r, Path.suffix p = String "." (String c r).
Proof.
  unfold Path.suffix.
  destruct (Str.rfind "." (Path.name p)) as [i|] eqn:E; [|now left].
  destruct ((0 <? i)%nat && (S i <? String.length (Path.name p))%nat) eqn:G;
    [|now left].
  right. destruct (rfind_drop _ _ _ E) as [r [Hr _]].
  apply andb_prop in G as [_ G]. apply Nat.ltb_lt in G.
  destruct r as [|c r].
  - exfalso. pose proof (rfind_bound _ _ _ E) as Hb.
    pose proof (take_drop i (Path.name p) ltac:(lia)) as Ht.
    rewrite Hr in Ht. apply (f_equal String.length) in Ht.
    rewrite append_length in Ht. cbn in Ht.
    assert (String.length (Str.take i (Path.name p)) <= i)%nat.
    { unfold Str.take. clear. generalize (Path.name p). induction i as [|i IH]; intros [|a s]; cbn; try lia.
      specialize (IH s). lia. }
    lia.
  - now exists c, r.
Qed.

Lemma has_char_take (c : ascii) (i : nat) (s : string) :
  has_char c s = false -> has_char c (Str.take i s) = false.
Proof.
  unfold Str.take. revert i. induction s as [|a s IH]; intros [|i]; cbn; try reflexivity.
  intros Hh. apply orb_false_elim in Hh as [Ha Hs]. rewrite Ha. now apply IH.
Qed.

Lemma stem_no_slash (p : string) : has_char "/" (Path.stem p) = false.
Proof.
  unfold Path.stem. pose proof (name_no_slash p) as Hn.
  destruct (Str.rfind "." (Path.name p)) as [i|]; [|exact Hn].
  destruct (_ && _); [now apply has_char_take | exact Hn].
Qed.

Lemma rfind_ends_with_slash (d : string) :
  Str.ends_with_slash d = true ->
  exists k, String.length d = S k /\ Str.rfind "/" d = Some k.
Proof.
  induction d as [|a d IH]; [discriminate|].
  destruct d as [|b d].
  - cbn. intros Ha. exists 0%nat. now rewrite Ha.
  - intros He. change (Str.ends_with_slash (String b d) = true) in He.
    destruct (IH He) as [k [Hl Hr]]. exists (S k). split.
    + cbn [String.length] in *. lia.
    + change (Str.rfind "/" (String a (String b d)))
        with (match Str.rfind "/" (String b d) with
              | Some i => Some (S i)
              | None => if Ascii.eqb a "/" then Some 0%nat else None
              end).
      now rewrite Hr.
Qed.

(** The name of [d / n] is [n]. *)
Lemma name_joinpath (d n : string) :
  has_char "/" n = false -> Path.name (d // n) = n.
Proof.
  intros Hn. pose proof (proj2 (rfind_none _ _) Hn) as Hr.
  unfold Path.joinpath, Path.name.
  destruct (Str.ends_with_slash d) eqn:E.
  - destruct (rfind_ends_with_slash d E) as [k [Hl Hk]].
    rewrite rfind_app, Hr, Hk, <- Hl. apply drop_app.
  - rewrite rfind_app. cbn [append Str.rfind]. rewrite Hr. cbn.
    rewrite Nat.add_0_r.
    replace (d ++ String "/" n) with ((d ++ "/") ++ n)
      by (now rewrite append_assoc).
    replace (S (String.length d)) with (String.length (d ++ "/"))
      by (rewrite append_length; cbn; lia).
    apply drop_app.
Qed.

(** ** Runs of composed computations *)

Lemma trace_bind {H A B} (m : M H A) (k : A -> M H B) fs :
  trace (bind m k fs) =
  (trace (m fs) ++ match outcome (m fs) with
                   | inl _ => []
                   | inr a => trace (k a (fs_after (m fs)))
                   end)%list.
Proof.
  unfold bind. destruct (outcome (m fs)); simpl;
    [now rewrite app_nil_r | reflexivity].
Qed.

Lemma outcome_bind {H A B} (m : M H A) (k : A -> M H B) fs :
  outcome (bind m k fs) =
  match outcome (m fs) with
  | inl e => inl e
  | inr a => outcome (k a (fs_after (m fs)))
  end.
Proof. unfold bind. now destruct (outcome (m fs)). Qed.

(** ** Media-kind classification *)

Lemma in_set_In (x : string) (l : list string) : in_set x l = true <-> In x l.
Proof.
  unfold in_set. rewrite existsb_exists. split.
  - intros [y [Hy E]]. apply String.eqb_eq in E. now subst.
  - intros Hx. exists x. split; [assumption | apply String.eqb_refl].
Qed.

Lemma letter_case_lower (u l : ascii) :
  letter_case u l -> Str.lower_char u = l.
Proof.
  intros [n Hn].
  do 26 (destruct n as [|n]; [reflexivity|]). lia.
Qed.

Lemma caseless_lower (w : string) : caseless w (Str.lower w).
Proof.
  induction w as [|c w IH]; cbn [Str.lower]; [constructor|].
  unfold Str.lower_char. destruct (Str.is_upper c) eqn:E.
  - apply caseless_upper; [|exact IH].
    unfold Str.is_upper in E. apply andb_prop in E as [E1 E2].
    apply Nat.leb_le in E1, E2.
    replace c with (ascii_of_nat (65 + (nat_of_ascii c - 65))) at 1
      by (replace (65 + (nat_of_ascii c - 65))%nat with (nat_of_ascii c) by lia;
          apply ascii_nat_embedding).
    replace (nat_of_ascii c + 32)%nat with (97 + (nat_of_ascii c - 65))%nat by lia.
    constructor. lia.
  - now apply caseless_same.
Qed.

Lemma lower_of_caseless (w x : string) :
  caseless w x -> Str.lower x = x -> Str.lower w = x.
Proof.
  induction 1 as [|c w x Hc IH|u l w x Hl Hc IH]; cbn [Str.lower];
    [reflexivity| |]; intros [= Hh Ht].
  - now rewrite Hh, (IH Ht).
  - now rewrite (letter_case_lower u l Hl), (IH Ht).
Qed.

Lemma lower_dot (w : string) : Str.lower ("." ++ w) = "." ++ Str.lower w.
Proof. reflexivity. Qed.

(** The suffix of [<dir>/<stem>.<ext>]. *)
Lemma suffix_of_extension (dir stem ext : string) :
  stem <> EmptyString -> has_char "/" stem = false ->
  ext <> EmptyString -> has_char "/" ext = false -> has_char "." ext = false ->
  Path.suffix (dir // (stem ++ "." ++ ext)) = "." ++ ext.
Proof.
  intros Hs Hss He Hes Hed.
  assert (Hn : Path.name (dir // (stem ++ "." ++ ext)) = stem ++ "." ++ ext).
  { apply name_joinpath. rewrite has_char_app, Hss. cbn. exact Hes. }
  unfold Path.suffix. rewrite Hn.
  rewrite rfind_app. cbn [append Str.rfind].
  rewrite (proj2 (rfind_none "." ext) Hed). cbn [Ascii.eqb Bool.eqb].
  rewrite Nat.add_0_r, append_length. cbn [String.length].
  assert (H1 : (0 <? String.length stem)%nat = true).
  { apply Nat.ltb_lt. destruct stem; [contradiction | cbn; lia]. }
  assert (H2 : (S (String.length stem)
                <? String.length stem + S (String.length ext))%nat = true).
  { apply Nat.ltb_lt. destruct ext; [contradiction | cbn; lia]. }
  rewrite H1, H2. cbn [andb]. apply (drop_app stem (String "." ext)).
Qed.

Lemma suffix_without_dot (dir name : string) :
  has_char "/" name = false -> has_char "." name = false ->
  Path.suffix (dir // name) = EmptyString.
Proof.
  intros Hs Hd. unfold Path.suffix. rewrite (name_joinpath _ _ Hs).
  now rewrite (proj2 (rfind_none "." name) Hd).
Qed.

Lemma suffix_of_dot_file (dir ext : string) :
  has_char "/" ext = false -> has_char "." ext = false ->
  Path.suffix (dir // ("." ++ ext)) = EmptyString.
Proof.
  intros Hs Hd. unfold Path.suffix.
  rewrite (name_joinpath dir ("." ++ ext)) by exact Hs.
  cbn [append Str.rfind]. now rewrite (proj2 (rfind_none "." ext) Hd).
Qed.

Lemma suffix_of_trailing_dot (dir stem : string) :
  has_char "/" stem = false ->
  Path.suffix (dir // (stem ++ ".")) = EmptyString.
Proof.
  intros Hs. unfold Path.suffix.
  rewrite (name_joinpath dir (stem ++ ".")) by (rewrite has_char_app, Hs; reflexivity).
  rewrite rfind_app. cbn [Str.rfind Ascii.eqb Bool.eqb].
  rewrite append_length. cbn [String.length].
  replace (S (String.length stem + 0) <? String.length stem + 1)%nat with false.
  - now rewrite andb_false_r.
  - symmetry. apply Nat.ltb_ge. lia.
Qed.

Lemma dotted_in_set (w : string) :
  in_set ("." ++ w) _IMAGE_EXTENSIONS = true <-> In w still_image_extensions.
Proof.
  rewrite in_set_In. unfold _IMAGE_EXTENSIONS, still_image_extensions.
  cbn [In append]. split.
  - intros Hin.
    repeat (destruct Hin as [Hin|Hin]; [injection Hin as <-; tauto|]).
    contradiction.
  - intros Hin.
    repeat (destruct Hin as [<-|Hin]; [tauto|]). contradiction.
Qed.

Lemma extensions_lower (x : string) :
  In x still_image_extensions -> Str.lower x = x.
Proof.
  unfold still_image_extensions. cbn [In]. intros Hin.
  repeat (destruct Hin as [<-|Hin]; [reflexivity|]). contradiction.
Qed.

Lemma is_image_of_extension (dir stem ext : string) :
  stem <> EmptyString -> has_char "/" stem = false ->
  ext <> EmptyString -> has_char "/" ext = false -> has_char "." ext = false ->
  is_image (dir // (stem ++ "." ++ ext)) = true <-> recognised ext.
Proof.
  intros Hs Hss He Hes Hed. unfold is_image.
  rewrite (suffix_of_extension dir stem ext Hs Hss He Hes Hed), lower_dot.
  rewrite dotted_in_set. split.
  - intros Hin. exists (Str.lower ext). split; [exact Hin | apply caseless_lower].
  - intros [x [Hin Hc]].
    now rewrite (lower_of_caseless ext x Hc (extensions_lower x Hin)).
Qed.

(** C9.  The media kind is a function of the extension of the source,
    compared without regard to case: a source [<dir>/<stem>.<ext>] is a
    still image exactly when [ext] is, up to the case of its letters,
    one of png, jpg, jpeg, webp, bmp, tiff, tif, and video-or-animation
    exactly when it is not (gif included).  A name without a dot, a
    name that only begins with a dot and a name that ends with a dot
    have no extension and are video-or-animation. *)
Theorem classification_by_extension (dir stem ext : string) :
  stem <> EmptyString -> has_char "/" stem = false ->
  ext <> EmptyString -> has_char "/" ext = false -> has_char "." ext = false ->
  let p := dir // (stem ++ "." ++ ext) in
  (classify p = StillImage
   <-> exists x, In x ["png"; "jpg"; "jpeg"; "webp"; "bmp"; "tiff"; "tif"]
                 /\ caseless ext x)
  /\ (classify p = VideoOrAnimation
      <-> ~ exists x, In x ["png"; "jpg"; "jpeg"; "webp"; "bmp"; "tiff"; "tif"]
                      /\ caseless ext x)
  /\ (caseless ext "gif" -> classify p = VideoOrAnimation)
  /\ (has_char "." stem = false -> classify (dir // stem) = VideoOrAnimation)
  /\ classify (dir // ("." ++ ext)) = VideoOrAnimation
  /\ classify (dir // (stem ++ ".")) = VideoOrAnimation.
Proof.
  intros Hs Hss He Hes Hed p.
  pose proof (is_image_of_extension dir stem ext Hs Hss He Hes Hed) as Hi.
  fold p in Hi. unfold recognised, still_image_extensions in Hi.
  assert (Hv : classify p = VideoOrAnimation
               <-> ~ exists x,
                     In x ["png"; "jpg"; "jpeg"; "webp"; "bmp"; "tiff"; "tif"]
                     /\ caseless ext x).
  { unfold classify. destruct (is_image p).
    - split; [discriminate|]. intros Hn. exfalso. apply Hn, Hi. reflexivity.
    - split; [|reflexivity]. intros _ Hr. apply Hi in Hr. discriminate. }
  split; [|split; [exact Hv|split; [|split; [|split]]]].
  - unfold classify. destruct (is_image p).
    + split; [intros _; now apply Hi | reflexivity].
    + split; [discriminate|]. intros Hr. apply Hi in Hr. discriminate.
  - intros Hg. apply Hv. intros [x [Hin Hc]].
    pose proof (lower_of_caseless ext x Hc (extensions_lower x Hin)) as Hx.
    pose proof (lower_of_caseless ext "gif" Hg eq_refl) as Hy.
    rewrite Hy in Hx. subst x. cbn in Hin.
    repeat (destruct Hin as [Hin|Hin]; [discriminate|]). contradiction.
  - intros Hd. unfold classify, is_image.
    now rewrite (suffix_without_dot dir stem Hss Hd).
  - unfold classify, is_image. now rewrite (suffix_of_dot_file dir ext Hes Hed).
  - unfold classify, is_image. now rewrite (suffix_of_trailing_dot dir stem Hss).
Qed.

Lemma classification_by_extension_witness :
  classify "/in/photo.JPeG" = StillImage
  /\ classify "/in/Anim.GIF" = VideoOrAnimation
  /\ classify "/in/.png" = VideoOrAnimation.
Proof.
  split; [|split].
  - destruct (classification_by_extension "/in" "photo" "JPeG"
                ltac:(discriminate) eq_refl ltac:(discriminate) eq_refl eq_refl)
      as [Hstill _].
    apply Hstill. exists "jpeg". split; [cbn; tauto|].
    apply (caseless_upper "J" "j"); [apply (letter_case_intro 9); lia|].
    apply (caseless_upper "P" "p"); [apply (letter_case_intro 15); lia|].
    apply caseless_same.
    apply (caseless_upper "G" "g"); [apply (letter_case_intro 6); lia|].
    constructor.
  - destruct (classification_by_extension "/in" "Anim" "GIF"
                ltac:(discriminate) eq_refl ltac:(discriminate) eq_refl eq_refl)
      as (_ & _ & Hgif & _).
    apply Hgif.
    apply (caseless_upper "G" "g"); [apply (letter_case_intro 6); lia|].
    apply (caseless_upper "I" "i"); [apply (letter_case_intro 8); lia|].
    apply (caseless_upper "F" "f"); [apply (letter_case_intro 5); lia|].
    constructor.
  - destruct (classification_by_extension "/in" "photo" "png"
                ltac:(discriminate) eq_refl ltac:(discriminate) eq_refl eq_refl)
      as (_ & _ & _ & _ & Hdot & _).
    exact Hdot.
Defined.

(** ** Missing tools *)

(** C8.  When [ffmpeg] (for the runner) or [ffprobe] (for the probe) is
    not on the search path, the call raises the module's error with a
    message that starts with the name of the missing tool, and the run
    has no event at all, so no process was started; and whenever a run
    of either function starts a process, the tool had been found. *)
Theorem tool_not_found (H : Host) (fs : FS H) (args : list string)
    (path : string) :
  (which H "ffmpeg" fs = false ->
     _run_ffmpeg H args fs
     = mkRun [] fs (inl (BackgroundRemovalError Msg.ffmpeg_missing)))
  /\ (which H "ffprobe" fs = false ->
     _probe_fps H path fs
     = mkRun [] fs (inl (BackgroundRemovalError Msg.ffprobe_missing)))
  /\ (existsb is_exec (trace (_run_ffmpeg H args fs)) = true ->
      which H "ffmpeg" fs = true)
  /\ (existsb is_exec (trace (_probe_fps H path fs)) = true ->
      which H "ffprobe" fs = true)
  /\ String.prefix "ffmpeg" Msg.ffmpeg_missing = true
  /\ String.prefix "ffprobe" Msg.ffprobe_missing = true.
Proof.
  repeat split.
  - intros Hw. unfold _run_ffmpeg, bind, shutil_which; simpl. now rewrite Hw.
  - intros Hw. unfold _probe_fps, bind, shutil_which; simpl. now rewrite Hw.
  - unfold _run_ffmpeg, bind, shutil_which; simpl.
    destruct (which H "ffmpeg" fs); simpl; [reflexivity | discriminate].
  - unfold _probe_fps, bind, shutil_which; simpl.
    destruct (which H "ffprobe" fs); simpl; [reflexivity | discriminate].
Qed.

Lemma tool_not_found_witness :
  _run_ffmpeg (Demo.host Demo.bare) ["-i"; "/in/clip.mp4"; "/tmp/ws/frames/frame_%07d.png"] []
  = mkRun [] [] (inl (BackgroundRemovalError Msg.ffmpeg_missing))
  /\ _probe_fps (Demo.host Demo.bare) "/in/clip.mp4" []
  = mkRun [] [] (inl (BackgroundRemovalError Msg.ffprobe_missing)).
Proof.
  pose proof (tool_not_found (Demo.host Demo.bare) []
                ["-i"; "/in/clip.mp4"; "/tmp/ws/frames/frame_%07d.png"]
                "/in/clip.mp4") as [Hf [Hp _]].
  split; [apply Hf | apply Hp]; reflexivity.
Defined.

(** ** The rate prober *)

(** Once the tool has been found and has exited with code 0, the probe
    is its two first events followed by [read_rate] on the output. *)
Lemma probe_fps_exit0 (H : Host) path fs fs' p :
  which H "ffprobe" fs = true ->
  subprocess_run H (ffprobe_command path) fs = (p, fs') ->
  returncode p = 0%Z ->
  _probe_fps H path fs
  = let r := read_rate H (stdout p) fs' in
    mkRun ([Log (Msg.ffprobe_start (ffprobe_command path));
            Exec (ffprobe_command path) p] ++ trace r)%list
          (fs_after r) (outcome r).
Proof.
  intros Hw Hr Hc.
  unfold _probe_fps, bind, shutil_which, run_process, log.
  cbn [outcome trace fs_after]. rewrite Hw. cbn [negb outcome trace fs_after].
  rewrite Hr. cbn [outcome trace fs_after]. rewrite Hc. cbn [Z.eqb negb].
  destruct (read_rate H (stdout p) fs') as [t f [e|v]]; reflexivity.
Qed.

Lemma read_rate_decoded (H : Host) out fs data :
  json_loads H out = Some data ->
  read_rate H out fs =
  match avg_frame_rate_of data with
  | inl e => mkRun [] fs (inl e)
  | inr avg =>
      match parse_rate avg with
      | inl ValueError | inl ZeroDivisionError =>
          mkRun [Log (Msg.fps_fallback avg)] fs (inr f30)
      | inl e => mkRun [] fs (inl e)
      | inr value =>
          mkRun [Log (Msg.fps_source (clamp value))] fs (inr (clamp value))
      end
  end.
Proof.
  intros Hj. unfold read_rate. rewrite Hj.
  destruct (avg_frame_rate_of data) as [e|avg]; [reflexivity|].
  destruct (parse_rate avg) as [e|v]; [destruct e; reflexivity | reflexivity].
Qed.

Lemma probe_maps_intro rate value msg :
  match avg_frame_rate_of (probe_data rate) with
  | inr avg =>
      match parse_rate avg with
      | inl ValueError | inl ZeroDivisionError =>
          value = f30 /\ msg = Msg.fps_fallback avg
      | inl _ => False
      | inr v => value = clamp v /\ msg = Msg.fps_source (clamp v)
      end
  | inl _ => False
  end ->
  probe_maps rate value msg.
Proof.
  intros Hm H path fs fs' p Hw Hr Hc Hj.
  rewrite (probe_fps_exit0 H path fs fs' p Hw Hr Hc).
  rewrite (read_rate_decoded H _ fs' _ Hj).
  destruct (avg_frame_rate_of (probe_data rate)) as [e|avg]; [contradiction|].
  destruct (parse_rate avg) as [e|v].
  - destruct e; try contradiction; destruct Hm as [-> ->]; reflexivity.
  - destruct Hm as [-> ->]. reflexivity.
Qed.

(** C1, as the code has it.  The probe reads ["30/1"] as 30.0; ["0/0"]
    as the fallback 30.0, with the warning; ["120/1"] as 60.0.  The
    string ["0.5/1"] is not a rational literal (a decimal point and a
    slash do not combine), so it too gives the fallback 30.0 with the
    warning; a rate below one that is written as a rational, ["1/2"],
    is clamped to 1.0. *)
Theorem rate_parsing :
  probe_maps "30/1" f30 (Msg.fps_source f30)
  /\ probe_maps "0/0" f30 (Msg.fps_fallback (JStr "0/0"))
  /\ probe_maps "120/1" f60 (Msg.fps_source f60)
  /\ probe_maps "0.5/1" f30 (Msg.fps_fallback (JStr "0.5/1"))
  /\ probe_maps "1/2" f1 (Msg.fps_source f1).
Proof.
  repeat split; apply probe_maps_intro; vm_compute; split; reflexivity.
Qed.

Lemma rate_parsing_witness :
  _probe_fps (Demo.host (Demo.video [] "0.5/1")) "/in/clip.mp4" Demo.clip_files
  = mkRun [Log (Msg.ffprobe_start (ffprobe_command "/in/clip.mp4"));
           Exec (ffprobe_command "/in/clip.mp4")
             (Demo.ok (Demo.probe_text "0.5/1"));
           Log (Msg.fps_fallback (JStr "0.5/1"))] Demo.clip_files (inr f30).
Proof.
  apply (proj1 (proj2 (proj2 (proj2 rate_parsing)))); reflexivity.
Defined.

(** C1, as stated, fails: the probe does not read ["0.5/1"] as 1.0,
    whatever it is taken to log. *)
Lemma half_over_one_is_not_clamped : ~ exists msg, probe_maps "0.5/1" f1 msg.
Proof.
  intros [msg Hm].
  specialize (Hm (Demo.host (Demo.video [] "0.5/1")) "/in/clip.mp4"
                Demo.clip_files Demo.clip_files
                (Demo.ok (Demo.probe_text "0.5/1"))
                eq_refl eq_refl eq_refl eq_refl).
  apply (f_equal outcome) in Hm. vm_compute in Hm. discriminate Hm.
Qed.

(** C10.  When the tool exits with code 0 and its output does not
    decode, the probe raises [JSONDecodeError], which is not the
    module's error class; nothing is logged after the command and the
    default rate is not returned. *)
Theorem invalid_json_is_untyped (H : Host) path fs fs' p :
  which H "ffprobe" fs = true ->
  subprocess_run H (ffprobe_command path) fs = (p, fs') ->
  returncode p = 0%Z ->
  json_loads H (stdout p) = None ->
  _probe_fps H path fs
  = mkRun [Log (Msg.ffprobe_start (ffprobe_command path));
           Exec (ffprobe_command path) p] fs' (inl JSONDecodeError)
  /\ is_typed JSONDecodeError = false
  /\ outcome (_probe_fps H path fs) <> inr f30.
Proof.
  intros Hw Hr Hc Hj.
  rewrite (probe_fps_exit0 H path fs fs' p Hw Hr Hc).
  unfold read_rate. rewrite Hj. cbn.
  repeat split. discriminate.
Qed.

Lemma invalid_json_is_untyped_witness :
  outcome (_probe_fps (Demo.host Demo.garbled) "/in/clip.mp4" Demo.clip_files)
  = inl JSONDecodeError.
Proof.
  pose proof (invalid_json_is_untyped (Demo.host Demo.garbled) "/in/clip.mp4"
                Demo.clip_files Demo.clip_files
                (Demo.ffprobe_result Demo.garbled)
                eq_refl eq_refl eq_refl eq_refl) as [Hrun _].
  rewrite Hrun. reflexivity.
Defined.

(** The clamp always lands in [1.0, 60.0], also for NaN and the
    infinities. *)
Lemma clamp_range (v : spec_float) :
  Float.leb f1 (clamp v) = true /\ Float.leb (clamp v) f60 = true.
Proof.
  unfold clamp, Float.py_max, Float.py_min.
  destruct (Float.ltb v f60) eqn:E60.
  - destruct (Float.ltb f1 v) eqn:E1.
    + unfold Float.ltb, Float.leb, SFltb, SFleb in *.
      destruct (SFcompare f1 v) as [[]|]; try discriminate.
      destruct (SFcompare v f60) as [[]|]; try discriminate. now split.
    + now split.
  - now split.
Qed.

(** Every rate the probe returns lies in [1.0, 60.0]. *)
Lemma probe_rate_in_range (H : Host) path fs v :
  outcome (_probe_fps H path fs) = inr v ->
  Float.leb f1 v = true /\ Float.leb v f60 = true.
Proof.
  unfold _probe_fps, read_rate, bind, shutil_which, run_process, log, raise, ret.
  cbn [outcome trace fs_after].
  destruct (which H "ffprobe" fs); cbn [negb outcome trace fs_after]; [|discriminate].
  destruct (subprocess_run H (ffprobe_command path) fs) as [p fs'].
  cbn [outcome trace fs_after].
  destruct (returncode p =? 0)%Z; cbn [negb outcome trace fs_after]; [|discriminate].
  destruct (json_loads H (stdout p)) as [data|]; [|discriminate].
  destruct (avg_frame_rate_of data) as [e|avg]; [discriminate|].
  destruct (parse_rate avg) as [e|x].
  - destruct e; cbn; try discriminate; intros [= <-]; now split.
  - cbn. intros [= <-]. apply clamp_range.
Qed.

(** Without streams, or without the field in the first stream, the
    rate is read as ["0/0"]. *)
Lemma missing_rate_defaults (d : list (string * json)) :
  match Py.lookup "streams" d with
  | None | Some (JList []) => True
  | Some (JList (JDict stream :: _)) => Py.lookup "avg_frame_rate" stream = None
  | _ => False
  end ->
  avg_frame_rate_of (JDict d) = inr (JStr "0/0").
Proof.
  unfold avg_frame_rate_of. cbn [Py.get].
  destruct (Py.lookup "streams" d) as [[| | | | |[|[]]|]|]; try contradiction;
    try (intros _; reflexivity).
  intros Hl. cbn. rewrite Hl. reflexivity.
Qed.

(** A string that is not a rational literal raises [ValueError], one
    with a zero denominator [ZeroDivisionError]: both are caught. *)
Lemma degenerate_rate (s : string) :
  (Frac.match_rational s = None -> parse_rate (JStr s) = inl ValueError)
  /\ (forall n, Frac.match_rational s = Some (n, 0%Z) ->
                parse_rate (JStr s) = inl ZeroDivisionError).
Proof.
  unfold parse_rate, Py.Fraction_new, Frac.of_string. split.
  - intros ->. reflexivity.
  - intros n ->. reflexivity.
Qed.

(** A fraction with a positive denominator is built, in lowest terms,
    with a positive denominator. *)
Lemma normalise_positive (n d : Z) :
  (0 < d)%Z ->
  exists f, Frac.normalise n d = inr f /\ (0 < denominator f)%Z.
Proof.
  intros Hd. unfold Frac.normalise.
  destruct (d =? 0)%Z eqn:E0; [apply Z.eqb_eq in E0; lia|].
  destruct (d <? 0)%Z eqn:E1; [apply Z.ltb_lt in E1; lia|].
  eexists. split; [reflexivity|]. cbn [denominator].
  pose proof (Z.gcd_nonneg n d) as Hg.
  destruct (Z.gcd_divide_r n d) as [q Hq].
  assert (Hgpos : (0 < Z.gcd n d)%Z).
  { destruct (Z.eq_dec (Z.gcd n d) 0) as [Hz|Hz]; [|lia].
    rewrite Hz in Hq. lia. }
  rewrite Hq at 1. rewrite Z.div_mul by lia. nia.
Qed.

(** [float] of such a fraction raises, if anything, [OverflowError]. *)
Lemma to_float_positive (f : Fraction) :
  (0 < denominator f)%Z ->
  Frac.to_float f <> inl ValueError /\ Frac.to_float f <> inl ZeroDivisionError.
Proof.
  intros Hd. unfold Frac.to_float, Float.int_true_divide.
  destruct (denominator f) as [|d|d]; try lia.
  destruct (numerator f); [split; discriminate| |];
    destruct (SFdiv _ _ _ _); split; discriminate.
Qed.

(** So the test [fraction.denominator == 0] of [_probe_fps] never fires. *)
Lemma parse_rate_normalised (n d : Z) :
  (0 < d)%Z ->
  match Frac.normalise n d with
  | inl e => inl e
  | inr fraction =>
      if (denominator fraction =? 0)%Z then inl ZeroDivisionError
      else Frac.to_float fraction
  end <> inl ValueError
  /\ match Frac.normalise n d with
     | inl e => inl e
     | inr fraction =>
         if (denominator fraction =? 0)%Z then inl ZeroDivisionError
         else Frac.to_float fraction
     end <> inl ZeroDivisionError.
Proof.
  intros Hd. destruct (normalise_positive n d Hd) as [f [-> Hf]].
  destruct (denominator f =? 0)%Z eqn:E; [apply Z.eqb_eq in E; lia|].
  now apply to_float_positive.
Qed.

(** Only a [str] and the float NaN reach the [except] clause. *)
Lemma caught_values (v : json) :
  parse_rate v = inl ValueError \/ parse_rate v = inl ZeroDivisionError ->
  (exists s, v = JStr s) \/ v = JFloat S754_nan.
Proof.
  intros Hc. destruct v as [|b|z|x|s|l|d]; cbn in Hc;
    try (destruct Hc; discriminate).
  - exfalso. unfold parse_rate, Py.Fraction_new in Hc.
    pose proof (parse_rate_normalised (if b then 1 else 0) 1 ltac:(lia))
      as [H1 H2].
    destruct Hc; contradiction.
  - exfalso. unfold parse_rate, Py.Fraction_new in Hc.
    pose proof (parse_rate_normalised z 1 ltac:(lia)) as [H1 H2].
    destruct Hc; contradiction.
  - destruct x as [s|s| |s m e]; [| | now right |]; exfalso.
    + unfold parse_rate, Py.Fraction_new, Frac.of_float in Hc.
      pose proof (parse_rate_normalised 0 1 ltac:(lia)) as [H1 H2].
      destruct Hc; contradiction.
    + destruct Hc; discriminate.
    + unfold parse_rate, Py.Fraction_new, Frac.of_float in Hc.
      destruct e as [|e|e].
      * pose proof (parse_rate_normalised
                      ((if s then Z.neg m else Z.pos m) * 2 ^ 0) 1 ltac:(lia))
          as [H1 H2].
        destruct Hc; contradiction.
      * pose proof (parse_rate_normalised
                      ((if s then Z.neg m else Z.pos m) * 2 ^ Z.pos e) 1
                      ltac:(lia)) as [H1 H2].
        destruct Hc; contradiction.
      * pose proof (parse_rate_normalised
                      (if s then Z.neg m else Z.pos m) (2 ^ Z.pos e)
                      ltac:(apply Z.pow_pos_nonneg; lia)) as [H1 H2].
        destruct Hc; contradiction.
  - left. now exists s.
Qed.

(** C6, where the code departs from it.  The rate ["1e400"] is a valid
    literal with a non-zero denominator, [Fraction(10**400, 1)], but
    [float] of it raises [OverflowError], which the [except] clause of
    [_probe_fps] does not catch: the probe neither falls back to 30.0
    nor returns the clamped 60.0, and logs nothing about the rate. *)
Theorem huge_rate_overflows :
  _probe_fps (Demo.host (Demo.video [] "1e400")) "/in/clip.mp4" Demo.clip_files
  = mkRun [Log (Msg.ffprobe_start (ffprobe_command "/in/clip.mp4"));
           Exec (ffprobe_command "/in/clip.mp4")
             (Demo.ok (Demo.probe_text "1e400"))]
      Demo.clip_files (inl OverflowError)
  /\ Frac.of_string "1e400" = inr {| numerator := 10 ^ 400; denominator := 1 |}.
Proof. split; vm_compute; reflexivity. Qed.

(** ** Failing processes *)

(** The runner forwards both captured streams, then raises. *)
Lemma run_ffmpeg_failure (H : Host) args fs fs' p :
  which H "ffmpeg" fs = true ->
  subprocess_run H ("ffmpeg" :: "-y" :: args) fs = (p, fs') ->
  returncode p <> 0%Z ->
  _run_ffmpeg H args fs
  = mkRun [Log (Msg.ffmpeg_start ("ffmpeg" :: "-y" :: args));
           Exec ("ffmpeg" :: "-y" :: args) p;
           Log (stdout p); Log (stderr p)] fs'
      (inl (BackgroundRemovalError (Msg.ffmpeg_failed (returncode p)))).
Proof.
  intros Hw Hr Hc. apply Z.eqb_neq in Hc.
  unfold _run_ffmpeg, bind, shutil_which, run_process, log, raise.
  cbn [outcome trace fs_after]. rewrite Hw. cbn [negb outcome trace fs_after].
  rewrite Hr. cbn [outcome trace fs_after]. rewrite Hc. reflexivity.
Qed.

(** The runner on a process that exits with code 0. *)
Lemma run_ffmpeg_success (H : Host) args fs fs' p :
  which H "ffmpeg" fs = true ->
  subprocess_run H ("ffmpeg" :: "-y" :: args) fs = (p, fs') ->
  returncode p = 0%Z ->
  _run_ffmpeg H args fs
  = mkRun [Log (Msg.ffmpeg_start ("ffmpeg" :: "-y" :: args));
           Exec ("ffmpeg" :: "-y" :: args) p] fs' (inr tt).
Proof.
  intros Hw Hr Hc.
  unfold _run_ffmpeg, bind, shutil_which, run_process, log, raise.
  cbn [outcome trace fs_after]. rewrite Hw. cbn [negb outcome trace fs_after].
  rewrite Hr. cbn [outcome trace fs_after]. rewrite Hc. reflexivity.
Qed.

(** The probe forwards the captured standard error only, then raises. *)
Lemma probe_fps_failure (H : Host) path fs fs' p :
  which H "ffprobe" fs = true ->
  subprocess_run H (ffprobe_command path) fs = (p, fs') ->
  returncode p <> 0%Z ->
  _probe_fps H path fs
  = mkRun [Log (Msg.ffprobe_start (ffprobe_command path));
           Exec (ffprobe_command path) p;
           Log (stderr p)] fs'
      (inl (BackgroundRemovalError (Msg.ffprobe_failed (returncode p)))).
Proof.
  intros Hw Hr Hc. apply Z.eqb_neq in Hc.
  unfold _probe_fps, bind, shutil_which, run_process, log, raise.
  cbn [outcome trace fs_after]. rewrite Hw. cbn [negb outcome trace fs_after].
  rewrite Hr. cbn [outcome trace fs_after]. rewrite Hc. reflexivity.
Qed.

(** C4, where the code departs from it.  On a machine where [ffprobe]
    exits with code 1 after writing to both streams, the probe logs its
    command and the captured standard error, then raises: the captured
    standard output never reaches the logging sink, while [_run_ffmpeg]
    on the same machine does log the standard output of its process. *)
Theorem probe_failure_drops_stdout :
  let p := Demo.ffprobe_result Demo.failing in
  let r := _probe_fps (Demo.host Demo.failing) "/in/clip.mp4" Demo.clip_files in
  returncode p = 1%Z
  /\ r = mkRun [Log (Msg.ffprobe_start (ffprobe_command "/in/clip.mp4"));
                Exec (ffprobe_command "/in/clip.mp4") p;
                Log (stderr p)] Demo.clip_files
           (inl (BackgroundRemovalError (Msg.ffprobe_failed 1)))
  /\ existsb (is_log (stdout p)) (trace r) = false
  /\ existsb (is_log (stdout (Demo.ffmpeg_result Demo.failing)))
       (trace (_run_ffmpeg (Demo.host Demo.failing)
                 ["-i"; "/in/clip.mp4"; "/tmp/ws/frames/frame_%07d.png"]
                 Demo.clip_files)) = true.
Proof. repeat split; vm_compute; reflexivity. Qed.

(** ** The frame composer *)

Lemma all_digits_app (a b : string) :
  all_digits (a ++ b) = all_digits a && all_digits b.
Proof.
  induction a; simpl; [reflexivity | rewrite IHa; now rewrite andb_assoc].
Qed.

Lemma digit_char_is_digit (n : nat) :
  (n < 10)%nat -> Str.is_ascii_digit (ascii_of_nat (48 + n)) = true.
Proof.
  intros Hn. do 10 (destruct n as [|n]; [reflexivity|]). lia.
Qed.

Lemma digit_is_digit (z : Z) :
  Str.is_ascii_digit (Float.digit (z mod 10)) = true.
Proof.
  unfold Float.digit. apply digit_char_is_digit.
  pose proof (Z.mod_pos_bound z 10 ltac:(lia)). lia.
Qed.

Lemma digits_shape (k : nat) (z : Z) :
  String.length (Float.digits k z) = k /\ all_digits (Float.digits k z) = true.
Proof.
  revert z. induction k as [|k IH]; intros z; cbn [Float.digits]; [now split|].
  destruct (IH (z / 10)%Z) as [Hl Hd]. split.
  - rewrite append_length, Hl. cbn [String.length]. lia.
  - rewrite all_digits_app, Hd. cbn [all_digits andb].
    rewrite digit_is_digit. reflexivity.
Qed.

Lemma format_f_decimals (p : nat) (x : spec_float) :
  is_finite x = true ->
  exists whole frac,
    Float.format_f (S p) x = whole ++ "." ++ frac
    /\ String.length frac = S p /\ all_digits frac = true.
Proof.
  destruct x as [s|s| |s m e]; try discriminate; intros _; unfold Float.format_f, Float.fixed.
  - eexists _, _. rewrite <- append_assoc. split; [reflexivity|apply digits_shape].
  - eexists _, _. rewrite <- append_assoc. split; [reflexivity|apply digits_shape].
Qed.

(** *** The printer and the reader *)

Lemma no_point_in_uint (d : Decimal.uint) :
  has_char "." (NilEmpty.string_of_uint d) = false.
Proof. induction d; cbn; auto. Qed.

Lemma cut_app (w f : string) :
  has_char "." w = false -> cut (w ++ String "." f) = Some (w, f).
Proof.
  induction w as [|c w IH]; cbn; [reflexivity|].
  intros Hh. apply orb_false_elim in Hh as [Hc Hw].
  rewrite Hc, (IH Hw). reflexivity.
Qed.

Lemma to_uint_normal (p : positive) :
  Decimal.unorm (Pos.to_uint p) = Pos.to_uint p.
Proof.
  rewrite <- DecimalPos.Unsigned.to_of, DecimalPos.Unsigned.of_to. reflexivity.
Qed.

Lemma of_Z_no_point (q : Z) : (0 <= q)%Z -> has_char "." (Str.of_Z q) = false.
Proof.
  intros Hq. unfold Str.of_Z. destruct q as [|p|p]; [reflexivity| |lia].
  cbn [Z.to_int NilZero.string_of_int]. unfold NilZero.string_of_uint.
  destruct (Pos.to_uint p) eqn:E; try (rewrite <- E; apply no_point_in_uint).
  reflexivity.
Qed.

Lemma read_int_of_Z (q : Z) : (0 <= q)%Z -> read_int (Str.of_Z q) = Some q.
Proof.
  intros Hq. unfold Str.of_Z, read_int.
  destruct q as [|p|p]; [reflexivity| |lia].
  cbn [Z.to_int NilZero.string_of_int].
  rewrite (NilZero.usu _ (DecimalPos.Unsigned.to_uint_nonnil p)).
  rewrite to_uint_normal, String.eqb_refl.
  unfold Z.of_uint. now rewrite DecimalPos.Unsigned.of_to.
Qed.

Lemma digits_mod (k : nat) (z : Z) :
  Float.digits k z = Float.digits k (z mod 10 ^ Z.of_nat k).
Proof.
  revert z. induction k as [|k IH]; intros z; [reflexivity|].
  cbn [Float.digits].
  assert (Hp : (10 ^ Z.of_nat (S k) = 10 * 10 ^ Z.of_nat k)%Z).
  { rewrite Nat2Z.inj_succ, Z.pow_succ_r by lia. reflexivity. }
  assert (Hk : (0 < 10 ^ Z.of_nat k)%Z) by (apply Z.pow_pos_nonneg; lia).
  set (P := (10 ^ Z.of_nat k)%Z) in *. rewrite Hp.
  assert (E : (z mod (10 * P) = z mod 10 + 10 * ((z / 10) mod P))%Z)
    by (apply Z.rem_mul_r; lia).
  assert (E1 : ((z mod (10 * P)) / 10 = (z / 10) mod P)%Z).
  { rewrite E, (Z.mul_comm 10), Z.div_add by lia.
    rewrite Z.div_small by (apply Z.mod_pos_bound; lia). lia. }
  assert (E2 : ((z mod (10 * P)) mod 10 = z mod 10)%Z).
  { rewrite E, (Z.mul_comm 10), Z.mod_add by lia. apply Z.mod_mod. lia. }
  rewrite E1, E2, (IH (z / 10)%Z), (IH ((z / 10) mod P)%Z).
  fold P. rewrite Z.mod_mod by lia. reflexivity.
Qed.

Lemma upto_complete (n : nat) (r : Z) :
  (0 <= r < Z.of_nat n)%Z -> In r (map Z.of_nat (seq 0 n)).
Proof.
  intros Hr. apply in_map_iff. exists (Z.to_nat r). split; [lia|].
  apply in_seq. lia.
Qed.

Lemma three_digits_read (r : Z) :
  (0 <= r < 1000)%Z -> reads_back r = true.
Proof.
  intros Hr.
  assert (Hall : forallb reads_back (map Z.of_nat (seq 0 1000)) = true)
    by (vm_compute; reflexivity).
  rewrite forallb_forall in Hall. apply Hall, upto_complete. exact Hr.
Qed.

Lemma digits_length (k : nat) (z : Z) : String.length (Float.digits k z) = k.
Proof.
  revert z. induction k as [|k IH]; intros z; [reflexivity|].
  cbn [Float.digits]. rewrite append_length, IH. cbn. lia.
Qed.

(** Three decimals are read back as they were printed. *)
Lemma thousandths_fixed (n : Z) :
  (0 <= n)%Z -> thousandths (Float.fixed 3 n) = Some n.
Proof.
  intros Hn. unfold Float.fixed. change (10 ^ Z.of_nat 3)%Z with 1000%Z.
  assert (Hq : (0 <= n / 1000)%Z) by (apply Z.div_pos; lia).
  unfold thousandths. cbn [append].
  rewrite (cut_app _ _ (of_Z_no_point _ Hq)).
  rewrite digits_length, Nat.eqb_refl, (read_int_of_Z _ Hq).
  pose proof (three_digits_read (n mod 1000) ltac:(apply Z.mod_pos_bound; lia))
    as Hr.
  unfold reads_back in Hr.
  rewrite (digits_mod 3 n). change (10 ^ Z.of_nat 3)%Z with 1000%Z.
  rewrite (digits_mod 3 (n mod 1000)) in Hr.
  change (10 ^ Z.of_nat 3)%Z with 1000%Z in Hr. rewrite Z.mod_mod in Hr by lia.
  destruct (NilEmpty.uint_of_string (Float.digits 3 (n mod 1000))) as [u|];
    [|discriminate].
  apply Z.eqb_eq in Hr. rewrite Hr. f_equal.
  pose proof (Z.div_mod n 1000 ltac:(lia)). lia.
Qed.

Lemma round_half_even_nearest (num den : Z) :
  (0 <= num)%Z -> (0 < den)%Z ->
  nearest_even num den (Float.round_half_even num den)
  /\ (0 <= Float.round_half_even num den)%Z.
Proof.
  intros Hn Hd. unfold nearest_even, Float.round_half_even.
  pose proof (Z.div_mod num den ltac:(lia)) as Hdm.
  pose proof (Z.mod_pos_bound num den Hd) as Hm.
  assert (Hq : (0 <= num / den)%Z) by (apply Z.div_pos; lia).
  assert (A0 : (Z.abs (num / den * den - num) = num mod den)%Z)
    by (rewrite Z.abs_neq; lia).
  assert (A1 : (Z.abs ((num / den + 1) * den - num) = den - num mod den)%Z)
    by (rewrite Z.abs_eq; lia).
  destruct (2 * (num mod den) ?= den)%Z eqn:E.
  - apply Z.compare_eq in E.
    destruct (Z.even (num / den)) eqn:Ev.
    + split; [right; split; [lia | exact Ev] | lia].
    + split; [right; split; [lia|] | lia].
      rewrite Z.even_add, Ev. reflexivity.
  - change (2 * (num mod den) < den)%Z in E. split; [left; lia | lia].
  - change (2 * (num mod den) > den)%Z in E. split; [left; lia | lia].
Qed.

(** [format(x, '.3f')] of a finite float that is not negative denotes
    the number of thousandths nearest to it. *)
Lemma format_f_nearest (x : spec_float) (num den : Z) :
  exact_ratio x = Some (num, den) ->
  exists n, thousandths (Float.format_f 3 x) = Some n
            /\ nearest_even (1000 * num) den n.
Proof.
  destruct x as [[]| | |[] m e]; try discriminate.
  - intros [= <- <-]. exists 0%Z. split; [reflexivity|]. left. cbn. lia.
  - unfold exact_ratio, Float.format_f. change (10 ^ Z.of_nat 3)%Z with 1000%Z.
    cbn [Float.sign append].
    destruct e as [|e|k]; intros Hr.
    + replace num with (Z.pos m * 2 ^ 0)%Z by congruence.
      replace den with 1%Z by congruence.
      exists (Z.pos m * 2 ^ 0 * 1000)%Z. split.
      * apply thousandths_fixed. lia.
      * left. lia.
    + replace num with (Z.pos m * 2 ^ Z.pos e)%Z by congruence.
      replace den with 1%Z by congruence.
      exists (Z.pos m * 2 ^ Z.pos e * 1000)%Z. split.
      * apply thousandths_fixed.
        pose proof (Z.pow_pos_nonneg 2 (Z.pos e) ltac:(lia) ltac:(lia)). nia.
      * left. lia.
    + replace num with (Z.pos m) by congruence.
      replace den with (2 ^ Z.pos k)%Z by congruence.
      assert (Hp : (0 < 2 ^ Z.pos k)%Z) by (apply Z.pow_pos_nonneg; lia).
      destruct (round_half_even_nearest (Z.pos m * 1000) (2 ^ Z.pos k)
                  ltac:(lia) Hp) as [Hnear Hpos].
      exists (Float.round_half_even (Z.pos m * 1000) (2 ^ Z.pos k)). split.
      * now apply thousandths_fixed.
      * now rewrite (Z.mul_comm 1000).
Qed.


(** C7.  The composer first looks for [frame_*.png] in the frames
    directory and, finding none, raises the module's error "no frames to
    compose" without any event.  Otherwise it is the runner on
    [-framerate <fps> -i <dir>/frame_%07d.png -c:v libvpx-vp9 -pix_fmt
    yuva420p <destination>]; with [ffmpeg] on the search path, that
    command is the process that is started.  The rate is printed as
    [format] with [.3f] does: for a finite rate that is not negative the
    argument is a numeral with exactly three decimals, and the number
    of thousandths it denotes is the integer nearest to a thousand times
    the exact value of the rate (the even one at a tie).  24.0 prints as
    ["24.000"]; every finite rate prints with three digits after the
    point. *)
Theorem compose_checks_then_muxes (H : Host) (frames_dir : string)
    (fps : spec_float) (destination : string) (fs : FS H) :
  let args := ["-framerate"; Float.format_f 3 fps; "-i";
               frames_dir // "frame_%07d.png";
               "-c:v"; "libvpx-vp9"; "-pix_fmt"; "yuva420p"; destination] in
  let r := _compose_video_from_frames H frames_dir fps destination fs in
  (glob H frames_dir "frame_*.png" fs = [] ->
     r = mkRun [] fs
           (inl (BackgroundRemovalError (Msg.no_frames_to_compose frames_dir))))
  /\ (glob H frames_dir "frame_*.png" fs <> [] ->
     r = _run_ffmpeg H args fs)
  /\ (glob H frames_dir "frame_*.png" fs <> [] ->
      which H "ffmpeg" fs = true ->
      exists t, trace r =
        Log (Msg.ffmpeg_start ("ffmpeg" :: "-y" :: args))
        :: Exec ("ffmpeg" :: "-y" :: args)
             (fst (subprocess_run H ("ffmpeg" :: "-y" :: args) fs))
        :: t)
  /\ (forall num den,
        exact_ratio fps = Some (num, den) ->
        exists n, thousandths (Float.format_f 3 fps) = Some n
                  /\ nearest_even (1000 * num) den n)
  /\ Float.format_f 3 (Float.of_Z 24) = "24.000"
  /\ (is_finite fps = true ->
      exists whole frac,
        Float.format_f 3 fps = whole ++ "." ++ frac
        /\ String.length frac = 3%nat /\ all_digits frac = true).
Proof.
  intros args r.
  assert (Hne : glob H frames_dir "frame_*.png" fs <> [] -> r = _run_ffmpeg H args fs).
  { intros Hg. subst r. unfold _compose_video_from_frames, bind, path_glob.
    cbn [outcome trace fs_after].
    destruct (glob H frames_dir "frame_*.png" fs) as [|n ns]; [contradiction|].
    destruct (_run_ffmpeg H (compose_args frames_dir fps destination) fs)
      as [t f o] eqn:E. unfold compose_args in E. fold args in E. rewrite E. reflexivity. }
  split; [|split; [exact Hne|split; [|split; [|split]]]].
  - intros Hg. subst r. unfold _compose_video_from_frames, bind, path_glob.
    cbn [outcome trace fs_after]. rewrite Hg. reflexivity.
  - intros Hg Hw. rewrite (Hne Hg).
    destruct (subprocess_run H ("ffmpeg" :: "-y" :: args) fs) as [p fs'] eqn:Hr.
    destruct (Z.eq_dec (returncode p) 0) as [Hc|Hc].
    + rewrite (run_ffmpeg_success H args fs fs' p Hw Hr Hc). eexists; reflexivity.
    + rewrite (run_ffmpeg_failure H args fs fs' p Hw Hr Hc). eexists; reflexivity.
  - intros num den. apply format_f_nearest.
  - reflexivity.
  - apply (format_f_decimals 2).
Qed.

Lemma compose_checks_then_muxes_witness :
  _compose_video_from_frames (Demo.host Demo.clip) "/tmp/ws/frames_processed"
    (Float.of_Z 24) "/tmp/ws/clip_bg_removed.webm" Demo.clip_files
  = mkRun [] Demo.clip_files
      (inl (BackgroundRemovalError
              (Msg.no_frames_to_compose "/tmp/ws/frames_processed")))
  /\ _compose_video_from_frames (Demo.host Demo.clip) "/tmp/ws/frames_processed"
       (Float.of_Z 24) "/tmp/ws/clip_bg_removed.webm" Demo.transformed_files
  = _run_ffmpeg (Demo.host Demo.clip)
      ["-framerate"; "24.000"; "-i"; "/tmp/ws/frames_processed/frame_%07d.png";
       "-c:v"; "libvpx-vp9"; "-pix_fmt"; "yuva420p";
       "/tmp/ws/clip_bg_removed.webm"] Demo.transformed_files
  /\ Frac.to_float {| numerator := 24000; denominator := 1001 |} = inr ntsc_film
  /\ Float.format_f 3 ntsc_film = "23.976"
  /\ exists n, thousandths "23.976" = Some n
               /\ nearest_even (1000 * 6748650790265479) (2 ^ 48) n.
Proof.
  split; [|split; [|split; [|split]]].
  - apply (compose_checks_then_muxes (Demo.host Demo.clip)). reflexivity.
  - apply (compose_checks_then_muxes (Demo.host Demo.clip)
             "/tmp/ws/frames_processed" (Float.of_Z 24)
             "/tmp/ws/clip_bg_removed.webm" Demo.transformed_files).
    vm_compute. discriminate.
  - vm_compute. reflexivity.
  - vm_compute. reflexivity.
  - destruct (compose_checks_then_muxes (Demo.host Demo.clip)
                "/tmp/ws/frames_processed" ntsc_film
                "/tmp/ws/clip_bg_removed.webm" Demo.transformed_files)
      as (_ & _ & _ & Hfmt & _).
    apply (Hfmt 6748650790265479%Z (2 ^ 48)%Z). reflexivity.
Defined.

(** ** Order of events *)

Lemma no_app P (a b : list event) : no P a -> no P b -> no P (a ++ b)%list.
Proof. unfold no. intros Ha Hb. now rewrite existsb_app, Ha, Hb. Qed.

Lemma no_weaken (P Q : event -> bool) (t : list event) :
  (forall e, P e = true -> Q e = true) -> no Q t -> no P t.
Proof.
  unfold no. intros HPQ. induction t as [|e t IH]; cbn; [reflexivity|].
  intros Hq. apply orb_false_elim in Hq as [He Ht].
  rewrite (IH Ht), orb_false_r.
  destruct (P e) eqn:E; [|reflexivity]. apply HPQ in E. congruence.
Qed.

Lemma no_bind {H A B} P (m : M H A) (k : A -> M H B) fs :
  no P (trace (m fs)) ->
  (forall a fs', no P (trace (k a fs'))) ->
  no P (trace (bind m k fs)).
Proof.
  intros Hm Hk. rewrite trace_bind. apply no_app; [assumption|].
  destruct (outcome (m fs)); [reflexivity | apply Hk].
Qed.

Lemma each_after_vacuous P Q (t : list event) : no P t -> each_after P Q t.
Proof.
  unfold no. intros Hn t1 e t2 -> He.
  rewrite existsb_app in Hn. cbn in Hn. rewrite He in Hn.
  now rewrite orb_true_r in Hn.
Qed.

Lemma each_after_prefix P Q (a b : list event) :
  no P a -> existsb Q a = true -> each_after P Q (a ++ b)%list.
Proof.
  unfold no. intros Hn Hq t1 e t2 Heq He.
  symmetry in Heq. apply app_eq_app in Heq as [l [[-> _]|[-> Hl]]].
  - now rewrite existsb_app, Hq.
  - destruct l as [|e' l].
    + now rewrite app_nil_r in Hq.
    + injection Hl as <- _. rewrite existsb_app in Hn. cbn in Hn.
      rewrite He in Hn. now rewrite orb_true_r in Hn.
Qed.

Lemma none_before_front Q P (a b : list event) :
  no Q a -> none_before Q P b -> none_before Q P (a ++ b)%list.
Proof.
  unfold no. intros Hq Hb t1 e t2 Heq He.
  symmetry in Heq. apply app_eq_app in Heq as [l [[-> Hl]|[-> Hl]]].
  - rewrite existsb_app, Hq. cbn. now apply (Hb l e t2).
  - rewrite existsb_app in Hq. now apply orb_false_elim in Hq as [Hq _].
Qed.

Lemma none_before_app Q P (a b : list event) :
  no Q a -> no P b -> none_before Q P (a ++ b)%list.
Proof.
  intros Hq Hp. apply none_before_front; [assumption|].
  intros t1 e t2 -> He. unfold no in Hp.
  rewrite existsb_app in Hp. cbn in Hp. rewrite He in Hp.
  now rewrite orb_true_r in Hp.
Qed.

Lemma none_before_quiet Q P (t : list event) : no Q t -> none_before Q P t.
Proof.
  intros Hq. rewrite <- (app_nil_r t). apply none_before_app; [assumption|reflexivity].
Qed.

(** ** What each component does *)

Lemma run_ffmpeg_quiet (H : Host) args fs :
  no is_transform (trace (_run_ffmpeg H args fs))
  /\ no is_probe (trace (_run_ffmpeg H args fs)).
Proof.
  unfold _run_ffmpeg, bind, shutil_which, run_process, log, raise, ret.
  cbn [outcome trace fs_after].
  destruct (which H "ffmpeg" fs); cbn [negb outcome trace fs_after]; [|now split].
  destruct (subprocess_run H _ fs) as [p fs']. cbn [outcome trace fs_after].
  destruct (returncode p =? 0)%Z; split; reflexivity.
Qed.

Lemma extract_quiet (H : Host) src frames_dir fs :
  let r := _extract_video_frames H src frames_dir fs in
  no is_transform (trace r) /\ no is_probe (trace r)
  /\ (outcome r = inr tt -> existsb is_extract_ok (trace r) = true).
Proof.
  unfold _extract_video_frames, bind, path_mkdir. cbn [outcome trace fs_after].
  destruct (mkdir H frames_dir fs) as [e|fs1]; cbn [outcome trace fs_after];
    [repeat split; discriminate|].
  pose proof (run_ffmpeg_quiet H ["-i"; src; frames_dir // "frame_%07d.png"] fs1)
    as [Ht Hp].
  repeat split.
  - apply (no_app is_transform [_]); [reflexivity | assumption].
  - apply (no_app is_probe [_]); [reflexivity | assumption].
  - revert Ht Hp.
    unfold _run_ffmpeg, bind, shutil_which, run_process, log, raise, ret.
    cbn [outcome trace fs_after].
    destruct (which H "ffmpeg" fs1); cbn [negb outcome trace fs_after]; [|discriminate].
    destruct (subprocess_run H _ fs1) as [p fs']. cbn [outcome trace fs_after].
    destruct (returncode p =? 0)%Z eqn:E; cbn [negb outcome trace fs_after];
      [|discriminate].
    intros _ _ _. cbn. now rewrite E.
Qed.

Lemma probe_quiet (H : Host) path fs :
  no is_transform (trace (_probe_fps H path fs)).
Proof.
  unfold _probe_fps, read_rate, bind, shutil_which, run_process, log, raise, ret.
  cbn [outcome trace fs_after].
  destruct (which H "ffprobe" fs); cbn [negb outcome trace fs_after]; [|reflexivity].
  destruct (subprocess_run H _ fs) as [p fs']. cbn [outcome trace fs_after].
  destruct (returncode p =? 0)%Z; cbn [negb outcome trace fs_after]; [|reflexivity].
  destruct (json_loads H (stdout p)) as [data|]; [|reflexivity].
  destruct (avg_frame_rate_of data) as [e|avg]; [reflexivity|].
  destruct (parse_rate avg) as [[]|v]; reflexivity.
Qed.

Lemma compose_quiet (H : Host) frames_dir fps destination fs :
  no is_transform (trace (_compose_video_from_frames H frames_dir fps destination fs))
  /\ no is_probe (trace (_compose_video_from_frames H frames_dir fps destination fs)).
Proof.
  unfold _compose_video_from_frames, bind, path_glob. cbn [outcome trace fs_after].
  destruct (glob H frames_dir "frame_*.png" fs); cbn [app]; [now split|].
  apply run_ffmpeg_quiet.
Qed.

Lemma transform_frames_quiet (H : Host) remove pdir total paths index fs :
  no is_exec (trace (transform_frames H remove pdir total index paths fs)).
Proof.
  revert index fs. induction paths as [|p rest IH]; intros index fs; [reflexivity|].
  cbn [transform_frames].
  apply no_bind; [reflexivity | intros _ fs1].
  apply no_bind; [reflexivity | intros data fs2].
  apply no_bind; [reflexivity | intros out fs3].
  apply no_bind; [| intros _ fs4; apply IH].
  unfold path_write_bytes. destruct (write_bytes H _ _ fs3); reflexivity.
Qed.

(** ** The orchestrator *)

(** On a source that is not a still image, the pipeline is the start
    message followed by the video branch. *)
Lemma remove_background_on_video (H : Host) source workspace fs :
  is_image (resolve H source fs) = false ->
  remove_background H source workspace fs
  = let r := remove_background_video H (resolve H source fs)
               (resolve H workspace fs) fs in
    mkRun (Log (Msg.start (resolve H source fs)) :: trace r)
      (fs_after r) (outcome r).
Proof.
  intros Hv. unfold remove_background, bind, path_resolve, log.
  cbn [outcome trace fs_after app]. rewrite Hv.
  destruct (remove_background_video H _ _ fs) as [t f [e|v]]; reflexivity.
Qed.

Lemma is_remove_transform e : is_remove e = true -> is_transform e = true.
Proof. now destruct e. Qed.

Lemma is_probe_exec e : is_probe e = true -> is_exec e = true.
Proof. now destruct e. Qed.

Lemma import_remove_quiet (H : Host) P fs : no P (trace (import_remove H fs)).
Proof. unfold import_remove. destruct (rembg H); reflexivity. Qed.

Lemma finish_quiet (H : Host) src ws pdir fs :
  no is_remove (trace (finish_video H src ws pdir fs)).
Proof.
  unfold finish_video. apply no_bind.
  - apply (no_weaken _ _ _ is_remove_transform), probe_quiet.
  - intros fps fs1. apply no_bind.
    + apply (no_weaken _ _ _ is_remove_transform), compose_quiet.
    + intros _ fs2. reflexivity.
Qed.

(** On the video path, every call of the removal engine comes after a
    run of the extraction command that exited with code 0, and no run
    of the stream-inspection tool comes before any call of the removal
    engine. *)
Lemma removal_between_extraction_and_probe (H : Host) source workspace fs :
  is_image (resolve H source fs) = false ->
  each_after is_remove is_extract_ok
    (trace (remove_background H source workspace fs))
  /\ none_before is_probe is_remove
    (trace (remove_background H source workspace fs)).
Proof.
  intros Hv. rewrite (remove_background_on_video H source workspace fs Hv).
  cbn [trace]. set (src := resolve H source fs). set (ws := resolve H workspace fs).
  unfold remove_background_video.
  destruct (extract_quiet H src (ws // "frames") fs) as [Ht [Hp Hok]].
  pose proof (no_weaken _ _ _ is_remove_transform Ht) as Hr.
  split.
  - rewrite trace_bind.
    destruct (outcome (_extract_video_frames H src (ws // "frames") fs)) as [e|[]] eqn:Ho.
    + apply each_after_vacuous. rewrite app_nil_r.
      apply (no_app is_remove [_]); [reflexivity | assumption].
    + apply (each_after_prefix is_remove is_extract_ok (_ :: _)).
      * apply (no_app is_remove [_]); [reflexivity | assumption].
      * cbn. apply (Hok eq_refl).
  - apply (none_before_front is_probe is_remove [_]); [reflexivity|].
    rewrite trace_bind. apply none_before_front; [assumption|].
    destruct (outcome _); [apply none_before_quiet; reflexivity|].
    rewrite trace_bind. apply none_before_front.
    { unfold path_mkdir. destruct (mkdir H _ _); reflexivity. }
    destruct (outcome _); [apply none_before_quiet; reflexivity|].
    rewrite trace_bind. apply none_before_front; [apply import_remove_quiet|].
    destruct (outcome _) as [e|remove]; [apply none_before_quiet; reflexivity|].
    rewrite trace_bind. apply none_before_front; [reflexivity|].
    destruct (outcome _) as [e|paths]; [apply none_before_quiet; reflexivity|].
    unfold process_frames.
    destruct paths as [|p rest]; [apply none_before_quiet; reflexivity|].
    rewrite trace_bind.
    destruct (outcome _).
    + rewrite app_nil_r. apply none_before_quiet.
      apply (no_weaken _ _ _ is_probe_exec), transform_frames_quiet.
    + apply none_before_app.
      * apply (no_weaken _ _ _ is_probe_exec), transform_frames_quiet.
      * apply finish_quiet.
Qed.

(** C2, as stated, fails: on [clip.mp4], a video input, the first frame
    is handed to the removal engine although no probe has run. *)
Lemma probe_does_not_precede_transform :
  is_image (resolve (Demo.host Demo.clip) "/in/clip.mp4" Demo.clip_files) = false
  /\ ~ each_after is_remove is_probe_ok (trace clip_run).
Proof.
  split; [reflexivity|]. intros Hc.
  specialize (Hc (firstn 7 (trace clip_run)) (Remove "png:frame_0000001.png")
                (skipn 8 (trace clip_run))).
  assert (Hs : trace clip_run =
               (firstn 7 (trace clip_run) ++ Remove "png:frame_0000001.png"
                  :: skipn 8 (trace clip_run))%list) by (vm_compute; reflexivity).
  specialize (Hc Hs eq_refl). vm_compute in Hc. discriminate Hc.
Qed.

Lemma bind_ok {H A B} (m : M H A) (k : A -> M H B) fs a :
  outcome (m fs) = inr a ->
  bind m k fs
  = let r' := k a (fs_after (m fs)) in
    mkRun (trace (m fs) ++ trace r')%list (fs_after r') (outcome r').
Proof. intros Ho. unfold bind. now rewrite Ho. Qed.

(** C5, as the code has it.  For a video input whose extraction
    succeeds and leaves no [frame_*.png] in the frames directory, the
    run is the start message, the extraction and the creation of the
    output directory, and it ends in an error: no frame is read,
    removed or written and the removal engine is never called.  The
    error is "ffmpeg produced no frame" only when the output directory
    could be made and the removal engine imported: the import guard
    stands before the listing, so without the engine the error is the
    one of the missing library, and a failure of [mkdir] comes out as
    raised. *)
Theorem zero_frames_is_an_error (H : Host) source workspace fs :
  let src := resolve H source fs in
  let ws := resolve H workspace fs in
  let r1 := _extract_video_frames H src (ws // "frames") fs in
  let made := mkdir H (ws // "frames_processed") (fs_after r1) in
  let r := remove_background H source workspace fs in
  is_image src = false ->
  outcome r1 = inr tt ->
  (forall fs2, made = inr fs2 ->
               glob H (ws // "frames") "frame_*.png" fs2 = []) ->
  trace r = (Log (Msg.start src)
             :: trace r1 ++ [Mkdir (ws // "frames_processed")])%list
  /\ outcome r
     = match made, rembg H with
       | inl e, _ => inl e
       | inr _, None => inl (BackgroundRemovalError Msg.rembg_missing)
       | inr _, Some _ => inl (BackgroundRemovalError Msg.no_frames_produced)
       end
  /\ no is_transform (trace r)
  /\ no is_remove (trace r).
Proof.
  intros src ws r1 made r Hv Ho Hg.
  assert (Hr : trace r = (Log (Msg.start src)
                          :: trace r1 ++ [Mkdir (ws // "frames_processed")])%list
               /\ outcome r
                  = match made, rembg H with
                    | inl e, _ => inl e
                    | inr _, None => inl (BackgroundRemovalError Msg.rembg_missing)
                    | inr _, Some _ =>
                        inl (BackgroundRemovalError Msg.no_frames_produced)
                    end).
  { subst r. rewrite (remove_background_on_video H source workspace fs Hv).
    fold src ws. unfold remove_background_video.
    rewrite (bind_ok _ _ _ tt Ho). fold r1.
    unfold process_frames, sorted_glob, path_mkdir, import_remove, path_glob,
      ret, raise, bind.
    cbn [outcome trace fs_after]. fold made.
    destruct made as [e|fs2] eqn:Hm; cbn [outcome trace fs_after].
    - now split.
    - destruct (rembg H) as [remove|]; cbn [outcome trace fs_after].
      + rewrite (Hg fs2 eq_refl). cbn [outcome trace fs_after map sorted].
        rewrite !app_nil_r. now split.
      + rewrite !app_nil_r. now split. }
  destruct Hr as [Ht Hout].
  assert (Hn : no is_transform (trace r)).
  { rewrite Ht. apply (no_app is_transform [_]); [reflexivity|].
    apply no_app; [apply extract_quiet | reflexivity]. }
  repeat split; [exact Ht | exact Hout | exact Hn |].
  apply (no_weaken _ _ _ is_remove_transform Hn).
Qed.

Lemma zero_frames_is_an_error_witness :
  outcome blank_run = inl (BackgroundRemovalError Msg.no_frames_produced)
  /\ no is_remove (trace blank_run).
Proof.
  assert (Hg : forall fs2 : Demo.Files,
             inr Demo.clip_files = (inr fs2 : exn + Demo.Files) ->
             Demo.entries "/tmp/ws/frames" "frame_*.png" fs2 = [])
    by (intros fs2 [= <-]; reflexivity).
  destruct (zero_frames_is_an_error (Demo.host Demo.blank)
              "/in/clip.mp4" "/tmp/ws" Demo.clip_files eq_refl eq_refl Hg)
    as (_ & Hout & _ & Hn).
  split; [exact Hout | exact Hn].
Defined.

(** C5, as stated, fails: on a machine without the removal engine, a
    video that extracts to no frame does not end in "ffmpeg produced no
    frame" but in the error of the missing library. *)
Lemma zero_frames_without_engine :
  is_image (resolve (Demo.host blank_no_engine) "/in/clip.mp4" Demo.clip_files)
  = false
  /\ outcome (_extract_video_frames (Demo.host blank_no_engine) "/in/clip.mp4"
                "/tmp/ws/frames" Demo.clip_files) = inr tt
  /\ glob (Demo.host blank_no_engine) "/tmp/ws/frames" "frame_*.png"
       (fs_after blank_no_engine_run) = []
  /\ outcome blank_no_engine_run
     = inl (BackgroundRemovalError Msg.rembg_missing)
  /\ outcome blank_no_engine_run
     <> inl (BackgroundRemovalError Msg.no_frames_produced).
Proof.
  repeat split; try (vm_compute; reflexivity).
  vm_compute. discriminate.
Qed.

(** ** The frame loop *)

(** The loop, when it completes, has done exactly [frames_trace]. *)
Lemma transform_frames_trace (H : Host) remove pdir total index
    paths fs :
  let r := transform_frames H remove pdir total index paths fs in
  outcome r = inr tt -> frames_trace remove pdir total index paths (trace r).
Proof.
  cbn zeta. revert index fs. induction paths as [|p rest IH]; intros index fs.
  - intros _. constructor.
  - cbn [transform_frames]. intros Ho. revert Ho.
    rewrite !outcome_bind, !trace_bind.
    cbn [log path_read_bytes outcome trace fs_after app].
    destruct (read_bytes H p fs) as [e|data]; [discriminate|].
    rewrite !outcome_bind, !trace_bind.
    cbn [call_remove outcome trace fs_after app].
    destruct (remove data) as [e|out] eqn:Hrm; [discriminate|].
    rewrite !outcome_bind, !trace_bind. unfold path_write_bytes.
    destruct (write_bytes H (pdir // Path.name p) out fs) as [e|fs'];
      cbn [outcome trace fs_after app]; [discriminate|].
    intros Ho. apply frames_step; [exact Hrm|].
    apply IH. exact Ho.
Qed.

Lemma insert_sorted_permutation (x : string) (l : list string) :
  Permutation (insert_sorted x l) (x :: l).
Proof.
  induction l as [|y l IH]; cbn; [reflexivity|].
  destruct (String.ltb x y); [reflexivity|].
  rewrite IH. apply perm_swap.
Qed.

Lemma sorted_permutation (l : list string) : Permutation (sorted l) l.
Proof.
  induction l as [|x l IH]; cbn; [reflexivity|].
  rewrite insert_sorted_permutation. now apply perm_skip.
Qed.


(** The video branch once the extraction, the creation of the output
    directory and the import have succeeded. *)
Lemma video_after_setup (H : Host) src ws fs fs2 remove :
  outcome (_extract_video_frames H src (ws // "frames") fs) = inr tt ->
  mkdir H (ws // "frames_processed")
    (fs_after (_extract_video_frames H src (ws // "frames") fs)) = inr fs2 ->
  rembg H = Some remove ->
  remove_background_video H src ws fs
  = let rest :=
      process_frames H src ws (ws // "frames_processed") remove
        (map (Path.joinpath (ws // "frames"))
           (sorted (glob H (ws // "frames") "frame_*.png" fs2))) fs2 in
    mkRun (trace (_extract_video_frames H src (ws // "frames") fs)
           ++ [Mkdir (ws // "frames_processed")] ++ trace rest)%list
      (fs_after rest) (outcome rest).
Proof.
  intros Ho Hm Hi.
  unfold remove_background_video.
  rewrite (bind_ok _ _ _ tt Ho).
  unfold sorted_glob, path_mkdir, import_remove, path_glob, ret, bind.
  cbn [outcome trace fs_after]. rewrite Hm. cbn [outcome trace fs_after].
  rewrite Hi. cbn [outcome trace fs_after app].
  destruct (process_frames H src ws _ remove _ fs2) as [t f [e|v]]; reflexivity.
Qed.

(** C3, as stated, fails: on [clip.mp4] the progress message of the
    first frame is the event number 5 and the write of its output the
    event number 8, so the message does not follow the write. *)
Lemma progress_precedes_write :
  position (is_log (Msg.progress 1 2 "frame_0000001.png")) (trace clip_run)
  = Some 5%nat
  /\ position (is_write "/tmp/ws/frames_processed/frame_0000001.png")
       (trace clip_run) = Some 8%nat
  /\ ~ follows (is_log (Msg.progress 1 2 "frame_0000001.png"))
         (is_write "/tmp/ws/frames_processed/frame_0000001.png")
         (trace clip_run).
Proof.
  assert (Hl : position (is_log (Msg.progress 1 2 "frame_0000001.png"))
                 (trace clip_run) = Some 5%nat) by (vm_compute; reflexivity).
  assert (Hw : position (is_write "/tmp/ws/frames_processed/frame_0000001.png")
                 (trace clip_run) = Some 8%nat) by (vm_compute; reflexivity).
  split; [exact Hl | split; [exact Hw |]].
  intros [i [j [Hi [Hj Hlt]]]].
  rewrite Hl in Hi. rewrite Hw in Hj.
  injection Hi as <-. injection Hj as <-. lia.
Qed.

(** * Further properties of the pipeline *)

(** ** Still images *)

Lemma bind_then {H A B} (m : M H A) (k : A -> M H B) fs t fs1 a t2 fs2 o tr :
  m fs = mkRun t fs1 (inr a) ->
  k a fs1 = mkRun t2 fs2 o ->
  tr = (t ++ t2)%list ->
  bind m k fs = mkRun tr fs2 o.
Proof. intros Hm Hk ->. unfold bind. rewrite Hm. cbn. now rewrite Hk. Qed.

Lemma bind_raise {H A B} (m : M H A) (k : A -> M H B) fs t fs1 e :
  m fs = mkRun t fs1 (inl e) ->
  bind m k fs = mkRun t fs1 (inl e).
Proof. intros Hm. unfold bind. now rewrite Hm. Qed.

(** X1: on a still image, when the engine is importable and the read,
    the removal and the write succeed, the run is exactly: the start
    message, the image message, the read of the source, one removal,
    the write of [<workspace>/<stem>_bg_removed.png] and the final
    message; the result pairs the resolved source with that file. *)
Theorem still_image_run (H : Host) source workspace fs fs' remove data out :
  let src := resolve H source fs in
  let dest := resolve H workspace fs // (Path.stem src ++ "_bg_removed.png") in
  is_image src = true ->
  rembg H = Some remove ->
  read_bytes H src fs = inr data ->
  remove data = inr out ->
  write_bytes H dest out fs = inr fs' ->
  remove_background H source workspace fs
  = mkRun [Log (Msg.start src); Log (Msg.image_start src); ReadBytes src;
           Remove data; WriteBytes dest out; Log (Msg.image_done dest)]
      fs' (inr {| source := src; processed := dest |}).
Proof.
  intros src dest Hi Hr Hd Hm Hw. unfold remove_background.
  eapply bind_then; [reflexivity | | reflexivity].
  eapply bind_then; [reflexivity | | reflexivity].
  eapply bind_then; [reflexivity | | reflexivity]. fold src. rewrite Hi.
  eapply bind_then; [| reflexivity |].
  { unfold _remove_background_from_image.
    eapply bind_then; [reflexivity | | reflexivity].
    eapply bind_then;
      [unfold import_remove; rewrite Hr; reflexivity | | reflexivity].
    eapply bind_then;
      [unfold path_read_bytes; rewrite Hd; reflexivity | | reflexivity].
    eapply bind_then;
      [unfold call_remove; rewrite Hm; reflexivity | | reflexivity].
    eapply bind_then;
      [unfold path_write_bytes; fold dest; rewrite Hw; reflexivity
      | reflexivity | reflexivity]. }
  reflexivity.
Qed.

Lemma still_image_run_witness :
  outcome (remove_background (Demo.host Demo.clip) "/in/pic.PNG" "/tmp/ws"
             [("/in/pic.PNG", "img")])
  = inr {| source := "/in/pic.PNG"; processed := "/tmp/ws/pic_bg_removed.png" |}.
Proof.
  assert (Hrun := still_image_run (Demo.host Demo.clip) "/in/pic.PNG" "/tmp/ws"
             [("/in/pic.PNG", "img")]
             [("/tmp/ws/pic_bg_removed.png", "cut:img"); ("/in/pic.PNG", "img")]
             Demo.cutout "img" "cut:img").
  cbv zeta in Hrun.
  rewrite Hrun; vm_compute; reflexivity.
Defined.

Lemma count_app P (a b : list event) :
  count P (a ++ b)%list = (count P a + count P b)%nat.
Proof. unfold count. now rewrite filter_app, length_app. Qed.

Lemma count_no P (t : list event) : no P t -> count P t = 0%nat.
Proof.
  unfold no, count. induction t as [|e t IH]; cbn; [reflexivity|].
  intros Hn. apply orb_false_elim in Hn as [-> Ht]. now apply IH.
Qed.

Lemma count_bind {H A B} P (m : M H A) (k : A -> M H B) fs a b :
  (count P (trace (m fs)) <= a)%nat ->
  (forall x fs', count P (trace (k x fs')) <= b)%nat ->
  (count P (trace (bind m k fs)) <= a + b)%nat.
Proof.
  intros Hm Hk. rewrite trace_bind, count_app.
  destruct (outcome (m fs)) as [e|x]; [cbn; lia|].
  specialize (Hk x (fs_after (m fs))). lia.
Qed.

Lemma remove_background_on_image (H : Host) source workspace fs :
  is_image (resolve H source fs) = true ->
  remove_background H source workspace fs
  = let src := resolve H source fs in
    let dest := resolve H workspace fs // (Path.stem src ++ "_bg_removed.png") in
    let r := _remove_background_from_image H src dest fs in
    mkRun (Log (Msg.start src) :: trace r) (fs_after r)
      match outcome r with
      | inl e => inl e
      | inr _ => inr {| source := src; processed := dest |}
      end.
Proof.
  intros Hi. unfold remove_background, bind, path_resolve, log.
  cbn [outcome trace fs_after app]. rewrite Hi.
  destruct (_remove_background_from_image H _ _ fs) as [t f [e|[]]];
    cbn [outcome trace fs_after ret]; rewrite ?app_nil_r; reflexivity.
Qed.

Lemma image_removal_events (H : Host) src dest fs :
  let t := trace (_remove_background_from_image H src dest fs) in
  no is_exec t /\ no is_mkdir t /\ (count is_remove t <= 1)%nat.
Proof.
  cbn zeta. unfold _remove_background_from_image. split; [|split].
  - apply no_bind; [reflexivity | intros _ fs1].
    apply no_bind; [apply import_remove_quiet | intros remove fs2].
    apply no_bind; [reflexivity | intros data fs3].
    apply no_bind; [reflexivity | intros out fs4].
    apply no_bind; [| intros _ fs5; reflexivity].
    unfold path_write_bytes. destruct (write_bytes H _ _ fs4); reflexivity.
  - apply no_bind; [reflexivity | intros _ fs1].
    apply no_bind; [apply import_remove_quiet | intros remove fs2].
    apply no_bind; [reflexivity | intros data fs3].
    apply no_bind; [reflexivity | intros out fs4].
    apply no_bind; [| intros _ fs5; reflexivity].
    unfold path_write_bytes. destruct (write_bytes H _ _ fs4); reflexivity.
  - apply (count_bind _ _ _ _ 0 1); [cbn; lia | intros _ fs1].
    apply (count_bind _ _ _ _ 0 1);
      [rewrite count_no; [lia | apply import_remove_quiet] | intros remove fs2].
    apply (count_bind _ _ _ _ 0 1); [cbn; lia | intros data fs3].
    apply (count_bind _ _ _ _ 1 0); [cbn; lia | intros out fs4].
    apply (count_bind _ _ _ _ 0 0); [| intros _ fs5; cbn; lia].
    unfold path_write_bytes. destruct (write_bytes H _ _ fs4); cbn; lia.
Qed.

Lemma image_run_no_exec (H : Host) source workspace fs :
  is_image (resolve H source fs) = true ->
  no is_exec (trace (remove_background H source workspace fs)).
Proof.
  intros Hi. rewrite (remove_background_on_image H source workspace fs Hi).
  cbn zeta. cbn [trace].
  apply (no_app is_exec [_]); [reflexivity | apply image_removal_events].
Qed.

(** X2: a still image is handled without any external process and
    without creating a directory, and the engine is called at most
    once. *)
Theorem still_image_stays_in_process (H : Host) source workspace fs :
  is_image (resolve H source fs) = true ->
  let t := trace (remove_background H source workspace fs) in
  no is_exec t /\ no is_mkdir t /\ (count is_remove t <= 1)%nat.
Proof.
  intros Hi. rewrite (remove_background_on_image H source workspace fs Hi).
  cbn zeta. cbn [trace].
  destruct (image_removal_events H (resolve H source fs)
              (resolve H workspace fs
                 // (Path.stem (resolve H source fs) ++ "_bg_removed.png")) fs)
    as [He [Hm Hc]].
  split; [|split].
  - apply (no_app is_exec [_]); [reflexivity | exact He].
  - apply (no_app is_mkdir [_]); [reflexivity | exact Hm].
  - change (Log ?m :: ?t) with ([Log m] ++ t)%list.
    rewrite (count_app is_remove [_]). cbn [count filter is_remove List.length].
    exact Hc.
Qed.

Lemma still_image_stays_in_process_witness :
  no is_exec (trace (remove_background (Demo.host Demo.clip) "/in/pic.PNG"
                       "/tmp/ws" [("/in/pic.PNG", "img")])).
Proof.
  apply (still_image_stays_in_process (Demo.host Demo.clip) "/in/pic.PNG"
           "/tmp/ws" [("/in/pic.PNG", "img")]). reflexivity.
Defined.

(** ** The result descriptor *)

Lemma finish_video_result (H : Host) src ws pdir fs res :
  outcome (finish_video H src ws pdir fs) = inr res ->
  res = {| source := src;
           processed := ws // (Path.stem src ++ "_bg_removed.webm") |}.
Proof.
  unfold finish_video. rewrite outcome_bind.
  destruct (outcome (_probe_fps H src fs)) as [e|fps]; [discriminate|].
  rewrite outcome_bind. destruct (outcome _) as [e|[]]; [discriminate|].
  rewrite outcome_bind. cbn [log outcome fs_after ret]. now intros [= <-].
Qed.

Lemma video_result (H : Host) src ws fs res :
  outcome (remove_background_video H src ws fs) = inr res ->
  res = {| source := src;
           processed := ws // (Path.stem src ++ "_bg_removed.webm") |}.
Proof.
  unfold remove_background_video. rewrite outcome_bind.
  destruct (outcome _) as [e|[]]; [discriminate|].
  rewrite outcome_bind. destruct (outcome _) as [e|[]]; [discriminate|].
  rewrite outcome_bind. destruct (outcome _) as [e|remove]; [discriminate|].
  rewrite outcome_bind. destruct (outcome _) as [e|paths]; [discriminate|].
  unfold process_frames. destruct paths as [|p rest]; [discriminate|].
  rewrite outcome_bind. destruct (outcome _) as [e|[]]; [discriminate|].
  apply finish_video_result.
Qed.

Lemma append_cancel (a b c : string) : a ++ b = a ++ c -> b = c.
Proof. induction a as [|x a IH]; cbn; [tauto|]. intros [= E]. now apply IH. Qed.

(** The name of the processed file is never the name of the source. *)
Lemma processed_name_differs (src ws : string) :
  Path.name (ws // (Path.stem src ++ processed_suffix src)) <> Path.name src.
Proof.
  rewrite name_joinpath.
  - rewrite <- (stem_suffix src). intros E. apply append_cancel in E.
    destruct (suffix_shape src) as [Hs|[c [r Hs]]]; rewrite Hs in E;
      unfold processed_suffix in E; destruct (is_image src); discriminate.
  - rewrite has_char_app, stem_no_slash.
    unfold processed_suffix. now destruct (is_image src).
Qed.

(** X3: whenever [remove_background] returns, the descriptor's source
    is the resolved input and the processed file is
    [<workspace>/<stem>_bg_removed.png] for an image and
    [<workspace>/<stem>_bg_removed.webm] otherwise; its name differs from
    the source's name, so the input is never the output. *)
Theorem result_descriptor (H : Host) input workspace fs res :
  outcome (remove_background H input workspace fs) = inr res ->
  let src := resolve H input fs in
  source res = src
  /\ processed res
     = resolve H workspace fs // (Path.stem src ++ processed_suffix src)
  /\ Path.name (processed res) <> Path.name src
  /\ processed res <> source res.
Proof.
  intros Ho src.
  assert (Hres : res = {| source := src;
                          processed := resolve H workspace fs
                                       // (Path.stem src ++ processed_suffix src) |}).
  { unfold processed_suffix. destruct (is_image src) eqn:Hi.
    - rewrite (remove_background_on_image H input workspace fs Hi) in Ho.
      cbn zeta in Ho. cbn [outcome] in Ho.
      destruct (outcome _) as [e|[]]; [discriminate|]. now injection Ho as <-.
    - rewrite (remove_background_on_video H input workspace fs Hi) in Ho.
      cbn zeta in Ho. cbn [outcome] in Ho. now apply video_result in Ho. }
  subst res. cbn [source processed].
  pose proof (processed_name_differs src (resolve H workspace fs)) as Hn.
  repeat split; try assumption.
  intros E. apply Hn. now rewrite E.
Qed.

Lemma result_descriptor_witness :
  processed {| source := "/in/clip.mp4";
               processed := "/tmp/ws/clip_bg_removed.webm" |}
  <> source {| source := "/in/clip.mp4";
               processed := "/tmp/ws/clip_bg_removed.webm" |}.
Proof.
  apply (result_descriptor (Demo.host Demo.clip) "/in/clip.mp4" "/tmp/ws"
           Demo.clip_files). vm_compute. reflexivity.
Defined.

(** ** Without the removal engine *)

(** X4: when [rembg] cannot be imported, no frame or image is read,
    transformed or written and the pipeline never returns a result; on
    an image the run is the two opening messages and the typed error. *)
Theorem without_rembg (H : Host) source workspace fs :
  rembg H = None ->
  let r := remove_background H source workspace fs in
  no is_transform (trace r)
  /\ (forall res, outcome r <> inr res)
  /\ (is_image (resolve H source fs) = true ->
      r = mkRun [Log (Msg.start (resolve H source fs));
                 Log (Msg.image_start (resolve H source fs))] fs
            (inl (BackgroundRemovalError Msg.rembg_missing))).
Proof.
  intros Hr. cbn zeta.
  assert (Himg : is_image (resolve H source fs) = true ->
                 remove_background H source workspace fs
                 = mkRun [Log (Msg.start (resolve H source fs));
                          Log (Msg.image_start (resolve H source fs))] fs
                     (inl (BackgroundRemovalError Msg.rembg_missing))).
  { intros Hi. rewrite (remove_background_on_image H source workspace fs Hi).
    cbn zeta.
    assert (E : forall src dest,
               _remove_background_from_image H src dest fs
               = mkRun [Log (Msg.image_start src)] fs
                   (inl (BackgroundRemovalError Msg.rembg_missing))).
    { intros src dest. unfold _remove_background_from_image.
      eapply bind_then; [reflexivity | | reflexivity].
      apply bind_raise. unfold import_remove. rewrite Hr. reflexivity. }
    rewrite E. reflexivity. }
  destruct (is_image (resolve H source fs)) eqn:Hi.
  - rewrite (Himg eq_refl).
    split; [reflexivity | split; [intros res; discriminate | reflexivity]].
  - split; [|split; [|discriminate]].
    + rewrite (remove_background_on_video H source workspace fs Hi).
      cbn zeta. cbn [trace]. apply (no_app is_transform [_]); [reflexivity|].
      unfold remove_background_video.
      apply no_bind; [apply extract_quiet | intros _ fs1].
      apply no_bind.
      { unfold path_mkdir. destruct (mkdir H _ fs1); reflexivity. }
      intros _ fs2. rewrite trace_bind. unfold import_remove. rewrite Hr.
      reflexivity.
    + intros res. rewrite (remove_background_on_video H source workspace fs Hi).
      cbn zeta. cbn [outcome]. unfold remove_background_video.
      rewrite outcome_bind. destruct (outcome _) as [e|[]]; [discriminate|].
      rewrite outcome_bind. destruct (outcome _) as [e|[]]; [discriminate|].
      rewrite outcome_bind. unfold import_remove. rewrite Hr. discriminate.
Qed.

(** ** Extraction that fails *)

Lemma run_ffmpeg_missing (H : Host) args fs :
  which H "ffmpeg" fs = false ->
  _run_ffmpeg H args fs
  = mkRun [] fs (inl (BackgroundRemovalError Msg.ffmpeg_missing)).
Proof.
  intros Hw. unfold _run_ffmpeg, bind, shutil_which; cbn [outcome trace fs_after].
  now rewrite Hw.
Qed.

(** X5: on a video, a missing [ffmpeg] stops the run right after the
    frames directory is made, and a non-zero exit of the extraction
    stops it after both captured streams are logged; in both cases with
    the typed error and before anything else is created. *)
Theorem extraction_failure_aborts (H : Host) input workspace fs fs1 :
  let src := resolve H input fs in
  let frames_dir := resolve H workspace fs // "frames" in
  let command := ["ffmpeg"; "-y"; "-i"; src; frames_dir // "frame_%07d.png"] in
  is_image src = false ->
  mkdir H frames_dir fs = inr fs1 ->
  (which H "ffmpeg" fs1 = false ->
   remove_background H input workspace fs
   = mkRun [Log (Msg.start src); Mkdir frames_dir] fs1
       (inl (BackgroundRemovalError Msg.ffmpeg_missing)))
  /\ (forall p fs2,
        which H "ffmpeg" fs1 = true ->
        subprocess_run H command fs1 = (p, fs2) ->
        returncode p <> 0%Z ->
        remove_background H input workspace fs
        = mkRun [Log (Msg.start src); Mkdir frames_dir;
                 Log (Msg.ffmpeg_start command); Exec command p;
                 Log (stdout p); Log (stderr p)] fs2
            (inl (BackgroundRemovalError (Msg.ffmpeg_failed (returncode p))))).
Proof.
  intros src frames_dir command Hv Hm.
  assert (Hmk : path_mkdir H frames_dir fs = mkRun [Mkdir frames_dir] fs1 (inr tt)).
  { unfold path_mkdir. now rewrite Hm. }
  split.
  - intros Hw. rewrite (remove_background_on_video H input workspace fs Hv).
    fold src. unfold remove_background_video.
    erewrite bind_raise; [reflexivity|].
    unfold _extract_video_frames. fold frames_dir.
    eapply bind_then; [exact Hmk | | reflexivity].
    now apply run_ffmpeg_missing.
  - intros p fs2 Hw Hr Hc.
    rewrite (remove_background_on_video H input workspace fs Hv).
    fold src. unfold remove_background_video.
    erewrite bind_raise; [reflexivity|].
    unfold _extract_video_frames. fold frames_dir.
    eapply bind_then; [exact Hmk | | reflexivity].
    now apply run_ffmpeg_failure.
Qed.

Lemma extraction_failure_aborts_witness :
  outcome (remove_background (Demo.host Demo.failing) "/in/clip.mp4" "/tmp/ws"
             Demo.clip_files)
  = inl (BackgroundRemovalError (Msg.ffmpeg_failed 1))
  /\ remove_background (Demo.host Demo.bare) "/in/clip.mp4" "/tmp/ws"
       Demo.clip_files
     = mkRun [Log (Msg.start "/in/clip.mp4"); Mkdir "/tmp/ws/frames"]
         Demo.clip_files (inl (BackgroundRemovalError Msg.ffmpeg_missing)).
Proof.
  split.
  - destruct (extraction_failure_aborts (Demo.host Demo.failing) "/in/clip.mp4"
                "/tmp/ws" Demo.clip_files Demo.clip_files eq_refl eq_refl)
      as [_ Hf].
    rewrite (Hf (Demo.ffmpeg_result Demo.failing) Demo.clip_files);
      [reflexivity | reflexivity | reflexivity | discriminate].
  - destruct (extraction_failure_aborts (Demo.host Demo.bare) "/in/clip.mp4"
                "/tmp/ws" Demo.clip_files Demo.clip_files eq_refl eq_refl)
      as [Hm _].
    apply Hm. reflexivity.
Defined.

(** ** Every frame, once, in order *)

Lemma quiet_reads_writes (t : list event) :
  no is_transform t ->
  reads t = [] /\ writes t = [] /\ count is_remove t = 0%nat.
Proof.
  unfold no, reads, writes, count. induction t as [|e t IH]; cbn; [now repeat split|].
  intros Hn. apply orb_false_elim in Hn as [He Ht].
  destruct (IH Ht) as [Hr [Hw Hc]].
  destruct e; try discriminate; cbn; now repeat split.
Qed.

Lemma reads_app (a b : list event) : reads (a ++ b) = (reads a ++ reads b)%list.
Proof. unfold reads. apply flat_map_app. Qed.

Lemma writes_app (a b : list event) : writes (a ++ b) = (writes a ++ writes b)%list.
Proof. unfold writes. apply flat_map_app. Qed.

Lemma frames_trace_summary remove pdir total index paths t :
  frames_trace remove pdir total index paths t ->
  reads t = paths
  /\ writes t = map (fun p => pdir // Path.name p) paths
  /\ count is_remove t = List.length paths.
Proof.
  induction 1 as [index | index p rest data out t Hrm Hf [Hr [Hw Hc]]].
  - now repeat split.
  - unfold reads, writes, count in *. cbn. repeat split; congruence.
Qed.

Lemma finish_no_transform (H : Host) src ws pdir fs :
  no is_transform (trace (finish_video H src ws pdir fs)).
Proof.
  unfold finish_video. apply no_bind; [apply probe_quiet | intros fps fs1].
  apply no_bind; [apply compose_quiet | intros _ fs2]. reflexivity.
Qed.

(** A video run that returns a result: what precedes the loop, the loop
    and the end. *)
Lemma video_success_shape (H : Host) input workspace fs res :
  is_image (resolve H input fs) = false ->
  outcome (remove_background H input workspace fs) = inr res ->
  exists remove fs2 fs3 pre loop,
    let src := resolve H input fs in
    let ws := resolve H workspace fs in
    let paths := map (Path.joinpath (ws // "frames"))
                   (sorted (glob H (ws // "frames") "frame_*.png" fs2)) in
    rembg H = Some remove
    /\ trace (remove_background H input workspace fs)
       = (pre ++ loop
            ++ trace (finish_video H src ws (ws // "frames_processed") fs3))%list
    /\ no is_transform pre
    /\ frames_trace remove (ws // "frames_processed")
         (List.length paths) 1 paths loop
    /\ outcome (finish_video H src ws (ws // "frames_processed") fs3) = inr res.
Proof.
  intros Hv. rewrite (remove_background_on_video H input workspace fs Hv).
  cbn [trace outcome]. set (src := resolve H input fs).
  set (ws := resolve H workspace fs).
  destruct (outcome (_extract_video_frames H src (ws // "frames") fs))
    as [e|[]] eqn:Ho.
  { unfold remove_background_video. rewrite outcome_bind, Ho. discriminate. }
  destruct (mkdir H (ws // "frames_processed")
              (fs_after (_extract_video_frames H src (ws // "frames") fs)))
    as [e|fs2] eqn:Hm.
  { unfold remove_background_video. rewrite (bind_ok _ _ _ tt Ho).
    cbn [outcome]. rewrite outcome_bind. unfold path_mkdir. rewrite Hm.
    discriminate. }
  destruct (rembg H) as [remove|] eqn:Hi.
  2:{ unfold remove_background_video. rewrite (bind_ok _ _ _ tt Ho).
      cbn [outcome]. rewrite outcome_bind. unfold path_mkdir. rewrite Hm.
      cbn [outcome fs_after]. rewrite outcome_bind. unfold import_remove.
      rewrite Hi. discriminate. }
  rewrite (video_after_setup H src ws fs fs2 remove Ho Hm Hi).
  cbn [outcome trace]. unfold process_frames.
  set (paths := map (Path.joinpath (ws // "frames"))
                  (sorted (glob H (ws // "frames") "frame_*.png" fs2))).
  destruct paths as [|p rest] eqn:Hp; [discriminate|]. rewrite <- Hp.
  rewrite outcome_bind, trace_bind.
  pose proof (transform_frames_trace H remove (ws // "frames_processed")
                (List.length paths) 1 paths fs2) as Hloop.
  cbn zeta in Hloop.
  destruct (outcome (transform_frames H remove (ws // "frames_processed")
                       (List.length paths) 1 paths fs2)) as [e|[]];
    [discriminate|].
  intros Hres.
  exists remove, fs2,
    (fs_after (transform_frames H remove (ws // "frames_processed")
                 (List.length paths) 1 paths fs2)),
    (Log (Msg.start src)
       :: trace (_extract_video_frames H src (ws // "frames") fs)
       ++ [Mkdir (ws // "frames_processed")])%list,
    (trace (transform_frames H remove (ws // "frames_processed")
              (List.length paths) 1 paths fs2)).
  cbn zeta. split; [reflexivity|]. split; [|split; [|split]].
  - cbn [app]. f_equal. rewrite <- app_assoc. cbn [app]. reflexivity.
  - apply (no_app is_transform [_]); [reflexivity|].
    apply no_app; [apply extract_quiet | reflexivity].
  - apply Hloop. reflexivity.
  - exact Hres.
Qed.

(** X6: in a successful video run the files read are exactly the
    listed frames, each once, the files written are the same names
    under [frames_processed], in the same order, and the engine is
    called once per frame. *)
Theorem every_frame_once (H : Host) input workspace fs res :
  lists_names H ->
  is_image (resolve H input fs) = false ->
  outcome (remove_background H input workspace fs) = inr res ->
  exists fs2,
    let ws := resolve H workspace fs in
    let names := glob H (ws // "frames") "frame_*.png" fs2 in
    let t := trace (remove_background H input workspace fs) in
    Permutation (sorted names) names
    /\ reads t = map (Path.joinpath (ws // "frames")) (sorted names)
    /\ writes t = map (Path.joinpath (ws // "frames_processed")) (sorted names)
    /\ count is_remove t = List.length names.
Proof.
  intros Hl Hv Hs.
  destruct (video_success_shape H input workspace fs res Hv Hs)
    as [remove [fs2 [fs3 [pre [loop [_ [Ht [Hpre [Hf _]]]]]]]]].
  exists fs2. cbn zeta in *. rewrite Ht.
  destruct (quiet_reads_writes pre Hpre) as [Hr1 [Hw1 Hc1]].
  destruct (quiet_reads_writes _ (finish_no_transform H (resolve H input fs)
              (resolve H workspace fs)
              (resolve H workspace fs // "frames_processed") fs3))
    as [Hr3 [Hw3 Hc3]].
  destruct (frames_trace_summary _ _ _ _ _ _ Hf) as [Hr2 [Hw2 Hc2]].
  split; [apply sorted_permutation|].
  rewrite !reads_app, !writes_app, !count_app.
  rewrite Hr1, Hr2, Hr3, Hw1, Hw2, Hw3, Hc1, Hc2, Hc3.
  cbn [app]. rewrite !app_nil_r, Nat.add_0_r.
  split; [reflexivity|]. split.
  - rewrite map_map. apply map_ext_in. intros n Hn.
    rewrite name_joinpath; [reflexivity|].
    apply (Hl (resolve H workspace fs // "frames") "frame_*.png" fs2).
    now apply (Permutation_in _ (sorted_permutation _)).
  - now rewrite length_map, (Permutation_length (sorted_permutation _)).
Qed.

(** ** Order of the frames *)

Lemma ltb_le (x y : string) : String.ltb x y = true -> name_le x y.
Proof.
  unfold String.ltb, name_le, String.leb. now destruct (String.compare x y).
Qed.

Lemma not_ltb_le (x y : string) : String.ltb x y = false -> name_le y x.
Proof.
  unfold String.ltb, name_le, String.leb. rewrite (String.compare_antisym x y).
  now destruct (String.compare y x).
Qed.

Lemma insert_sorted_hd (x a : string) (l : list string) :
  name_le a x -> HdRel name_le a l -> HdRel name_le a (insert_sorted x l).
Proof.
  intros Hax Hl. destruct l as [|y l]; cbn; [now constructor|].
  destruct (String.ltb x y); constructor; [assumption|].
  now inversion Hl.
Qed.

Lemma insert_sorted_sorted (x : string) (l : list string) :
  Sorted name_le l -> Sorted name_le (insert_sorted x l).
Proof.
  induction 1 as [|y l Hs IH Hh]; cbn; [repeat constructor|].
  destruct (String.ltb x y) eqn:E.
  - constructor; [now constructor|]. constructor. now apply ltb_le.
  - constructor; [exact IH|]. apply insert_sorted_hd; [|exact Hh].
    now apply not_ltb_le.
Qed.

Lemma sorted_sorted (l : list string) : Sorted name_le (sorted l).
Proof.
  induction l as [|x l IH]; cbn; [constructor | now apply insert_sorted_sorted].
Qed.

(** X7: in a successful video run the frames are read in
    non-decreasing order of their names ([sorted] on the listing). *)
Theorem frames_in_name_order (H : Host) input workspace fs res :
  is_image (resolve H input fs) = false ->
  outcome (remove_background H input workspace fs) = inr res ->
  exists names,
    reads (trace (remove_background H input workspace fs))
    = map (Path.joinpath (resolve H workspace fs // "frames")) names
    /\ Sorted name_le names.
Proof.
  intros Hv Hs.
  destruct (video_success_shape H input workspace fs res Hv Hs)
    as [remove [fs2 [fs3 [pre [loop [_ [Ht [Hpre [Hf _]]]]]]]]].
  cbn zeta in *.
  exists (sorted (glob H (resolve H workspace fs // "frames") "frame_*.png" fs2)).
  split; [|apply sorted_sorted].
  rewrite Ht, !reads_app.
  destruct (quiet_reads_writes pre Hpre) as [-> _].
  destruct (quiet_reads_writes _ (finish_no_transform H (resolve H input fs)
              (resolve H workspace fs)
              (resolve H workspace fs // "frames_processed") fs3)) as [-> _].
  destruct (frames_trace_summary _ _ _ _ _ _ Hf) as [-> _].
  cbn [app]. now rewrite app_nil_r.
Qed.

(** ** A frame that fails *)

(** X8: when the frame loop fails, the frames before the failing one
    were transformed completely, the failing one was announced and its
    read attempted, what follows is at most its removal and its write,
    and no later frame is touched. *)
Theorem loop_stops_at_first_failure (H : Host) remove pdir total paths index
    fs e :
  outcome (transform_frames H remove pdir total index paths fs) = inl e ->
  exists before p after t_done t_fail,
    paths = (before ++ p :: after)%list
    /\ frames_trace remove pdir total index before t_done
    /\ failed_frame pdir p t_fail
    /\ trace (transform_frames H remove pdir total index paths fs)
       = (t_done
            ++ Log (Msg.progress (index + List.length before) total (Path.name p))
            :: ReadBytes p :: t_fail)%list.
Proof.
  revert index fs. induction paths as [|p rest IH]; intros index fs.
  - discriminate.
  - cbn [transform_frames]. rewrite !outcome_bind, !trace_bind.
    cbn [log path_read_bytes outcome trace fs_after app].
    destruct (read_bytes H p fs) as [e1|data].
    { intros _. exists [], p, rest, [], []. cbn [app List.length].
      rewrite Nat.add_0_r. repeat split; constructor. }
    rewrite !outcome_bind, !trace_bind.
    cbn [call_remove outcome trace fs_after app].
    destruct (remove data) as [e1|out] eqn:Hrm.
    { intros _. exists [], p, rest, [], [Remove data]. cbn [app List.length].
      rewrite Nat.add_0_r. repeat split; constructor. }
    rewrite !outcome_bind, !trace_bind. unfold path_write_bytes.
    destruct (write_bytes H (pdir // Path.name p) out fs) as [e1|fs'];
      cbn [outcome trace fs_after app].
    { intros _.
      exists [], p, rest, [], [Remove data; WriteBytes (pdir // Path.name p) out].
      cbn [app List.length]. rewrite Nat.add_0_r. repeat split; constructor. }
    intros Ho.
    destruct (IH (S index) fs' Ho)
      as [before [q [after [t_done [t_fail [Hp [Hd [Hf Ht]]]]]]]].
    exists (p :: before), q, after,
      (Log (Msg.progress index total (Path.name p))
       :: ReadBytes p :: Remove data
       :: WriteBytes (pdir // Path.name p) out :: t_done), t_fail.
    repeat split.
    + now rewrite Hp.
    + now apply frames_step.
    + exact Hf.
    + rewrite Ht. cbn [app List.length].
      now rewrite Nat.add_succ_r.
Qed.

(** X9: a failure inside the frame loop ends the video run with that
    same exception, unwrapped; neither the probe nor the composition is
    started. *)
Theorem frame_failure_aborts (H : Host) src ws pdir remove paths fs e :
  outcome (transform_frames H remove pdir (List.length paths) 1 paths fs)
  = inl e ->
  let loop := transform_frames H remove pdir (List.length paths) 1 paths fs in
  process_frames H src ws pdir remove paths fs
  = mkRun (trace loop) (fs_after loop) (inl e)
  /\ no is_exec (trace (process_frames H src ws pdir remove paths fs)).
Proof.
  intros Ho loop.
  assert (Hp : process_frames H src ws pdir remove paths fs
               = mkRun (trace loop) (fs_after loop) (inl e)).
  { unfold process_frames. destruct paths as [|p rest]; [discriminate|].
    apply bind_raise. subst loop. revert Ho.
    generalize (transform_frames H remove pdir (List.length (p :: rest)) 1
                  (p :: rest) fs).
    intros [t f o]. cbn [outcome trace fs_after]. now intros ->. }
  split; [exact Hp|]. rewrite Hp. apply transform_frames_quiet.
Qed.

(** ** No retry *)

Lemma run_ffmpeg_once (H : Host) args fs :
  (count is_exec (trace (_run_ffmpeg H args fs)) <= 1)%nat.
Proof.
  unfold _run_ffmpeg, bind, shutil_which, run_process, log, raise, ret.
  cbn [outcome trace fs_after].
  destruct (which H "ffmpeg" fs); cbn [negb outcome trace fs_after]; [|cbn; lia].
  destruct (subprocess_run H _ fs) as [p fs']. cbn [outcome trace fs_after].
  destruct (returncode p =? 0)%Z; cbn; lia.
Qed.

Lemma probe_once (H : Host) path fs :
  (count is_exec (trace (_probe_fps H path fs)) <= 1)%nat.
Proof.
  unfold _probe_fps, read_rate, bind, shutil_which, run_process, log, raise, ret.
  cbn [outcome trace fs_after].
  destruct (which H "ffprobe" fs); cbn [negb outcome trace fs_after]; [|cbn; lia].
  destruct (subprocess_run H _ fs) as [p fs']. cbn [outcome trace fs_after].
  destruct (returncode p =? 0)%Z; cbn [negb outcome trace fs_after]; [|cbn; lia].
  destruct (json_loads H (stdout p)) as [data|]; [|cbn; lia].
  destruct (avg_frame_rate_of data) as [e|avg]; [cbn; lia|].
  destruct (parse_rate avg) as [[]|v]; cbn; lia.
Qed.

(** X10: nothing is retried: [_run_ffmpeg] and [_probe_fps] start at
    most one process each, and a whole run at most three (extraction,
    probe, composition). *)
Theorem no_retry (H : Host) input workspace args path fs :
  (count is_exec (trace (_run_ffmpeg H args fs)) <= 1)%nat
  /\ (count is_exec (trace (_probe_fps H path fs)) <= 1)%nat
  /\ (count is_exec (trace (remove_background H input workspace fs)) <= 3)%nat.
Proof.
  split; [apply run_ffmpeg_once | split; [apply probe_once|]].
  destruct (is_image (resolve H input fs)) eqn:Hi.
  - pose proof (image_run_no_exec H input workspace fs Hi) as He.
    rewrite (count_no _ _ He). lia.
  - rewrite (remove_background_on_video H input workspace fs Hi).
    cbn zeta. cbn [trace].
    change (Log ?m :: ?t) with ([Log m] ++ t)%list. rewrite count_app.
    cbn [count filter is_exec List.length]. cbn [Nat.add].
    unfold remove_background_video.
    apply (count_bind _ _ _ _ 1 2).
    { unfold _extract_video_frames.
      apply (count_bind _ _ _ _ 0 1); [| intros _ fs1; apply run_ffmpeg_once].
      unfold path_mkdir. destruct (mkdir H _ fs); cbn; lia. }
    intros _ fs1. apply (count_bind _ _ _ _ 0 2).
    { unfold path_mkdir. destruct (mkdir H _ fs1); cbn; lia. }
    intros _ fs2. apply (count_bind _ _ _ _ 0 2).
    { rewrite count_no; [lia | apply import_remove_quiet]. }
    intros remove fs3. apply (count_bind _ _ _ _ 0 2); [cbn; lia|].
    intros paths fs4. unfold process_frames.
    destruct paths as [|p rest]; [cbn; lia|].
    apply (count_bind _ _ _ _ 0 2).
    { rewrite count_no; [lia | apply transform_frames_quiet]. }
    intros _ fs5. unfold finish_video.
    apply (count_bind _ _ _ _ 1 1); [apply probe_once|].
    intros fps fs6. apply (count_bind _ _ _ _ 1 0); [| intros _ fs7; cbn; lia].
    unfold _compose_video_from_frames.
    apply (count_bind _ _ _ _ 0 1); [cbn; lia|].
    intros found fs7. destruct found; [cbn; lia | apply run_ffmpeg_once].
Qed.

(** ** Staying in the workspace *)

Lemma prefix_app (a b : string) : String.prefix a (a ++ b) = true.
Proof.
  induction a as [|c a IH]; cbn; [now destruct b|].
  destruct (Ascii.ascii_dec c c); [exact IH | contradiction].
Qed.

Lemma joinpath_extends (d n : string) : exists r, d // n = d ++ r.
Proof.
  unfold Path.joinpath. destruct (Str.ends_with_slash d); eexists; reflexivity.
Qed.

Lemma prefix_app_r (a b r : string) :
  String.prefix a b = true -> String.prefix a (b ++ r) = true.
Proof.
  revert b. induction a as [|c a IH]; intros b.
  - intros _. now destruct b, r.
  - destruct b as [|d b]; cbn; [discriminate|].
    destruct (Ascii.ascii_dec c d); [apply IH | discriminate].
Qed.

Lemma append_empty (s : string) : s ++ EmptyString = s.
Proof. induction s as [|c s IH]; cbn; [reflexivity | now rewrite IH]. Qed.

Lemma prefix_joinpath (ws a : string) :
  String.prefix (ws // EmptyString) (ws // a) = true.
Proof.
  unfold Path.joinpath. destruct (Str.ends_with_slash ws).
  - rewrite append_empty. apply prefix_app.
  - rewrite <- (append_assoc ws "/" a). apply prefix_app.
Qed.

Lemma prefix_joinpath2 (ws a b : string) :
  String.prefix (ws // EmptyString) (ws // a // b) = true.
Proof.
  destruct (joinpath_extends (ws // a) b) as [r ->].
  apply prefix_app_r, prefix_joinpath.
Qed.

Lemma run_ffmpeg_inside (H : Host) ws args fs :
  no (escapes ws) (trace (_run_ffmpeg H args fs)).
Proof.
  unfold _run_ffmpeg, bind, shutil_which, run_process, log, raise, ret.
  cbn [outcome trace fs_after].
  destruct (which H "ffmpeg" fs); cbn [negb outcome trace fs_after]; [|reflexivity].
  destruct (subprocess_run H _ fs) as [p fs']. cbn [outcome trace fs_after].
  destruct (returncode p =? 0)%Z; reflexivity.
Qed.

Lemma probe_inside (H : Host) ws path fs :
  no (escapes ws) (trace (_probe_fps H path fs)).
Proof.
  unfold _probe_fps, read_rate, bind, shutil_which, run_process, log, raise, ret.
  cbn [outcome trace fs_after].
  destruct (which H "ffprobe" fs); cbn [negb outcome trace fs_after]; [|reflexivity].
  destruct (subprocess_run H _ fs) as [p fs']. cbn [outcome trace fs_after].
  destruct (returncode p =? 0)%Z; cbn [negb outcome trace fs_after]; [|reflexivity].
  destruct (json_loads H (stdout p)) as [data|]; [|reflexivity].
  destruct (avg_frame_rate_of data) as [e|avg]; [reflexivity|].
  destruct (parse_rate avg) as [[]|v]; reflexivity.
Qed.

Lemma mkdir_inside (H : Host) ws a fs :
  no (escapes ws) (trace (path_mkdir H (ws // a) fs)).
Proof.
  unfold path_mkdir, no.
  destruct (mkdir H _ fs); cbn [trace existsb]; unfold escapes, stays_under;
    now rewrite prefix_joinpath.
Qed.

Lemma transform_frames_inside (H : Host) ws a remove total paths index fs :
  no (escapes ws)
    (trace (transform_frames H remove (ws // a) total index paths fs)).
Proof.
  revert index fs. induction paths as [|p rest IH]; intros index fs; [reflexivity|].
  cbn [transform_frames].
  apply no_bind; [reflexivity | intros _ fs1].
  apply no_bind; [reflexivity | intros data fs2].
  apply no_bind; [reflexivity | intros out fs3].
  apply no_bind; [| intros _ fs4; apply IH].
  unfold path_write_bytes, no.
  destruct (write_bytes H _ _ fs3); cbn [trace existsb]; unfold escapes, stays_under;
    now rewrite prefix_joinpath2.
Qed.

(** X11: every path the pipeline gives to [mkdir] and every file it
    writes itself lies under the resolved workspace.  (This bounds the
    arguments of the calls: [mkdir(parents=True)] also creates the
    missing ancestors of its argument, so when the workspace does not
    exist yet, it is created too.) *)
Theorem writes_stay_in_workspace (H : Host) input workspace fs :
  no (escapes (resolve H workspace fs))
    (trace (remove_background H input workspace fs)).
Proof.
  set (ws := resolve H workspace fs).
  destruct (is_image (resolve H input fs)) eqn:Hi.
  - rewrite (remove_background_on_image H input workspace fs Hi).
    cbn zeta. cbn [trace]. fold ws.
    apply (no_app (escapes ws) [_]); [reflexivity|].
    unfold _remove_background_from_image.
    apply no_bind; [reflexivity | intros _ fs1].
    apply no_bind; [apply import_remove_quiet | intros remove fs2].
    apply no_bind; [reflexivity | intros data fs3].
    apply no_bind; [reflexivity | intros out fs4].
    apply no_bind; [| intros _ fs5; reflexivity].
    unfold path_write_bytes, no.
    destruct (write_bytes H _ _ fs4); cbn [trace existsb]; unfold escapes, stays_under;
      now rewrite prefix_joinpath.
  - rewrite (remove_background_on_video H input workspace fs Hi).
    cbn zeta. cbn [trace]. fold ws.
    apply (no_app (escapes ws) [_]); [reflexivity|].
    unfold remove_background_video.
    apply no_bind.
    { unfold _extract_video_frames.
      apply no_bind; [apply mkdir_inside | intros _ fs1; apply run_ffmpeg_inside]. }
    intros _ fs1. apply no_bind; [apply mkdir_inside | intros _ fs2].
    apply no_bind; [apply import_remove_quiet | intros remove fs3].
    apply no_bind; [reflexivity | intros paths fs4].
    unfold process_frames. destruct paths as [|p rest]; [reflexivity|].
    apply no_bind; [apply transform_frames_inside | intros _ fs5].
    unfold finish_video.
    apply no_bind; [apply probe_inside | intros fps fs6].
    apply no_bind; [| intros _ fs7; reflexivity].
    unfold _compose_video_from_frames.
    apply no_bind; [reflexivity | intros found fs7].
    destruct found; [reflexivity | apply run_ffmpeg_inside].
Qed.

(** ** The rate handed to the composer *)

Lemma Forall_bind {H A B} (Q : event -> Prop) (m : M H A) (k : A -> M H B) fs :
  Forall Q (trace (m fs)) ->
  (forall a, outcome (m fs) = inr a ->
             Forall Q (trace (k a (fs_after (m fs))))) ->
  Forall Q (trace (bind m k fs)).
Proof.
  intros Hm Hk. rewrite trace_bind. apply Forall_app. split; [exact Hm|].
  destruct (outcome (m fs)) as [e|a]; [constructor | now apply Hk].
Qed.

Lemma rate_ok_quiet (t : list event) : no is_exec t -> Forall rate_ok t.
Proof.
  unfold no. induction t as [|e t IH]; cbn; [constructor|].
  intros Hn. apply orb_false_elim in Hn as [He Ht].
  constructor; [|now apply IH].
  destruct e; try discriminate; intros r; discriminate.
Qed.

Lemma rate_ok_log msg : rate_ok (Log msg).
Proof. intros r; discriminate. Qed.

Lemma rate_ok_run_ffmpeg (H : Host) a b c rest fs :
  String.eqb a "-framerate" = false ->
  Forall rate_ok (trace (_run_ffmpeg H (a :: b :: c :: rest) fs)).
Proof.
  intros Ha.
  assert (He : forall p, rate_ok (Exec ("ffmpeg" :: "-y" :: a :: b :: c :: rest) p)).
  { intros p r. cbn [framerate_arg]. rewrite Ha. discriminate. }
  unfold _run_ffmpeg, bind, shutil_which, run_process, log, raise, ret.
  cbn [outcome trace fs_after].
  destruct (which H "ffmpeg" fs); cbn [negb outcome trace fs_after]; [|constructor].
  destruct (subprocess_run H _ fs) as [p fs']. cbn [outcome trace fs_after].
  destruct (returncode p =? 0)%Z; cbn [negb outcome trace fs_after app];
    repeat (constructor; try apply rate_ok_log; try apply He).
Qed.

Lemma rate_ok_probe (H : Host) path fs :
  Forall rate_ok (trace (_probe_fps H path fs)).
Proof.
  assert (He : forall p, rate_ok (Exec (ffprobe_command path) p)).
  { intros p r. cbn. discriminate. }
  unfold _probe_fps, read_rate, bind, shutil_which, run_process, log, raise, ret.
  cbn [outcome trace fs_after].
  destruct (which H "ffprobe" fs); cbn [negb outcome trace fs_after]; [|constructor].
  destruct (subprocess_run H _ fs) as [p fs']. cbn [outcome trace fs_after].
  destruct (returncode p =? 0)%Z; cbn [negb outcome trace fs_after app];
    [|repeat (constructor; try apply rate_ok_log; try apply He)].
  destruct (json_loads H (stdout p)) as [data|];
    [|repeat (constructor; try apply rate_ok_log; try apply He)].
  destruct (avg_frame_rate_of data) as [e|avg];
    [repeat (constructor; try apply rate_ok_log; try apply He)|].
  destruct (parse_rate avg) as [[]|v]; cbn [outcome trace fs_after app];
    repeat (constructor; try apply rate_ok_log; try apply He).
Qed.

Lemma rate_ok_compose (H : Host) pdir fps dest fs :
  Float.leb f1 fps = true -> Float.leb fps f60 = true ->
  Forall rate_ok (trace (_compose_video_from_frames H pdir fps dest fs)).
Proof.
  intros H1 H60.
  assert (He : forall p, rate_ok (Exec ("ffmpeg" :: "-y"
                                          :: compose_args pdir fps dest) p)).
  { intros p r. cbn. intros [= <-]. now exists fps. }
  unfold _compose_video_from_frames, bind, path_glob.
  cbn [outcome trace fs_after].
  destruct (glob H pdir "frame_*.png" fs); cbn [app]; [constructor|].
  unfold _run_ffmpeg, bind, shutil_which, run_process, log, raise, ret.
  cbn [outcome trace fs_after].
  destruct (which H "ffmpeg" fs); cbn [negb outcome trace fs_after]; [|constructor].
  destruct (subprocess_run H _ fs) as [p fs']. cbn [outcome trace fs_after].
  destruct (returncode p =? 0)%Z; cbn [negb outcome trace fs_after app];
    repeat (constructor; try apply rate_ok_log; try apply He).
Qed.

(** X12: whenever the pipeline starts [ffmpeg -y -framerate r ...],
    [r] is a rate between 1.0 and 60.0 printed with three decimals. *)
Theorem composed_rate_in_range (H : Host) input workspace fs e r :
  In e (trace (remove_background H input workspace fs)) ->
  framerate_arg e = Some r ->
  exists v, r = Float.format_f 3 v
            /\ Float.leb f1 v = true /\ Float.leb v f60 = true.
Proof.
  intros Hin. revert r. change (rate_ok e). revert e Hin.
  apply Forall_forall.
  destruct (is_image (resolve H input fs)) eqn:Hi.
  - apply rate_ok_quiet.
    apply (image_run_no_exec H input workspace fs Hi).
  - rewrite (remove_background_on_video H input workspace fs Hi).
    cbn zeta. cbn [trace]. constructor; [apply rate_ok_log|].
    unfold remove_background_video.
    apply Forall_bind.
    { unfold _extract_video_frames. apply Forall_bind.
      - apply rate_ok_quiet. unfold path_mkdir. destruct (mkdir H _ fs); reflexivity.
      - intros _ _. now apply rate_ok_run_ffmpeg. }
    intros _ _. apply Forall_bind.
    { apply rate_ok_quiet. unfold path_mkdir. destruct (mkdir H _ _); reflexivity. }
    intros _ _. apply Forall_bind.
    { apply rate_ok_quiet. apply import_remove_quiet. }
    intros remove _. apply Forall_bind; [constructor|].
    intros paths _. unfold process_frames.
    destruct paths as [|p rest]; [constructor|].
    apply Forall_bind.
    { apply rate_ok_quiet. apply transform_frames_quiet. }
    intros _ _. unfold finish_video. apply Forall_bind; [apply rate_ok_probe|].
    intros fps Hfps. apply Forall_bind.
    { destruct (probe_rate_in_range _ _ _ _ Hfps). now apply rate_ok_compose. }
    intros _ _. repeat constructor. apply rate_ok_log.
Qed.

(** ** The clamp *)

Lemma compare_eq_finite s m e (v : spec_float) :
  (SFcompare (S754_finite s m e) v = Some Eq
   \/ SFcompare v (S754_finite s m e) = Some Eq) ->
  v = S754_finite s m e.
Proof.
  destruct v as [s'|s'| |s' m' e']; cbn.
  - destruct s; intros [|]; discriminate.
  - destruct s, s'; intros [|]; discriminate.
  - intros [|]; discriminate.
  - intros [Hc|Hc].
    + destruct s, s'; try discriminate;
        destruct (Z.compare e e') eqn:Ee; try discriminate;
        apply Z.compare_eq in Ee; subst e'; injection Hc as Hc.
      * destruct (Pos.compare_cont Eq m m') eqn:Em; try discriminate.
        apply Pos.compare_eq in Em. now subst.
      * apply Pos.compare_eq in Hc. now subst.
    + destruct s, s'; try discriminate;
        destruct (Z.compare e' e) eqn:Ee; try discriminate;
        apply Z.compare_eq in Ee; subst e'; injection Hc as Hc.
      * destruct (Pos.compare_cont Eq m' m) eqn:Em; try discriminate.
        apply Pos.compare_eq in Em. now subst.
      * apply Pos.compare_eq in Hc. now subst.
Qed.

(** X13: clamping is idempotent, and a rate already within
    [1.0, 60.0] is returned unchanged. *)
Theorem clamp_inside_range (v : spec_float) :
  clamp (clamp v) = clamp v
  /\ (Float.leb f1 v = true -> Float.leb v f60 = true -> clamp v = v).
Proof.
  assert (F1 : exists m e, f1 = S754_finite false m e)
    by (eexists _, _; vm_compute; reflexivity).
  assert (F60 : exists m e, f60 = S754_finite false m e)
    by (eexists _, _; vm_compute; reflexivity).
  assert (Hin : forall x, Float.leb f1 x = true -> Float.leb x f60 = true ->
                          clamp x = x).
  { intros x H1 H60. unfold clamp, Float.py_max, Float.py_min, Float.ltb,
      Float.leb, SFltb, SFleb in *.
    destruct (SFcompare x f60) as [[]|] eqn:E60; try discriminate.
    - destruct F60 as [m [e F60]]. rewrite F60 in E60.
      apply (fun h => compare_eq_finite _ _ _ x (or_intror h)) in E60.
      rewrite <- F60 in E60. subst x. reflexivity.
    - destruct (SFcompare f1 x) as [[]|] eqn:E1; try discriminate.
      + destruct F1 as [m [e F1]]. rewrite F1 in E1.
        apply (fun h => compare_eq_finite _ _ _ x (or_introl h)) in E1.
        rewrite <- F1 in E1. subst x. reflexivity.
      + reflexivity. }
  split; [|apply Hin].
  apply Hin; apply clamp_range.
Qed.

(** ** The fallback rate *)

(** X14: when the probe succeeds but its document has no [streams], an
    empty list of streams, or a first stream without [avg_frame_rate],
    the rate is 30.0 and the warning names ['0/0']. *)
Theorem probe_defaults_without_rate (H : Host) path fs fs' p d :
  which H "ffprobe" fs = true ->
  subprocess_run H (ffprobe_command path) fs = (p, fs') ->
  returncode p = 0%Z ->
  json_loads H (stdout p) = Some (JDict d) ->
  rate_missing d ->
  _probe_fps H path fs
  = mkRun [Log (Msg.ffprobe_start (ffprobe_command path));
           Exec (ffprobe_command path) p;
           Log (Msg.fps_fallback (JStr "0/0"))] fs' (inr f30).
Proof.
  intros Hw Hr Hc Hj Hm.
  rewrite (probe_fps_exit0 H path fs fs' p Hw Hr Hc).
  rewrite (read_rate_decoded H _ fs' _ Hj).
  rewrite missing_rate_defaults; [reflexivity|].
  destruct Hm as [-> | [-> | [stream [rest [-> Hs]]]]]; [exact I | exact I | exact Hs].
Qed.

Lemma probe_defaults_without_rate_witness :
  outcome (_probe_fps
             (Demo.host {| Demo.tools := ["ffprobe"];
                           Demo.frames := [];
                           Demo.ffmpeg_result := Demo.ok EmptyString;
                           Demo.ffprobe_result := Demo.ok "{ }";
                           Demo.decoded := Some (JDict []);
                           Demo.removal := None |})
             "/in/clip.mp4" Demo.clip_files)
  = inr f30.
Proof.
  erewrite probe_defaults_without_rate;
    [reflexivity | reflexivity | reflexivity | reflexivity | reflexivity
    | left; reflexivity].
Defined.

(** X15: any non-empty [avg_frame_rate] that is not a rational literal,
    or whose denominator is zero, gives 30.0 with the warning naming the
    string. *)
Theorem probe_defaults_on_bad_rate (rate : string) :
  rate <> EmptyString ->
  (Frac.match_rational rate = None
   \/ exists n, Frac.match_rational rate = Some (n, 0%Z)) ->
  probe_maps rate f30 (Msg.fps_fallback (JStr rate)).
Proof.
  intros Hne Hbad. apply probe_maps_intro.
  assert (Ha : avg_frame_rate_of (probe_data rate) = inr (JStr rate)).
  { unfold avg_frame_rate_of, probe_data. cbn.
    destruct rate; [contradiction | reflexivity]. }
  rewrite Ha.
  destruct Hbad as [Hn | [n Hz]].
  - rewrite (proj1 (degenerate_rate rate) Hn). now split.
  - rewrite (proj2 (degenerate_rate rate) n Hz). now split.
Qed.

Lemma probe_defaults_on_bad_rate_witness :
  probe_maps "25 fps" f30 (Msg.fps_fallback (JStr "25 fps"))
  /\ probe_maps "25/0" f30 (Msg.fps_fallback (JStr "25/0")).
Proof.
  split; apply probe_defaults_on_bad_rate;
    [discriminate | left; reflexivity | discriminate | right; now exists 25%Z].
Defined.

(** The digits and blanks of a rate are the Unicode ones: a rate in
    Arabic-Indic digits, or followed by a no-break space, is read like
    its ASCII form and is no fallback. *)
Lemma rate_in_any_script :
  probe_maps "٢٤/١" (Float.of_Z 24) (Msg.fps_source (Float.of_Z 24))
  /\ probe_maps "24/1 " (Float.of_Z 24) (Msg.fps_source (Float.of_Z 24))
  /\ Frac.match_rational "٢٤/١" = Some (24, 1)%Z.
Proof.
  split; [|split]; [apply probe_maps_intro; vm_compute; split; reflexivity ..
                   | vm_compute; reflexivity].
Qed.

(** ** Witnesses on [clip.mp4] *)

Lemma demo_lists_names (sc : Demo.Scenario) : lists_names (Demo.host sc).
Proof.
  intros dir pattern fs n. cbn [glob Demo.host]. unfold Demo.entries.
  destruct (String.eqb pattern "frame_*.png"); [|contradiction].
  rewrite in_map_iff. intros [f [<- _]]. apply name_no_slash.
Qed.

Lemma clip_run_result :
  outcome clip_run
  = inr {| source := "/in/clip.mp4";
           processed := "/tmp/ws/clip_bg_removed.webm" |}.
Proof. vm_compute. reflexivity. Qed.

Lemma every_frame_once_witness :
  exists fs2,
    let names := glob (Demo.host Demo.clip) "/tmp/ws/frames" "frame_*.png" fs2 in
    Permutation (sorted names) names
    /\ reads (trace clip_run) = map (Path.joinpath "/tmp/ws/frames") (sorted names)
    /\ writes (trace clip_run)
       = map (Path.joinpath "/tmp/ws/frames_processed") (sorted names)
    /\ count is_remove (trace clip_run) = List.length names.
Proof.
  exact (every_frame_once (Demo.host Demo.clip) "/in/clip.mp4" "/tmp/ws"
           Demo.clip_files _ (demo_lists_names Demo.clip) eq_refl
           clip_run_result).
Defined.

Lemma frames_in_name_order_witness :
  exists names,
    reads (trace clip_run) = map (Path.joinpath "/tmp/ws/frames") names
    /\ Sorted name_le names.
Proof.
  exact (frames_in_name_order (Demo.host Demo.clip) "/in/clip.mp4" "/tmp/ws"
           Demo.clip_files _ eq_refl clip_run_result).
Defined.

Lemma without_rembg_witness :
  no is_transform
    (trace (remove_background (Demo.host no_engine) "/in/clip.mp4" "/tmp/ws"
              Demo.clip_files)).
Proof.
  apply (without_rembg (Demo.host no_engine) "/in/clip.mp4" "/tmp/ws"
           Demo.clip_files). reflexivity.
Defined.

Lemma loop_stops_at_first_failure_witness :
  exists before p after t_done t_fail,
    clip_frames = (before ++ p :: after)%list
    /\ frames_trace picky "/tmp/ws/frames_processed" 2 1 before t_done
    /\ failed_frame "/tmp/ws/frames_processed" p t_fail
    /\ trace (transform_frames (Demo.host Demo.clip) picky
                "/tmp/ws/frames_processed" 2 1 clip_frames Demo.extracted_files)
       = (t_done
            ++ Log (Msg.progress (1 + List.length before) 2 (Path.name p))
            :: ReadBytes p :: t_fail)%list.
Proof.
  apply (loop_stops_at_first_failure (Demo.host Demo.clip) picky
           "/tmp/ws/frames_processed" 2 clip_frames 1 Demo.extracted_files
           (RemovalError "unreadable image")).
  vm_compute. reflexivity.
Defined.

Lemma frame_failure_aborts_witness :
  outcome (process_frames (Demo.host Demo.clip) "/in/clip.mp4" "/tmp/ws"
             "/tmp/ws/frames_processed" picky clip_frames Demo.extracted_files)
  = inl (RemovalError "unreadable image").
Proof.
  destruct (frame_failure_aborts (Demo.host Demo.clip) "/in/clip.mp4" "/tmp/ws"
              "/tmp/ws/frames_processed" picky clip_frames Demo.extracted_files
              (RemovalError "unreadable image")) as [Hp _].
  - vm_compute. reflexivity.
  - rewrite Hp. reflexivity.
Defined.

Lemma composed_rate_in_range_witness :
  exists v, "24.000" = Float.format_f 3 v
            /\ Float.leb f1 v = true /\ Float.leb v f60 = true.
Proof.
  apply (composed_rate_in_range (Demo.host Demo.clip) "/in/clip.mp4" "/tmp/ws"
           Demo.clip_files
           (Exec ("ffmpeg" :: "-y"
                    :: compose_args "/tmp/ws/frames_processed" (Float.of_Z 24)
                         "/tmp/ws/clip_bg_removed.webm")
              (Demo.ok EmptyString))).
  - vm_compute. repeat (first [left; reflexivity | right]).
  - vm_compute. reflexivity.
Defined.

Lemma clamp_inside_range_witness : clamp f30 = f30.
Proof. apply (clamp_inside_range f30); vm_compute; reflexivity. Defined.

(** * Conversion *)

Lemma add_optional_length float_str args flag v :
  List.length (Conversion._add_optional_value float_str args flag v)
  = (List.length args + 2 * Nat.b2n (Conversion.given v))%nat.
Proof.
  destruct v as [[z|f|[|c s]]|]; cbn; rewrite ?length_app; cbn; lia.
Qed.

Lemma append_if_length b args flag :
  List.length (Conversion.append_if b args flag)
  = (List.length args + Nat.b2n b)%nat.
Proof. destruct b; cbn; rewrite ?length_app; cbn; lia. Qed.

Lemma add_optional_prefix float_str args flag v :
  exists more, Conversion._add_optional_value float_str args flag v
               = (args ++ more)%list.
Proof.
  destruct v as [x|]; cbn; [destruct (Conversion.is_blank x)|].
  - exists []. now rewrite app_nil_r.
  - now eexists.
  - exists []. now rewrite app_nil_r.
Qed.

Lemma append_if_prefix b args flag :
  exists more, Conversion.append_if b args flag = (args ++ more)%list.
Proof.
  destruct b; cbn; [now eexists|]. exists []. now rewrite app_nil_r.
Qed.

(** X16: the command line given to [tgradish] starts with the eight fixed
    words (input, output, scaling and guess value, in this order) and has
    one more word for each switch that is on and two for each optional
    setting that is neither [None] nor the empty string. *)
Theorem build_args_shape float_str input destination options :
  let args := Conversion.build_args float_str input destination options in
  firstn 8 args
  = ["--input"; input; "--output"; destination;
     "--scaling"; Conversion.scaling options;
     "--guess-value"; Conversion.guess_value options]
  /\ List.length args
     = (8 + Conversion.switches options + 2 * Conversion.settings options)%nat.
Proof.
  cbn zeta. split.
  - unfold Conversion.build_args.
    repeat match goal with
    | |- context [Conversion._add_optional_value ?f ?a ?fl ?v] =>
        let m := fresh "more" in let E := fresh "E" in
        destruct (add_optional_prefix f a fl v) as [m E]; rewrite E; clear E
    | |- context [Conversion.append_if ?b ?a ?fl] =>
        let m := fresh "more" in let E := fresh "E" in
        destruct (append_if_prefix b a fl) as [m E]; rewrite E; clear E
    end.
    rewrite <- !app_assoc. reflexivity.
  - unfold Conversion.build_args, Conversion.switches, Conversion.settings.
    rewrite !add_optional_length, !append_if_length. cbn [List.length]. lia.
Qed.

(** X17: whenever the converter is called, it is called once, with the
    command line built from the resolved paths, and the run so far is:
    the destination's directory made, the configuration read, that same
    command line logged, the call. *)
Theorem converter_runs_what_is_logged (H : Host) (T : Conversion.Tgradish H)
  float_str input destination options fs a :
  let r := Conversion.convert_to_sticker H T float_str input destination
             options fs in
  In (Conversion.ConvertVideo a) (Conversion.steps r) ->
  a = Conversion.build_args float_str (resolve H input fs)
        (resolve H destination fs) options
  /\ firstn 4 (Conversion.steps r)
     = Conversion.setup H float_str input destination options fs
  /\ filter Conversion.is_convert (Conversion.steps r)
     = [Conversion.ConvertVideo a].
Proof.
  cbn zeta. unfold Conversion.convert_to_sticker, Conversion.setup.
  destruct (mkdir H _ fs) as [e|fs1].
  { cbn. intros [Ha|[]]. discriminate. }
  destruct (Conversion.get_config T fs1) as [[e|config] fs2].
  { cbn. intros [Ha|[Ha|[]]]; discriminate. }
  destruct (Conversion.convert_video T config _ fs2) as [[exc|u] fs3].
  - cbn. intros [Ha|[Ha|[Ha|[Ha|[]]]]]; try discriminate.
    injection Ha as <-. now repeat split.
  - cbn. intros [Ha|[Ha|[Ha|[Ha|[Ha|[]]]]]]; try discriminate.
    injection Ha as <-. now repeat split.
Qed.

Lemma converter_runs_what_is_logged_witness :
  firstn 4
    (Conversion.steps
       (Conversion.convert_to_sticker (Demo.host Demo.clip)
          (Conversion.working _) Conversion.two_decimals
          "/tmp/ws/clip_bg_removed.webm" "/out/clip.webm"
          Conversion.defaults Demo.clip_files))
  = Conversion.setup (Demo.host Demo.clip) Conversion.two_decimals
      "/tmp/ws/clip_bg_removed.webm" "/out/clip.webm"
      Conversion.defaults Demo.clip_files.
Proof.
  apply (converter_runs_what_is_logged (Demo.host Demo.clip)
           (Conversion.working _) Conversion.two_decimals
           "/tmp/ws/clip_bg_removed.webm" "/out/clip.webm"
           Conversion.defaults Demo.clip_files
           ["--input"; "/tmp/ws/clip_bg_removed.webm";
            "--output"; "/out/clip.webm";
            "--scaling"; "preserve-ratio"; "--guess-value"; "bitrate"]).
  vm_compute. do 3 right. left. reflexivity.
Defined.

(** X18: a sticker is reported only when the converter returned: a run
    that returns a path returns the resolved destination, and consists
    of the four setup steps and the message that the sticker was saved
    there. *)
Theorem sticker_saved_on_success (H : Host) (T : Conversion.Tgradish H)
  float_str input destination options fs d :
  let r := Conversion.convert_to_sticker H T float_str input destination
             options fs in
  Conversion.result r = inr d ->
  d = resolve H destination fs
  /\ Conversion.steps r
     = (Conversion.setup H float_str input destination options fs
          ++ [Conversion.Base (Log (Conversion.saved d))])%list.
Proof.
  cbn zeta. unfold Conversion.convert_to_sticker, Conversion.setup.
  destruct (mkdir H _ fs) as [e|fs1]; [discriminate|].
  destruct (Conversion.get_config T fs1) as [[e|config] fs2]; [discriminate|].
  destruct (Conversion.convert_video T config _ fs2) as [[exc|u] fs3];
    [discriminate|].
  cbn. intros [= <-]. now split.
Qed.

(** X19: only failures of the converter are wrapped. A [ConversionError]
    means that the converter was called and raised an [Exception] whose
    text follows the fixed prefix, and the run stops at that call; a
    failure to make the directory comes out as it was raised, with
    nothing else done; any other failure is one of [tgradish] that
    [except Exception] does not catch, or one of reading the
    configuration, before any message and any call of the converter. *)
Theorem failures_of_conversion (H : Host) (T : Conversion.Tgradish H)
  float_str input destination options fs e :
  let r := Conversion.convert_to_sticker H T float_str input destination
             options fs in
  let setup := Conversion.setup H float_str input destination options fs in
  Conversion.result r = inl e ->
  match e with
  | Conversion.ConversionError msg =>
      Conversion.steps r = setup
      /\ exists config fs2 exc fs3,
           Conversion.convert_video T config
             (Conversion.build_args float_str (resolve H input fs)
                (resolve H destination fs) options) fs2
           = (inl exc, fs3)
           /\ Conversion.is_exception exc = true
           /\ msg = Conversion.failed (Conversion.text exc)
  | Conversion.FromPath x =>
      mkdir H (Conversion.parent (resolve H destination fs)) fs = inl x
      /\ Conversion.steps r
         = [Conversion.Base
              (Mkdir (Conversion.parent (resolve H destination fs)))]
  | Conversion.FromTgradish exc =>
      filter Conversion.is_message (Conversion.steps r) = []
      /\ filter Conversion.is_convert (Conversion.steps r) = []
      \/ Conversion.is_exception exc = false /\ Conversion.steps r = setup
  end.
Proof.
  cbn zeta. unfold Conversion.convert_to_sticker, Conversion.setup.
  destruct (mkdir H _ fs) as [x|fs1] eqn:Hm.
  { cbn. intros [= <-]. now split. }
  destruct (Conversion.get_config T fs1) as [[x|config] fs2].
  { cbn. intros [= <-]. left. now split. }
  destruct (Conversion.convert_video T config _ fs2) as [[exc|u] fs3] eqn:Hc;
    [|discriminate].
  cbn. destruct (Conversion.is_exception exc) eqn:Hx; intros [= <-].
  - split; [reflexivity|]. now exists config, fs2, exc, fs3.
  - right. now split.
Qed.

Lemma sticker_saved_on_success_witness :
  Conversion.result
    (Conversion.convert_to_sticker (Demo.host Demo.clip)
       (Conversion.working _) Conversion.two_decimals
       "/tmp/ws/clip_bg_removed.webm" "/out/clip.webm"
       Conversion.defaults Demo.clip_files)
  = inr "/out/clip.webm".
Proof.
  destruct (sticker_saved_on_success (Demo.host Demo.clip)
              (Conversion.working _) Conversion.two_decimals
              "/tmp/ws/clip_bg_removed.webm" "/out/clip.webm"
              Conversion.defaults Demo.clip_files "/out/clip.webm")
    as [_ Hs]; [vm_compute; reflexivity|].
  vm_compute. reflexivity.
Defined.

Lemma failures_of_conversion_witness :
  Conversion.steps
    (Conversion.convert_to_sticker (Demo.host Demo.clip)
       (Conversion.broken _ "no video stream") Conversion.two_decimals
       "/tmp/ws/clip_bg_removed.webm" "/out/clip.webm"
       Conversion.defaults Demo.clip_files)
  = [Conversion.Base (Mkdir "/out");
     Conversion.GetConfig;
     Conversion.Base
       (Log (Conversion.started
               ["--input"; "/tmp/ws/clip_bg_removed.webm";
                "--output"; "/out/clip.webm";
                "--scaling"; "preserve-ratio"; "--guess-value"; "bitrate"]));
     Conversion.ConvertVideo
       ["--input"; "/tmp/ws/clip_bg_removed.webm";
        "--output"; "/out/clip.webm";
        "--scaling"; "preserve-ratio"; "--guess-value"; "bitrate"]].
Proof.
  destruct (failures_of_conversion (Demo.host Demo.clip)
              (Conversion.broken _ "no video stream") Conversion.two_decimals
              "/tmp/ws/clip_bg_removed.webm" "/out/clip.webm"
              Conversion.defaults Demo.clip_files
              (Conversion.ConversionError
                 (Conversion.failed "no video stream")))
    as [Hs _]; [vm_compute; reflexivity|].
  rewrite Hs. vm_compute. reflexivity.
Defined.

(** * The order of the video path *)

(** ** The loop, run by run *)

Lemma transform_frames_cons (H : Host) remove pdir total index p rest fs :
  transform_frames H remove pdir total index (p :: rest) fs
  = let m := Log (Msg.progress index total (Path.name p)) in
    let w := pdir // Path.name p in
    match read_bytes H p fs with
    | inl e => mkRun [m; ReadBytes p] fs (inl e)
    | inr data =>
        match remove data with
        | inl e => mkRun [m; ReadBytes p; Remove data] fs (inl e)
        | inr out =>
            match write_bytes H w out fs with
            | inl e =>
                mkRun [m; ReadBytes p; Remove data; WriteBytes w out] fs (inl e)
            | inr fs1 =>
                let r := transform_frames H remove pdir total (S index) rest fs1 in
                mkRun (m :: ReadBytes p :: Remove data :: WriteBytes w out
                         :: trace r) (fs_after r) (outcome r)
            end
        end
    end.
Proof.
  cbn [transform_frames].
  unfold bind, log, path_read_bytes, call_remove, path_write_bytes.
  cbn [outcome trace fs_after app].
  destruct (read_bytes H p fs) as [e|data]; [reflexivity|].
  cbn [outcome trace fs_after app].
  destruct (remove data) as [e|out]; [reflexivity|].
  cbn [outcome trace fs_after app].
  destruct (write_bytes H (pdir // Path.name p) out fs) as [e|fs1];
    cbn [outcome trace fs_after app]; [reflexivity|].
  destruct (transform_frames H remove pdir total (S index) rest fs1)
    as [t f [e|[]]]; reflexivity.
Qed.

(** The loop completes exactly in the runs described by [frames_run]. *)
Lemma transform_frames_run (H : Host) remove pdir total index paths fs t fs' :
  transform_frames H remove pdir total index paths fs = mkRun t fs' (inr tt)
  <-> frames_run H remove total index (jobs_of_paths pdir paths) fs t fs'.
Proof.
  split.
  - revert index fs t fs'. induction paths as [|p rest IH]; intros index fs t fs'.
    + cbn. intros [= <- <-]. constructor.
    + rewrite transform_frames_cons. cbn zeta.
      destruct (read_bytes H p fs) as [e|data] eqn:Hread; [discriminate|].
      destruct (remove data) as [e|out] eqn:Hrem; [discriminate|].
      destruct (write_bytes H (pdir // Path.name p) out fs) as [e|fs1] eqn:Hw;
        [discriminate|].
      intros [= <- <- Ho].
      cbn [jobs_of_paths map].
      apply (frames_run_step H remove total index _ _ _ _ fs data out fs1);
        try assumption.
      apply IH.
      destruct (transform_frames H remove pdir total (S index) rest fs1)
        as [t1 f1 o1]. cbn in *. now subst o1.
  - revert index fs t fs'. induction paths as [|p rest IH]; intros index fs t fs'.
    + cbn. intros Hr. inversion Hr; subst. reflexivity.
    + cbn [jobs_of_paths map]. intros Hr. inversion Hr; subst.
      rewrite transform_frames_cons. cbn zeta.
      match goal with
      | Hread : read_bytes _ _ _ = _, Hrem : remove _ = _,
        Hw : write_bytes _ _ _ _ = _ |- _ => rewrite Hread, Hrem, Hw
      end.
      match goal with
      | Hrest : frames_run _ _ _ _ _ _ _ _ |- _ =>
          apply IH in Hrest; rewrite Hrest
      end.
      reflexivity.
Qed.

Lemma jobs_of_listed (fdir pdir : string) (names : list string) :
  (forall n, In n names -> has_char "/" n = false) ->
  jobs_of_paths pdir (map (Path.joinpath fdir) names)
  = jobs_of_names fdir pdir names.
Proof.
  induction names as [|n names IH]; intros Hn; [reflexivity|].
  cbn [jobs_of_paths jobs_of_names map].
  rewrite (name_joinpath fdir n) by (apply Hn; now left).
  f_equal. apply IH. intros m Hm. apply Hn. now right.
Qed.

(** ** What starts a process *)

Lemma only_logs_no P (t : list event) :
  (forall msg, P (Log msg) = false) -> only_logs t -> no P t.
Proof.
  intros HP Ht. unfold no. induction Ht as [|e t [msg ->] _ IH]; [reflexivity|].
  cbn. now rewrite HP.
Qed.

Lemma run_ffmpeg_no (H : Host) P args fs :
  (forall msg, P (Log msg) = false) ->
  (forall p, P (Exec ("ffmpeg" :: "-y" :: args) p) = false) ->
  no P (trace (_run_ffmpeg H args fs)).
Proof.
  intros Hl He.
  unfold _run_ffmpeg, bind, shutil_which, run_process, log, raise, ret, no.
  cbn [outcome trace fs_after].
  destruct (which H "ffmpeg" fs); cbn [negb outcome trace fs_after]; [|reflexivity].
  destruct (subprocess_run H _ fs) as [p fs1]. cbn [outcome trace fs_after].
  destruct (returncode p =? 0)%Z; cbn [negb outcome trace fs_after app existsb];
    now rewrite ?Hl, ?He.
Qed.

Lemma is_compose_exec e : is_compose e = true -> is_exec e = true.
Proof. now destruct e. Qed.

Lemma extract_no_compose (H : Host) src frames_dir fs :
  no is_compose (trace (_extract_video_frames H src frames_dir fs)).
Proof.
  unfold _extract_video_frames. apply no_bind.
  - unfold path_mkdir. destruct (mkdir H frames_dir fs); reflexivity.
  - intros _ fs1. apply run_ffmpeg_no; reflexivity.
Qed.

(** The probe starts nothing, or logs its command, runs it and then
    only logs; it returns only after an exit with code 0. *)
Lemma probe_shape (H : Host) path fs :
  let r := _probe_fps H path fs in
  (trace r = [] /\ exists e, outcome r = inl e)
  \/ exists p tail,
       trace r = Log (Msg.ffprobe_start (ffprobe_command path))
                 :: Exec (ffprobe_command path) p :: tail
       /\ only_logs tail
       /\ (forall v, outcome r = inr v -> returncode p = 0%Z).
Proof.
  cbn zeta.
  unfold _probe_fps, read_rate, bind, shutil_which, run_process, log, raise, ret.
  cbn [outcome trace fs_after].
  destruct (which H "ffprobe" fs); cbn [negb outcome trace fs_after];
    [|left; split; [reflexivity | eexists; reflexivity]].
  right.
  destruct (subprocess_run H (ffprobe_command path) fs) as [p fs1].
  cbn [outcome trace fs_after]. exists p.
  destruct (returncode p =? 0)%Z eqn:Hc; cbn [negb outcome trace fs_after app].
  - apply Z.eqb_eq in Hc.
    destruct (json_loads H (stdout p)) as [data|];
      [|exists []; repeat split; [constructor | intros; exact Hc]].
    destruct (avg_frame_rate_of data) as [e|avg];
      [exists []; repeat split; [constructor | intros; exact Hc]|].
    destruct (parse_rate avg) as [[]|v]; cbn [outcome trace fs_after app];
      eexists; (split; [reflexivity|]);
      (split; [repeat constructor; eexists; reflexivity | intros; exact Hc]).
  - eexists. split; [reflexivity|].
    split; [repeat constructor; eexists; reflexivity | discriminate].
Qed.

(** The end of the video branch: nothing, or the probe's command line,
    the probe and what follows it, in which nothing is probed or
    transformed and composition is started only if the probe exited
    with code 0. *)
Lemma finish_shape (H : Host) src ws pdir fs :
  let t := trace (finish_video H src ws pdir fs) in
  t = []
  \/ exists p tail,
       t = Log (Msg.ffprobe_start (ffprobe_command src))
           :: Exec (ffprobe_command src) p :: tail
       /\ no is_probe tail /\ no is_transform tail
       /\ (existsb is_compose tail = true -> returncode p = 0%Z).
Proof.
  cbn zeta. unfold finish_video. rewrite trace_bind.
  destruct (probe_shape H src fs) as [[Ht [e He]]|[p [tail [Ht [Hl Hok]]]]].
  - left. rewrite Ht, He. reflexivity.
  - right. rewrite Ht.
    destruct (outcome (_probe_fps H src fs)) as [e|fps] eqn:Ho.
    + exists p, tail. rewrite app_nil_r. split; [reflexivity|].
      split; [now apply only_logs_no|]. split; [now apply only_logs_no|].
      intros Hc. exfalso.
      rewrite (only_logs_no is_compose tail (fun _ => eq_refl) Hl) in Hc.
      discriminate.
    + set (rest := trace _).
      exists p, (tail ++ rest)%list. split; [reflexivity|].
      assert (Hrest : no is_probe rest /\ no is_transform rest).
      { subst rest. split.
        - apply no_bind; [apply compose_quiet | intros _ fs2; reflexivity].
        - apply no_bind; [apply compose_quiet | intros _ fs2; reflexivity]. }
      destruct Hrest as [Hp Hx].
      split; [apply no_app; [now apply only_logs_no | exact Hp]|].
      split; [apply no_app; [now apply only_logs_no | exact Hx]|].
      intros _. now apply (Hok fps).
Qed.

(** ** The video branch, case by case *)

(** A video run either ends before the loop has completed, with an
    error and without any probe or composition, or consists of the
    extraction, the creation of the output directory, the complete loop
    over the sorted listing and the end of the branch. *)
Lemma video_run_cases (H : Host) source workspace fs :
  is_image (resolve H source fs) = false ->
  let src := resolve H source fs in
  let ws := resolve H workspace fs in
  let fdir := ws // "frames" in
  let pdir := ws // "frames_processed" in
  let r1 := _extract_video_frames H src fdir fs in
  let r := remove_background H source workspace fs in
  (no is_probe (trace r) /\ no is_compose (trace r)
   /\ exists e, outcome r = inl e)
  \/ exists remove fs2 fs3 loop,
       let names := glob H fdir "frame_*.png" fs2 in
       rembg H = Some remove
       /\ outcome r1 = inr tt
       /\ mkdir H pdir (fs_after r1) = inr fs2
       /\ names <> []
       /\ frames_run H remove (List.length names) 1
            (jobs_of_paths pdir (map (Path.joinpath fdir) (sorted names)))
            fs2 loop fs3
       /\ trace r = (Log (Msg.start src) :: trace r1 ++ Mkdir pdir :: loop
                       ++ trace (finish_video H src ws pdir fs3))%list
       /\ outcome r = outcome (finish_video H src ws pdir fs3).
Proof.
  intros Hv src ws fdir pdir r1 r.
  assert (Hearly : forall rest e,
             trace r = (Log (Msg.start src) :: trace r1 ++ rest)%list ->
             outcome r = inl e ->
             no is_exec rest ->
             no is_probe (trace r) /\ no is_compose (trace r)
             /\ exists e, outcome r = inl e).
  { intros rest e Ht Ho Hq. rewrite Ht. split; [|split; [|now exists e]].
    - apply (no_app is_probe [_]); [reflexivity|].
      apply no_app; [apply extract_quiet|].
      apply (no_weaken _ _ _ is_probe_exec Hq).
    - apply (no_app is_compose [_]); [reflexivity|].
      apply no_app; [apply extract_no_compose|].
      apply (no_weaken _ _ _ is_compose_exec Hq). }
  assert (Hr : trace r = Log (Msg.start src)
                         :: trace (remove_background_video H src ws fs)
               /\ outcome r = outcome (remove_background_video H src ws fs)).
  { subst r. rewrite (remove_background_on_video H source workspace fs Hv).
    now split. }
  destruct Hr as [Ht Ho].
  destruct (outcome r1) as [e|[]] eqn:Ho1.
  { left. apply (Hearly [] e); [| |reflexivity].
    - rewrite Ht. unfold remove_background_video. rewrite trace_bind.
      fold fdir r1. now rewrite Ho1.
    - rewrite Ho. unfold remove_background_video. rewrite outcome_bind.
      fold fdir r1. now rewrite Ho1. }
  destruct (mkdir H pdir (fs_after r1)) as [e|fs2] eqn:Hm.
  { assert (HV : remove_background_video H src ws fs
                 = mkRun (trace r1 ++ [Mkdir pdir])%list (fs_after r1) (inl e)).
    { unfold remove_background_video. rewrite (bind_ok _ _ _ tt Ho1).
      fold fdir pdir r1. cbn zeta.
      rewrite (bind_raise (path_mkdir H pdir) _ (fs_after r1) [Mkdir pdir]
                 (fs_after r1) e) by (unfold path_mkdir; now rewrite Hm).
      reflexivity. }
    rewrite HV in Ht, Ho. left.
    apply (Hearly [Mkdir pdir] e); [exact Ht | exact Ho | reflexivity]. }
  destruct (rembg H) as [remove|] eqn:Hi.
  2:{ assert (HV : remove_background_video H src ws fs
                   = mkRun (trace r1 ++ [Mkdir pdir])%list fs2
                       (inl (BackgroundRemovalError Msg.rembg_missing))).
      { unfold remove_background_video. rewrite (bind_ok _ _ _ tt Ho1).
        fold fdir pdir r1. cbn zeta.
        rewrite (bind_then (path_mkdir H pdir) _ (fs_after r1) [Mkdir pdir] fs2 tt
                   [] fs2 (inl (BackgroundRemovalError Msg.rembg_missing))
                   [Mkdir pdir]); [reflexivity | | | reflexivity].
        - unfold path_mkdir. now rewrite Hm.
        - apply bind_raise. unfold import_remove. now rewrite Hi. }
      rewrite HV in Ht, Ho. left.
      apply (Hearly [Mkdir pdir] (BackgroundRemovalError Msg.rembg_missing));
        [exact Ht | exact Ho | reflexivity]. }
  rewrite (video_after_setup H src ws fs fs2 remove Ho1 Hm Hi) in Ht, Ho.
  cbn zeta in Ht, Ho. cbn [trace outcome] in Ht, Ho. fold fdir pdir in Ht, Ho.
  set (names := glob H fdir "frame_*.png" fs2) in *.
  set (paths := map (Path.joinpath fdir) (sorted names)) in *.
  unfold process_frames in Ht, Ho.
  destruct paths as [|p rest] eqn:Hp.
  { left. apply (Hearly [Mkdir pdir] (BackgroundRemovalError Msg.no_frames_produced));
      [exact Ht | exact Ho | reflexivity]. }
  rewrite <- Hp in Ht, Ho.
  rewrite trace_bind in Ht. rewrite outcome_bind in Ho.
  set (loop := transform_frames H remove pdir (List.length paths) 1 paths fs2)
    in Ht, Ho.
  destruct (outcome loop) as [e|[]] eqn:Hl.
  { left. apply (Hearly (Mkdir pdir :: trace loop) e).
    - rewrite Ht. cbn [app]. now rewrite app_nil_r.
    - exact Ho.
    - apply (no_app is_exec [_]); [reflexivity | apply transform_frames_quiet]. }
  right. exists remove, fs2, (fs_after loop), (trace loop). cbn zeta.
  fold names. split; [reflexivity|]. split; [reflexivity|]. split; [reflexivity|].
  split.
  { intros Hn. unfold paths in Hp. rewrite Hn in Hp. discriminate. }
  split; [|split; [exact Ht | exact Ho]].
  fold paths.
  replace (List.length names) with (List.length paths)
    by (unfold paths; rewrite length_map;
        apply Permutation_length, sorted_permutation).
  apply transform_frames_run. fold loop.
  destruct loop as [t f o]. cbn in Hl. now subst o.
Qed.

Lemma frames_run_no_exec (H : Host) remove total index jobs fs t fs' :
  frames_run H remove total index jobs fs t fs' -> no is_exec t.
Proof. induction 1; [reflexivity | assumption]. Qed.

Lemma no_middle P (a b : list event) e :
  no P (a ++ e :: b)%list -> P e = false.
Proof.
  unfold no. rewrite existsb_app. cbn. intros Hn.
  apply orb_false_elim in Hn as [_ Hn]. now apply orb_false_elim in Hn as [Hn _].
Qed.

(** The only [P]-event of a list is found at one place. *)
Lemma split_at_only P (a b t1 t2 : list event) x e :
  no P a -> no P b -> (a ++ x :: b = t1 ++ e :: t2)%list -> P e = true ->
  t1 = a /\ e = x /\ t2 = b.
Proof.
  intros Ha Hb. revert t1. induction a as [|y a IH]; intros t1 E He.
  - destruct t1 as [|z t1]; cbn in E.
    + injection E as -> ->. now repeat split.
    + injection E as -> ->. rewrite (no_middle P _ _ _ Hb) in He. discriminate.
  - unfold no in Ha. cbn in Ha. apply orb_false_elim in Ha as [Hy Ha].
    destruct t1 as [|z t1]; cbn in E.
    + injection E as -> _. rewrite Hy in He. discriminate.
    + injection E as -> E. destruct (IH Ha t1 E He) as [-> [-> ->]].
      now repeat split.
Qed.

(** C2, as the code has it.  On the video path, every call of the
    removal engine comes after a run of the extraction command that
    exited with code 0, and no run of the stream-inspection tool comes
    before any call of the removal engine.  The probe is started only
    once every frame has been transformed: whenever the probe is run,
    what precedes it is the start message, the extraction, the creation
    of the output directory, the complete loop over every frame of the
    sorted listing (not empty) and the probe's command line, and
    nothing is read, removed or written after it.  The composition
    command is run only after a probe that exited with code 0. *)
Theorem transform_between_extraction_and_probe (H : Host) source workspace fs :
  is_image (resolve H source fs) = false ->
  let src := resolve H source fs in
  let ws := resolve H workspace fs in
  let fdir := ws // "frames" in
  let pdir := ws // "frames_processed" in
  let r1 := _extract_video_frames H src fdir fs in
  let r := remove_background H source workspace fs in
  each_after is_remove is_extract_ok (trace r)
  /\ none_before is_probe is_remove (trace r)
  /\ (forall t1 e t2,
        trace r = (t1 ++ e :: t2)%list -> is_probe e = true ->
        exists remove fs2 fs3 loop,
          let names := glob H fdir "frame_*.png" fs2 in
          rembg H = Some remove
          /\ mkdir H pdir (fs_after r1) = inr fs2
          /\ names <> []
          /\ frames_run H remove (List.length names) 1
               (jobs_of_paths pdir (map (Path.joinpath fdir) (sorted names)))
               fs2 loop fs3
          /\ t1 = (Log (Msg.start src) :: trace r1 ++ Mkdir pdir :: loop
                     ++ [Log (Msg.ffprobe_start (ffprobe_command src))])%list
          /\ no is_transform t2)
  /\ each_after is_compose is_probe_ok (trace r).
Proof.
  intros Hv src ws fdir pdir r1 r.
  destruct (removal_between_extraction_and_probe H source workspace fs Hv)
    as [Ha Hb].
  split; [exact Ha | split; [exact Hb|]].
  destruct (extract_quiet H src fdir fs) as [Hxt [Hxp _]]. fold r1 in Hxt, Hxp.
  pose proof (extract_no_compose H src fdir fs) as Hxc. fold r1 in Hxc.
  destruct (video_run_cases H source workspace fs Hv)
    as [[Hnp [Hnc _]]|[remove [fs2 [fs3 [loop Hcase]]]]].
  { fold r in Hnp, Hnc. split.
    - intros t1 e t2 E He. exfalso. rewrite E in Hnp.
      rewrite (no_middle is_probe _ _ _ Hnp) in He. discriminate.
    - now apply each_after_vacuous. }
  cbn zeta in Hcase. fold src ws fdir pdir r1 r in Hcase.
  destruct Hcase as (Hi & Ho1 & Hm & Hne & Hloop & Ht & _).
  pose proof (frames_run_no_exec _ _ _ _ _ _ _ _ Hloop) as Hle.
  assert (Hpre : forall P, P (Log (Msg.start src)) = false ->
                           P (Mkdir pdir) = false ->
                           no P (trace r1) ->
                           (forall e, P e = true -> is_exec e = true) ->
                           no P (Log (Msg.start src) :: trace r1
                                   ++ Mkdir pdir :: loop)%list).
  { intros P Hs Hk Hx Hexec. apply (no_app P [_]); [unfold no; cbn [existsb]; now rewrite Hs|].
    apply no_app; [exact Hx|]. apply (no_app P [_]); [unfold no; cbn [existsb]; now rewrite Hk|].
    apply (no_weaken _ _ _ Hexec Hle). }
  destruct (finish_shape H src ws pdir fs3)
    as [Hfin|[p [tail (Hfin & Htp & Htt & Htc)]]]; cbn zeta in Hfin.
  { rewrite Hfin, app_nil_r in Ht. split.
    - intros t1 e t2 E He. exfalso. rewrite E in Ht.
      pose proof (Hpre is_probe eq_refl eq_refl Hxp is_probe_exec) as Hn.
      rewrite <- Ht in Hn. rewrite (no_middle is_probe _ _ _ Hn) in He.
      discriminate.
    - apply each_after_vacuous. rewrite Ht.
      apply (Hpre is_compose eq_refl eq_refl Hxc is_compose_exec). }
  assert (Ht' : trace r
                = ((Log (Msg.start src) :: trace r1 ++ Mkdir pdir :: loop
                      ++ [Log (Msg.ffprobe_start (ffprobe_command src))])
                     ++ Exec (ffprobe_command src) p :: tail)%list).
  { rewrite Ht, Hfin. cbn [app]. f_equal. rewrite <- !app_assoc. cbn [app].
    f_equal. f_equal. rewrite <- app_assoc. reflexivity. }
  assert (Hfront : forall P, P (Log (Msg.start src)) = false ->
                     P (Mkdir pdir) = false ->
                     P (Log (Msg.ffprobe_start (ffprobe_command src))) = false ->
                     no P (trace r1) ->
                     (forall e, P e = true -> is_exec e = true) ->
                     no P (Log (Msg.start src) :: trace r1 ++ Mkdir pdir :: loop
                             ++ [Log (Msg.ffprobe_start (ffprobe_command src))])%list).
  { intros P Hs Hk Hq Hx Hexec.
    pose proof (Hpre P Hs Hk Hx Hexec) as Hn.
    replace (Log (Msg.start src) :: trace r1 ++ Mkdir pdir :: loop
               ++ [Log (Msg.ffprobe_start (ffprobe_command src))])%list
      with ((Log (Msg.start src) :: trace r1 ++ Mkdir pdir :: loop)
              ++ [Log (Msg.ffprobe_start (ffprobe_command src))])%list.
    - apply no_app; [exact Hn | unfold no; cbn [existsb]; now rewrite Hq].
    - cbn [app]. f_equal. rewrite <- app_assoc. reflexivity. }
  split.
  - intros t1 e t2 E He. rewrite Ht' in E.
    destruct (split_at_only is_probe _ _ _ _ _ _
                (Hfront is_probe eq_refl eq_refl eq_refl Hxp is_probe_exec)
                Htp E He) as [-> [_ ->]].
    exists remove, fs2, fs3, loop. cbn zeta. now repeat split.
  - rewrite Ht'.
    pose proof (Hfront is_compose eq_refl eq_refl eq_refl Hxc is_compose_exec)
      as Hfc.
    destruct (existsb is_compose tail) eqn:Hc.
    + change (Exec (ffprobe_command src) p :: tail)
        with ([Exec (ffprobe_command src) p] ++ tail)%list.
      rewrite app_assoc. apply each_after_prefix.
      * apply no_app; [exact Hfc | reflexivity].
      * rewrite existsb_app. apply orb_true_iff. right.
        cbn [existsb is_probe_ok ffprobe_command]. rewrite (Htc eq_refl).
        reflexivity.
    + apply each_after_vacuous. apply no_app; [exact Hfc|].
      unfold no. cbn [existsb]. now rewrite Hc.
Qed.

Lemma transform_between_extraction_and_probe_witness :
  each_after is_remove is_extract_ok (trace clip_run)
  /\ none_before is_probe is_remove (trace clip_run)
  /\ (exists fs3 loop,
        frames_run (Demo.host Demo.clip) Demo.cutout 2 1
          [("frame_0000001.png", "/tmp/ws/frames/frame_0000001.png",
            "/tmp/ws/frames_processed/frame_0000001.png");
           ("frame_0000002.png", "/tmp/ws/frames/frame_0000002.png",
            "/tmp/ws/frames_processed/frame_0000002.png")]
          Demo.extracted_files loop fs3
        /\ firstn 14 (trace clip_run)
           = ([Log (Msg.start "/in/clip.mp4"); Mkdir "/tmp/ws/frames";
               Log (Msg.ffmpeg_start
                      ["ffmpeg"; "-y"; "-i"; "/in/clip.mp4";
                       "/tmp/ws/frames/frame_%07d.png"]);
               Exec ["ffmpeg"; "-y"; "-i"; "/in/clip.mp4";
                     "/tmp/ws/frames/frame_%07d.png"] (Demo.ok EmptyString);
               Mkdir "/tmp/ws/frames_processed"]
                ++ loop
                ++ [Log (Msg.ffprobe_start (ffprobe_command "/in/clip.mp4"))])%list
        /\ no is_transform (skipn 15 (trace clip_run)))
  /\ each_after is_compose is_probe_ok (trace clip_run).
Proof.
  destruct (transform_between_extraction_and_probe (Demo.host Demo.clip)
              "/in/clip.mp4" "/tmp/ws" Demo.clip_files eq_refl)
    as (Ha & Hb & Hc & Hd).
  split; [exact Ha | split; [exact Hb | split; [|exact Hd]]].
  destruct (Hc (firstn 14 (trace clip_run))
              (Exec (ffprobe_command "/in/clip.mp4")
                 (Demo.ok (Demo.probe_text "24/1")))
              (skipn 15 (trace clip_run)))
    as (remove & fs2 & fs3 & loop & Hi & Hm & _ & Hloop & Ht & Hn);
    [vm_compute; reflexivity | reflexivity |].
  cbn in Hi, Hm. injection Hi as <-. injection Hm as <-.
  exists fs3, loop. split; [exact Hloop | split; [|exact Hn]].
  rewrite Ht. reflexivity.
Defined.

(** C3, as the code has it.  In sequence mode the loop completes
    exactly in the runs in which every frame of the list goes, in
    order, through: the progress message (index / total), the read of
    the frame, the removal applied to the bytes just read, and the
    write of what the removal returned under the frame's own file name
    in the output directory; so the progress message of a frame comes
    before that frame is processed, not after.  In a video run that
    returns a result, the frames are those the frames directory lists
    once the output directory is made, in the order of their names,
    numbered from 1 with their number as total, each read from the
    frames directory and written under the same name to the output
    directory; nothing else is read, removed or written. *)
Theorem frames_announced_then_transformed :
  (forall (H : Host) remove pdir total index paths fs t fs',
      transform_frames H remove pdir total index paths fs
      = mkRun t fs' (inr tt)
      <-> frames_run H remove total index (jobs_of_paths pdir paths) fs t fs')
  /\ (forall (H : Host) source workspace fs res,
         lists_names H ->
         is_image (resolve H source fs) = false ->
         outcome (remove_background H source workspace fs) = inr res ->
         let src := resolve H source fs in
         let ws := resolve H workspace fs in
         let fdir := ws // "frames" in
         let pdir := ws // "frames_processed" in
         let r1 := _extract_video_frames H src fdir fs in
         exists remove fs2 fs3 loop,
           let names := glob H fdir "frame_*.png" fs2 in
           let fin := finish_video H src ws pdir fs3 in
           rembg H = Some remove
           /\ mkdir H pdir (fs_after r1) = inr fs2
           /\ Permutation (sorted names) names
           /\ Sorted name_le (sorted names)
           /\ frames_run H remove (List.length names) 1
                (jobs_of_names fdir pdir (sorted names)) fs2 loop fs3
           /\ trace (remove_background H source workspace fs)
              = (Log (Msg.start src) :: trace r1 ++ Mkdir pdir :: loop
                   ++ trace fin)%list
           /\ no is_transform (trace r1)
           /\ no is_transform (trace fin)).
Proof.
  split.
  - intros. apply transform_frames_run.
  - intros H source workspace fs res Hnames Hv Hres src ws fdir pdir r1.
    destruct (video_run_cases H source workspace fs Hv)
      as [(_ & _ & e & He)|[remove [fs2 [fs3 [loop Hcase]]]]].
    { rewrite He in Hres. discriminate. }
    cbn zeta in Hcase. fold src ws fdir pdir r1 in Hcase.
    destruct Hcase as (Hi & Ho1 & Hm & Hne & Hloop & Ht & _).
    exists remove, fs2, fs3, loop. cbn zeta.
    split; [exact Hi | split; [exact Hm|]].
    split; [apply sorted_permutation | split; [apply sorted_sorted|]].
    split; [|split; [exact Ht | split]].
    + rewrite <- (jobs_of_listed fdir pdir); [exact Hloop|].
      intros n Hn. apply (Hnames fdir "frame_*.png" fs2).
      apply (Permutation_in n (sorted_permutation _) Hn).
    + apply extract_quiet.
    + apply finish_no_transform.
Qed.

Lemma frames_announced_then_transformed_witness :
  frames_run (Demo.host Demo.clip) Demo.cutout 2 1
    [("frame_0000001.png", "/tmp/ws/frames/frame_0000001.png",
      "/tmp/ws/frames_processed/frame_0000001.png");
     ("frame_0000002.png", "/tmp/ws/frames/frame_0000002.png",
      "/tmp/ws/frames_processed/frame_0000002.png")]
    Demo.extracted_files
    [Log "Удаление фона из кадра 1/2: frame_0000001.png";
     ReadBytes "/tmp/ws/frames/frame_0000001.png";
     Remove "png:frame_0000001.png";
     WriteBytes "/tmp/ws/frames_processed/frame_0000001.png"
       "cut:png:frame_0000001.png";
     Log "Удаление фона из кадра 2/2: frame_0000002.png";
     ReadBytes "/tmp/ws/frames/frame_0000002.png";
     Remove "png:frame_0000002.png";
     WriteBytes "/tmp/ws/frames_processed/frame_0000002.png"
       "cut:png:frame_0000002.png"]
    (("/tmp/ws/frames_processed/frame_0000002.png", "cut:png:frame_0000002.png")
     :: ("/tmp/ws/frames_processed/frame_0000001.png",
         "cut:png:frame_0000001.png")
     :: Demo.extracted_files).
Proof.
  apply (proj1 (proj1 frames_announced_then_transformed
                  (Demo.host Demo.clip) Demo.cutout "/tmp/ws/frames_processed"
                  2%nat 1%nat
                  ["/tmp/ws/frames/frame_0000001.png";
                   "/tmp/ws/frames/frame_0000002.png"]
                  Demo.extracted_files _ _)).
  vm_compute. reflexivity.
Defined.
